(** * The [gh run watch] polling loop

    A shallow embedding of [pkg/cmd/run/watch/watch.go]: the command set-up
    ([NewCmdWatch]), the polling loop ([watchRun]) and one poll-and-redraw
    step ([renderRun]).

    The program talks to the outside world (the REST API, the terminal, the
    clock).  Every such interaction is recorded, in order, in a trace of
    events, and what the world answers may depend on everything that
    happened before: the collaborators are functions of the trace so far.
    The code itself is written in a state monad over that trace.  The loop
    of [watchRun] need not end (a run may never complete), so it runs on
    fuel: one unit per turn.

    The module [View] further down embeds the [gh workflow view] command
    in the same way. *)

From Stdlib Require Import ZArith String Ascii Bool Lia DecimalString List.
Import ListNotations.
Open Scope string_scope.
Open Scope list_scope.

Set Implicit Arguments.

(** ** Go values *)

Module Go.

(** Go's [error] values, as far as the watch command builds them. *)
Inductive error : Type :=
| New (msg : string)                  (* errors.New(msg), or any error of a collaborator *)
| Errorf_w (msg : string) (err : error)  (* fmt.Errorf(msg ++ "%w", err) *)
| FlagError (err : error).            (* &cmdutil.FlagError{Err: err} *)

(** [err.Error()] *)
Fixpoint Error (e : error) : string :=
  match e with
  | New msg => msg
  | Errorf_w msg err => (msg ++ Error err)%string
  | FlagError err => Error err
  end.

(** [errors.Unwrap(err)] *)
Definition Unwrap (e : error) : option error :=
  match e with
  | New _ => None
  | Errorf_w _ err => Some err
  | FlagError err => Some err
  end.

(** A Go call returning [(value, error)]: the value is only looked at when
    the error is nil. *)
Inductive result (A : Type) : Type :=
| Ok (a : A)
| Err (err : error).
Arguments Ok {A} a.
Arguments Err {A} err.

Definition is_err {A} (r : result A) : bool :=
  match r with Ok _ => false | Err _ => true end.

(** [int] is 64 bits wide; arithmetic wraps around. *)
Definition wrap_int (z : Z) : Z :=
  (z + 2 ^ 63) mod 2 ^ 64 - 2 ^ 63.

Definition int_mul (a b : Z) : Z := wrap_int (a * b).

(** [fmt.Sprintf("%d", n)] *)
Definition itoa (n : Z) : string := NilEmpty.string_of_int (Z.to_int n).

(** [time.Duration] counts nanoseconds. *)
Definition Nanosecond : Z := 1.
Definition Second : Z := 1000000000 * Nanosecond.

Definition esc : string := String "027"%char EmptyString.
Definition nl : string := String "010"%char EmptyString.

Fixpoint last_char (s : string) : option ascii :=
  match s with
  | EmptyString => None
  | String c r =>
      match r with
      | EmptyString => Some c
      | String _ _ => last_char r
      end
  end.

End Go.
Import Go.

(** ** Data of the [shared] package used by the watch command *)

(** Modelled from the spec: the constants [shared.Completed] and
    [shared.Failure] of the run package; a status and a conclusion are
    strings (the spec names the values "completed" and "failure"). *)
Definition Completed : string := "completed".
Definition Failure : string := "failure".

Section Model.

(** Opaque handles and payloads of the collaborators. *)
Variables HTTPClient Client Repo ColorScheme Time Job Annotation : Type.

(** Modelled from the spec: the fields of [shared.Run] that the watch
    command reads. *)
Record Run : Type := mkRun {
  ID : Z;
  Status : string;
  Conclusion : string;
  CreatedAt : Time
}.

(** *** Traces *)

Inductive event : Type :=
| EvHttpClient (r : result HTTPClient)
| EvBaseRepo (r : result Repo)
| EvPromptForRun (r : result string)
| EvGetRun (runID : string) (r : result Run)
| EvPullRequestForRun (run : Run) (r : result Z)
| EvGetJobs (run : Run) (r : result (list Job))
| EvGetAnnotations (job : Job) (r : result (list Annotation))
| EvWrite (s : string)           (* bytes written to opts.IO.Out *)
| EvSleep (d : Z).               (* time.Sleep(d), d in nanoseconds *)

Definition trace := list event.

(** *** The monad of the code: state passing over the trace *)

Definition M (A : Type) : Type := trace -> A * trace.

Definition ret {A} (a : A) : M A := fun h => (a, h).

Definition bind {A B} (m : M A) (k : A -> M B) : M B :=
  fun h => let (a, h') := m h in k a h'.

(** Ask the world something: the answer depends on the past, and the call
    with its answer joins the trace. *)
Definition ask {A} (answer : trace -> A) (ev : A -> event) : M A :=
  fun h => (answer h, h ++ [ev (answer h)]).

(** Look at the world without changing it. *)
Definition peek {A} (answer : trace -> A) : M A :=
  fun h => (answer h, h).

Definition emit (ev : event) : M unit :=
  fun h => (tt, h ++ [ev]).

(** *** Collaborators *)

(** Pure helpers of other packages ([api], [shared], [utils],
    [iostreams], [time]). *)
Record Helpers : Type := mkHelpers {
  NewClientFromHTTP : HTTPClient -> Client;
  Sub : Time -> Time -> Z;                      (* t.Sub(u) *)
  FuzzyAgo : Z -> string;
  Bold : ColorScheme -> string -> string;
  Boldf : ColorScheme -> string -> list Z -> string;
  RenderRunHeader : ColorScheme -> Run -> string -> string -> string;
  RenderJobs : ColorScheme -> list Job -> bool -> string;
  RenderAnnotations : ColorScheme -> list Annotation -> string
}.

(** The remote API, the prompt and the wall clock. *)
Record World : Type := mkWorld {
  GetRun : trace -> Client -> Repo -> string -> result Run;
  GetJobs : trace -> Client -> Repo -> Run -> result (list Job);
  GetAnnotations : trace -> Client -> Repo -> Job -> result (list Annotation);
  PullRequestForRun : trace -> Client -> Repo -> Run -> result Z;
  PromptForRun : trace -> ColorScheme -> Client -> Repo -> result string;
  time_Now : trace -> Time
}.

Record IOStreams : Type := mkIOStreams {
  CanPrompt : bool;
  ColorScheme_ : ColorScheme
}.

Record WatchOptions : Type := mkWatchOptions {
  IO : IOStreams;
  HttpClient : trace -> result HTTPClient;
  BaseRepo : trace -> result Repo;
  RunID : string;
  Interval : Z;
  Prompt : bool;
  Now : trace -> Time
}.

Record Factory : Type := mkFactory {
  f_IOStreams : IOStreams;
  f_HttpClient : trace -> result HTTPClient;
  f_BaseRepo : trace -> result Repo
}.

(** *** The code *)

Variable hp : Helpers.
Variable w : World.

Notation "x <- m ;; k" := (bind m (fun x => k))
  (at level 61, m at next level, right associativity).
Notation "m ;; k" := (bind m (fun _ => k))
  (at level 61, right associativity).

(** [fmt.Fprint(out, s)] and [fmt.Fprintln(out, s)]; the values they return
    are dropped by the code, and left out here (the module [WatchIO] below
    keeps them). *)
Definition Fprint (s : string) : M unit := emit (EvWrite s).
Definition Fprintln (s : string) : M unit := emit (EvWrite (s ++ nl)%string).

Definition Sleep (d : Z) : M unit := emit (EvSleep d).

Definition shared_GetRun (client : Client) (repo : Repo) (runID : string)
  : M (result Run) :=
  ask (fun h => GetRun w h client repo runID) (EvGetRun runID).

Definition shared_GetJobs (client : Client) (repo : Repo) (run : Run)
  : M (result (list Job)) :=
  ask (fun h => GetJobs w h client repo run) (EvGetJobs run).

Definition shared_GetAnnotations (client : Client) (repo : Repo) (job : Job)
  : M (result (list Annotation)) :=
  ask (fun h => GetAnnotations w h client repo job) (EvGetAnnotations job).

Definition shared_PullRequestForRun (client : Client) (repo : Repo) (run : Run)
  : M (result Z) :=
  ask (fun h => PullRequestForRun w h client repo run) (EvPullRequestForRun run).

Definition shared_PromptForRun (cs : ColorScheme) (client : Client) (repo : Repo)
  : M (result string) :=
  ask (fun h => PromptForRun w h cs client repo) EvPromptForRun.

(** The [for _, job := range jobs] loop of [renderRun]: the state of the
    loop is the slice [annotations]; it leaves with [annotationErr] set at
    the first fetch that fails. *)
Fixpoint rangeJobs (client : Client) (repo : Repo) (jobs : list Job)
         (annotations : list Annotation)
  : M (list Annotation * option error) :=
  match jobs with
  | [] => ret (annotations, None)
  | job :: jobs' =>
      r <- shared_GetAnnotations client repo job ;;
      match r with
      | Err annotationErr => ret (annotations, Some annotationErr)
      | Ok as_ => rangeJobs client repo jobs' (annotations ++ as_)
      end
  end.

Definition cursorHome : string := (esc ++ "[0;0H")%string.
Definition clearToEnd : string := (esc ++ "[J")%string.
Definition clearScreen : string := (esc ++ "[2J")%string.

Definition refreshing : string :=
  "Refreshing run status every %d seconds. Press Ctrl+C to quit.".

(** [renderRun]: on an error the returned run is not looked at by the
    caller, so the two results are merged into one [result]. *)
Definition renderRun (opts : WatchOptions) (client : Client) (repo : Repo)
           (run : Run) (prNumber : string) : M (result Run) :=
  let cs := ColorScheme_ (IO opts) in
  r <- shared_GetRun client repo (itoa (ID run)) ;;
  match r with
  | Err err => ret (Err (Errorf_w "failed to get run: " err))
  | Ok run =>
      now <- peek (Now opts) ;;
      let ago := Sub hp now (CreatedAt run) in
      j <- shared_GetJobs client repo run ;;
      match j with
      | Err err => ret (Err (Errorf_w "failed to get jobs: " err))
      | Ok jobs =>
          a <- rangeJobs client repo jobs [] ;;
          let (annotations, annotationErr) := a in
          match annotationErr with
          | Some annotationErr =>
              ret (Err (Errorf_w "failed to get annotations: " annotationErr))
          | None =>
              Fprint cursorHome ;;
              Fprint clearToEnd ;;
              Fprintln (Boldf hp cs refreshing [Interval opts]) ;;
              Fprintln "" ;;
              Fprintln (RenderRunHeader hp cs run (FuzzyAgo hp ago) prNumber) ;;
              Fprintln "" ;;
              if (List.length jobs =? 0)%nat && (Conclusion run =? Failure)%string
              then ret (Ok run)
              else
                Fprintln (Bold hp cs "JOBS") ;;
                Fprintln (RenderJobs hp cs jobs true) ;;
                (if (0 <? List.length annotations)%nat
                 then
                   Fprintln "" ;;
                   Fprintln (Bold hp cs "ANNOTATIONS") ;;
                   Fprintln (RenderAnnotations hp cs annotations)
                 else ret tt) ;;
                ret (Ok run)
          end
      end
  end.

(** What a call of [watchRun] comes to: it returns an error (nil or not),
    or the loop is still running when the fuel is spent. *)
Inductive outcome : Type :=
| OutOfFuel
| Returned (err : option error).

(** [for run.Status != shared.Completed { ... }]: the condition is tested
    first; one unit of fuel pays for one execution of the body. *)
Fixpoint watchLoop (fuel : nat) (opts : WatchOptions) (client : Client)
         (repo : Repo) (run : Run) (prNumber : string) : M outcome :=
  if (Status run =? Completed)%string then ret (Returned None)
  else
    match fuel with
    | O => ret OutOfFuel
    | S fuel' =>
        r <- renderRun opts client repo run prNumber ;;
        match r with
        | Err err => ret (Returned (Some err))
        | Ok run =>
            Sleep (int_mul (Interval opts) 1000) ;;
            watchLoop fuel' opts client repo run prNumber
        end
    end.

Definition watchRun (fuel : nat) (opts : WatchOptions) : M outcome :=
  c <- ask (HttpClient opts) EvHttpClient ;;
  match c with
  | Err err => ret (Returned (Some (Errorf_w "failed to create http client: " err)))
  | Ok c =>
      let client := NewClientFromHTTP hp c in
      rp <- ask (BaseRepo opts) EvBaseRepo ;;
      match rp with
      | Err err => ret (Returned (Some (Errorf_w "failed to determine base repo: " err)))
      | Ok repo =>
          p <- (if Prompt opts
                then shared_PromptForRun (ColorScheme_ (IO opts)) client repo
                else ret (Ok (RunID opts))) ;;
          match p with
          | Err err => ret (Returned (Some err))
          | Ok runID =>
              r <- shared_GetRun client repo runID ;;
              match r with
              | Err err => ret (Returned (Some (Errorf_w "failed to get run: " err)))
              | Ok run =>
                  n <- shared_PullRequestForRun client repo run ;;
                  let prNumber :=
                    match n with
                    | Ok number => (" #" ++ itoa number)%string
                    | Err _ => ""
                    end in
                  Fprint clearScreen ;;
                  watchLoop fuel opts client repo run prNumber
              end
          end
      end
  end.

(** [NewCmdWatch]: the options the command starts from, and its [RunE].
    [opts.BaseRepo] is nil until [RunE] sets it, which it does before
    anything reads it; here it is set from the start. *)
Definition NewCmdWatch_opts (f : Factory) : WatchOptions :=
  {| IO := f_IOStreams f;
     HttpClient := f_HttpClient f;
     BaseRepo := f_BaseRepo f;
     RunID := "";
     Interval := 2;
     Prompt := false;
     Now := time_Now w |}.

Definition set_RunID (opts : WatchOptions) (runID : string) : WatchOptions :=
  {| IO := IO opts; HttpClient := HttpClient opts; BaseRepo := BaseRepo opts;
     RunID := runID; Interval := Interval opts; Prompt := Prompt opts;
     Now := Now opts |}.

Definition set_Prompt (opts : WatchOptions) (p : bool) : WatchOptions :=
  {| IO := IO opts; HttpClient := HttpClient opts; BaseRepo := BaseRepo opts;
     RunID := RunID opts; Interval := Interval opts; Prompt := p;
     Now := Now opts |}.

Definition RunE (fuel : nat) (f : Factory)
           (runF : option (WatchOptions -> M (option error)))
           (args : list string) : M outcome :=
  let opts := NewCmdWatch_opts f in
  let parsed : result WatchOptions :=
    match args with
    | arg0 :: _ => Ok (set_RunID opts arg0)
    | [] =>
        if negb (CanPrompt (IO opts))
        then Err (FlagError
               (New "run ID required when not running interactively"))
        else Ok (set_Prompt opts true)
    end in
  match parsed with
  | Err err => ret (Returned (Some err))
  | Ok opts =>
      match runF with
      | Some runF => e <- runF opts ;; ret (Returned e)
      | None => watchRun fuel opts
      end
  end.

(** *** Reading traces *)

Definition is_write (ev : event) : bool :=
  match ev with EvWrite _ => true | _ => false end.

Definition is_sleep (ev : event) : bool :=
  match ev with EvSleep _ => true | _ => false end.

Definition is_GetRun (ev : event) : bool :=
  match ev with EvGetRun _ _ => true | _ => false end.

Definition is_PullRequestForRun (ev : event) : bool :=
  match ev with EvPullRequestForRun _ _ => true | _ => false end.

(** The three fetches of an iteration. *)
Definition is_fetch (ev : event) : bool :=
  match ev with
  | EvGetRun _ _ | EvGetJobs _ _ | EvGetAnnotations _ _ => true
  | _ => false
  end.

(** A call of a collaborator that came back with an error. *)
Definition failed (ev : event) : bool :=
  match ev with
  | EvHttpClient r => is_err r
  | EvBaseRepo r => is_err r
  | EvPromptForRun r => is_err r
  | EvGetRun _ r => is_err r
  | EvPullRequestForRun _ r => is_err r
  | EvGetJobs _ r => is_err r
  | EvGetAnnotations _ r => is_err r
  | EvWrite _ | EvSleep _ => false
  end.

(** A redraw starts by sending the cursor home. *)
Definition is_redraw (ev : event) : bool :=
  match ev with EvWrite s => (s =? cursorHome)%string | _ => false end.

Definition count (p : event -> bool) (tr : trace) : nat :=
  List.length (filter p tr).

(** The runs that the run fetches of a trace returned, in order. *)
Fixpoint fetched_runs (tr : trace) : list Run :=
  match tr with
  | [] => []
  | EvGetRun _ (Ok run) :: tr' => run :: fetched_runs tr'
  | _ :: tr' => fetched_runs tr'
  end.

(** The annotation fetches for [jobs] with the answers [rs], as events. *)
Fixpoint annEvents (jobs : list Job) (rs : list (result (list Annotation)))
  : trace :=
  match jobs, rs with
  | job :: jobs', r :: rs' => EvGetAnnotations job r :: annEvents jobs' rs'
  | _, _ => []
  end.

(** [answered client repo h jobs rs]: asked for the annotations of [jobs]
    one after the other, starting in the past [h], the world answers
    [rs]. *)
Inductive answered (client : Client) (repo : Repo)
  : trace -> list Job -> list (result (list Annotation)) -> Prop :=
| answered_nil h : answered client repo h [] []
| answered_cons h job jobs r rs :
    GetAnnotations w h client repo job = r ->
    answered client repo (h ++ [EvGetAnnotations job r]) jobs rs ->
    answered client repo h (job :: jobs) (r :: rs).

(** What a redraw writes, piece by piece, for the run, jobs and
    annotations of an iteration. *)
Definition report (opts : WatchOptions) (run : Run) (jobs : list Job)
           (annotations : list Annotation) (ago : Z) (prNumber : string)
  : list string :=
  let cs := ColorScheme_ (IO opts) in
  [ cursorHome; clearToEnd;
    (Boldf hp cs refreshing [Interval opts] ++ nl)%string;
    nl;
    (RenderRunHeader hp cs run (FuzzyAgo hp ago) prNumber ++ nl)%string;
    nl ]
  ++ (if (List.length jobs =? 0)%nat && (Conclusion run =? Failure)%string
      then []
      else
        [ (Bold hp cs "JOBS" ++ nl)%string;
          (RenderJobs hp cs jobs true ++ nl)%string ]
        ++ (if (0 <? List.length annotations)%nat
            then [ nl;
                   (Bold hp cs "ANNOTATIONS" ++ nl)%string;
                   (RenderAnnotations hp cs annotations ++ nl)%string ]
            else [])).

(** The run selection of [watchRun]: the prompt, or the run ID of the
    command line. *)
Definition selectRun (opts : WatchOptions) (client : Client) (repo : Repo)
  : M (result string) :=
  if Prompt opts
  then shared_PromptForRun (ColorScheme_ (IO opts)) client repo
  else ret (Ok (RunID opts)).

(** The [prNumber] of [watchRun], from the answer of the lookup. *)
Definition prSuffix (n : result Z) : string :=
  match n with
  | Ok number => (" #" ++ itoa number)%string
  | Err _ => ""
  end.

(** [scripted b runs]: from the [b]-th run fetch on, the run fetches return
    [runs], one after the other, whatever else happens in between. *)
Definition scripted (b : nat) (runs : list Run) : Prop :=
  forall h client repo runID k run,
    count is_GetRun h = b + k ->
    nth_error runs k = Some run ->
    GetRun w h client repo runID = Ok run.

(** [until_completed run runs]: of the snapshots [run :: runs], the last
    one is completed and no other is. *)
Fixpoint until_completed (run : Run) (runs : list Run) : Prop :=
  match runs with
  | [] => Status run = Completed
  | next :: runs' => Status run <> Completed /\ until_completed next runs'
  end.

(** The number of snapshots that are not completed. *)
Definition non_terminal (runs : list Run) : nat :=
  length (filter (fun run => negb (Status run =? Completed)%string) runs).

Definition jobs_never_fail : Prop :=
  forall h client repo run, is_err (GetJobs w h client repo run) = false.

Definition annotations_never_fail : Prop :=
  forall h client repo job, is_err (GetAnnotations w h client repo job) = false.

(** [wraps stage e err]: [err] wraps [e] behind the message of the stage
    that failed. *)
Definition wraps (stage : string) (e err : error) : Prop :=
  Unwrap err = Some e /\ Error err = (stage ++ ": " ++ Error e)%string.

(** [set_up opts h0 client repo runID h2]: started in the past [h0], the
    set-up of [watchRun] goes through: the HTTP client is built, the base
    repository is found and a run is selected, which leads to [h2]. *)
Definition set_up (opts : WatchOptions) (h0 : trace) (client : Client)
           (repo : Repo) (runID : string) (h2 : trace) : Prop :=
  exists c,
    HttpClient opts h0 = Ok c /\
    client = NewClientFromHTTP hp c /\
    BaseRepo opts (h0 ++ [EvHttpClient (Ok c)]) = Ok repo /\
    selectRun opts client repo (h0 ++ [EvHttpClient (Ok c); EvBaseRepo (Ok repo)])
    = (Ok runID, h2).

(** [redrawn_with opts prNumber tr]: whatever [tr] writes, it writes as whole
    reports, and each of them has [prNumber] in its header. *)
Inductive redrawn_with (opts : WatchOptions) (prNumber : string)
  : trace -> Prop :=
| redrawn_nil : redrawn_with opts prNumber []
| redrawn_skip ev tr :
    is_write ev = false ->
    redrawn_with opts prNumber tr ->
    redrawn_with opts prNumber (ev :: tr)
| redrawn_report run jobs annotations ago tr :
    redrawn_with opts prNumber tr ->
    redrawn_with opts prNumber
      (map EvWrite (report opts run jobs annotations ago prNumber) ++ tr).

End Model.

Arguments EvHttpClient {HTTPClient Repo Time Job Annotation} r.
Arguments EvBaseRepo {HTTPClient Repo Time Job Annotation} r.
Arguments EvPromptForRun {HTTPClient Repo Time Job Annotation} r.
Arguments EvGetRun {HTTPClient Repo Time Job Annotation} runID r.
Arguments EvPullRequestForRun {HTTPClient Repo Time Job Annotation} run r.
Arguments EvGetJobs {HTTPClient Repo Time Job Annotation} run r.
Arguments EvGetAnnotations {HTTPClient Repo Time Job Annotation} job r.
Arguments EvWrite {HTTPClient Repo Time Job Annotation} s.
Arguments EvSleep {HTTPClient Repo Time Job Annotation} d.
Arguments annEvents {HTTPClient Repo Time Job Annotation} jobs rs.
Arguments ret {HTTPClient Repo Time Job Annotation A} a _.
Arguments is_write {HTTPClient Repo Time Job Annotation} ev.
Arguments is_sleep {HTTPClient Repo Time Job Annotation} ev.
Arguments is_GetRun {HTTPClient Repo Time Job Annotation} ev.
Arguments is_PullRequestForRun {HTTPClient Repo Time Job Annotation} ev.
Arguments is_fetch {HTTPClient Repo Time Job Annotation} ev.
Arguments is_redraw {HTTPClient Repo Time Job Annotation} ev.
Arguments failed {HTTPClient Repo Time Job Annotation} ev.

(** [same_but_pull_requests w w' h client repo run]: the worlds [w] and [w']
    answer alike, except that they may name different pull requests for a
    run at any moment other than [h]. *)
Definition same_but_pull_requests
           {HTTPClient Client Repo ColorScheme Time Job Annotation : Type}
           (w w' : World HTTPClient Client Repo ColorScheme Time Job Annotation)
           (h : trace HTTPClient Repo Time Job Annotation)
           (client : Client) (repo : Repo) (run : Run Time) : Prop :=
  (forall h c r runID, GetRun w' h c r runID = GetRun w h c r runID) /\
  (forall h c r run, GetJobs w' h c r run = GetJobs w h c r run) /\
  (forall h c r job, GetAnnotations w' h c r job = GetAnnotations w h c r job) /\
  (forall h cs c r, PromptForRun w' h cs c r = PromptForRun w h cs c r) /\
  PullRequestForRun w' h client repo run = PullRequestForRun w h client repo run.

(** ** Worlds to run the code in *)

Module Scenario.

(** [fmt.Sprintf] for formats with [%d] verbs only. *)
Fixpoint Sprintf (format : string) (args : list Z) : string :=
  match format with
  | EmptyString => EmptyString
  | String "%" (String "d" rest) =>
      match args with
      | a :: args' => (itoa a ++ Sprintf rest args')%string
      | [] => ("%!d(MISSING)" ++ Sprintf rest [])%string
      end
  | String c rest => String c (Sprintf rest args)
  end.

(** Handles carry nothing; times are numbers; jobs and annotations are
    their texts. *)
Definition helpers : Helpers unit unit unit Z string string :=
  {| NewClientFromHTTP := fun _ => tt;
     Sub := Z.sub;
     FuzzyAgo := fun d => (itoa d ++ " ago")%string;
     Bold := fun _ s => s;
     Boldf := fun _ format args => Sprintf format args;
     RenderRunHeader := fun _ run ago prNumber =>
       ("run " ++ itoa (ID run) ++ prNumber ++ " " ++ ago)%string;
     RenderJobs := fun _ jobs _ => String.concat nl jobs;
     RenderAnnotations := fun _ annotations => String.concat nl annotations |}.

Definition inProgress : Run Z :=
  {| ID := 7%Z; Status := "in_progress"; Conclusion := ""; CreatedAt := 100%Z |}.

Definition succeeded : Run Z :=
  {| ID := 7%Z; Status := "completed"; Conclusion := "success"; CreatedAt := 100%Z |}.

Definition failedEarly : Run Z :=
  {| ID := 7%Z; Status := "completed"; Conclusion := "failure"; CreatedAt := 100%Z |}.

(** A world that follows a script: the run fetches return [runs] one after
    the other, a run has the jobs [jobsOf] and a job the annotations
    [annotationsOf], and the pull request lookup says [pr]. *)
Definition world (runs : list (result (Run Z)))
           (jobsOf : Run Z -> result (list string))
           (annotationsOf : string -> result (list string))
           (pr : result Z)
  : World unit unit unit unit Z string string :=
  {| GetRun := fun h _ _ _ =>
       nth (count is_GetRun h) runs (Err (New "run not found"));
     GetJobs := fun _ _ _ run => jobsOf run;
     GetAnnotations := fun _ _ _ job => annotationsOf job;
     PullRequestForRun := fun _ _ _ _ => pr;
     PromptForRun := fun _ _ _ _ => Ok "7";
     time_Now := fun _ => 160%Z |}.

Definition buildAndTest (run : Run Z) : result (list string) :=
  Ok ["build"; "test"].

Definition noJobs (run : Run Z) : result (list string) := Ok [].

Definition jobsDown (run : Run Z) : result (list string) :=
  Err (New "502").

Definition lint (job : string) : result (list string) :=
  if (job =? "build")%string then Ok ["unused variable"]
  else Ok ["test failed"; "exit code 1"].

Definition lintDown (job : string) : result (list string) :=
  if (job =? "build")%string then Ok ["unused variable"]
  else Err (New "502").

Definition factory (canPrompt : bool) (c : result unit)
  : Factory unit unit unit Z string string :=
  {| f_IOStreams := {| CanPrompt := canPrompt; ColorScheme_ := tt |};
     f_HttpClient := fun _ => c;
     f_BaseRepo := fun _ => Ok tt |}.

(** The usual case: the run is in progress at first, seen in progress once
    more, and then completed. *)
Definition usual : World unit unit unit unit Z string string :=
  world [Ok inProgress; Ok inProgress; Ok succeeded] buildAndTest lint (Ok 42%Z).

(** The next run fetch finds the run completed. *)
Definition completesAtOnce : World unit unit unit unit Z string string :=
  world [Ok succeeded] buildAndTest lint (Ok 42%Z).

(** The jobs cannot be fetched. *)
Definition jobsBroken : World unit unit unit unit Z string string :=
  world [Ok inProgress] jobsDown lint (Ok 42%Z).

(** The annotations of the second job cannot be fetched. *)
Definition lintBroken : World unit unit unit unit Z string string :=
  world [Ok inProgress] buildAndTest lintDown (Ok 42%Z).

(** The run failed before any job ran. *)
Definition failedBeforeJobs : World unit unit unit unit Z string string :=
  world [Ok failedEarly] noJobs lint (Ok 42%Z).

(** The pull request of the run cannot be looked up. *)
Definition noPullRequest : World unit unit unit unit Z string string :=
  world [Ok inProgress; Ok succeeded] buildAndTest lint (Err (New "404")).

(** As [usual], but the run changes its pull request while it is watched. *)
Definition fickle : World unit unit unit unit Z string string :=
  {| GetRun := GetRun usual;
     GetJobs := GetJobs usual;
     GetAnnotations := GetAnnotations usual;
     PullRequestForRun := fun h _ _ _ =>
       if (count is_GetRun h <=? 1)%nat then Ok 42%Z else Ok 99%Z;
     PromptForRun := PromptForRun usual;
     time_Now := time_Now usual |}.

(** The options of [gh run watch 7] in a session that cannot prompt, and
    the trace of its set-up. *)
Definition watch7 : WatchOptions unit unit unit Z string string :=
  set_RunID (NewCmdWatch_opts usual (factory false (Ok tt))) "7".

Definition afterSetUp : trace unit unit Z string string :=
  [EvHttpClient (Ok tt); EvBaseRepo (Ok tt)].

End Scenario.

(** ** More ways to read a trace *)

Section Reading.

Variables HTTPClient Repo Time Job Annotation : Type.

Definition is_PromptForRun (ev : event HTTPClient Repo Time Job Annotation)
  : bool :=
  match ev with EvPromptForRun _ => true | _ => false end.

(** What a turn of the loop can do: fetch, write, sleep. *)
Definition is_loop_event (ev : event HTTPClient Repo Time Job Annotation)
  : bool :=
  is_fetch ev || is_write ev || is_sleep ev.

(** What a trace wrote to the terminal, piece by piece. *)
Fixpoint writes_of (tr : trace HTTPClient Repo Time Job Annotation)
  : list string :=
  match tr with
  | [] => []
  | EvWrite s :: tr' => s :: writes_of tr'
  | _ :: tr' => writes_of tr'
  end.

(** The durations of the sleeps of a trace. *)
Fixpoint sleeps_of (tr : trace HTTPClient Repo Time Job Annotation)
  : list Z :=
  match tr with
  | [] => []
  | EvSleep d :: tr' => d :: sleeps_of tr'
  | _ :: tr' => sleeps_of tr'
  end.

(** [chained run tr]: every run fetch of [tr] asks for the ID of the run
    that the fetch before it returned ([run], for the first one); a fetch
    that fails leaves the run as it was. *)
Fixpoint chained (run : Run Time)
         (tr : trace HTTPClient Repo Time Job Annotation) : bool :=
  match tr with
  | [] => true
  | EvGetRun runID r :: tr' =>
      (runID =? itoa (ID run))%string
      && chained (match r with Ok run' => run' | Err _ => run end) tr'
  | _ :: tr' => chained run tr'
  end.

End Reading.

Arguments is_PromptForRun {HTTPClient Repo Time Job Annotation} ev.
Arguments is_loop_event {HTTPClient Repo Time Job Annotation} ev.
Arguments writes_of {HTTPClient Repo Time Job Annotation} tr.
Arguments sleeps_of {HTTPClient Repo Time Job Annotation} tr.
Arguments chained {HTTPClient Repo Time Job Annotation} run tr.

(** ** The watch command, with what its writes return

    [fmt.Fprint] and [fmt.Fprintln] return an error, which the watch
    command never looks at.  The model above leaves that error out; the
    module [WatchIO] embeds [watchRun] and [renderRun] once more with it:
    every write asks the world what the write returns, the answer joins
    the trace, and the code drops it.  The runs, the helpers and the
    streams are those of the model above. *)

Module WatchIO.

Section Model.

Variables HTTPClient Client Repo ColorScheme Time Job Annotation : Type.

(** *** Traces *)

Inductive event : Type :=
| EvHttpClient (r : result HTTPClient)
| EvBaseRepo (r : result Repo)
| EvPromptForRun (r : result string)
| EvGetRun (runID : string) (r : result (Run Time))
| EvPullRequestForRun (run : Run Time) (r : result Z)
| EvGetJobs (run : Run Time) (r : result (list Job))
| EvGetAnnotations (job : Job) (r : result (list Annotation))
| EvWrite (s : string) (err : option error)
    (* fmt.Fprint(opts.IO.Out, s), and the error it returned *)
| EvSleep (d : Z).

Definition trace := list event.

(** *** The monad of the code: state passing over the trace *)

Definition M (A : Type) : Type := trace -> A * trace.

Definition ret {A} (a : A) : M A := fun h => (a, h).

Definition bind {A B} (m : M A) (k : A -> M B) : M B :=
  fun h => let (a, h') := m h in k a h'.

Definition ask {A} (answer : trace -> A) (ev : A -> event) : M A :=
  fun h => (answer h, h ++ [ev (answer h)]).

Definition peek {A} (answer : trace -> A) : M A :=
  fun h => (answer h, h).

Definition emit (ev : event) : M unit :=
  fun h => (tt, h ++ [ev]).

(** *** Collaborators *)

(** The remote API, the prompt, the wall clock and the output stream. *)
Record World : Type := mkWorld {
  GetRun : trace -> Client -> Repo -> string -> result (Run Time);
  GetJobs : trace -> Client -> Repo -> Run Time -> result (list Job);
  GetAnnotations : trace -> Client -> Repo -> Job -> result (list Annotation);
  PullRequestForRun : trace -> Client -> Repo -> Run Time -> result Z;
  PromptForRun : trace -> ColorScheme -> Client -> Repo -> result string;
  time_Now : trace -> Time;
  Write : trace -> string -> option error
}.

Record WatchOptions : Type := mkWatchOptions {
  IO : IOStreams ColorScheme;
  HttpClient : trace -> result HTTPClient;
  BaseRepo : trace -> result Repo;
  RunID : string;
  Interval : Z;
  Prompt : bool;
  Now : trace -> Time
}.

(** *** The code *)

Variable hp : Helpers HTTPClient Client ColorScheme Time Job Annotation.
Variable w : World.

Notation "x <- m ;; k" := (bind m (fun x => k))
  (at level 61, m at next level, right associativity).
Notation "m ;; k" := (bind m (fun _ => k))
  (at level 61, right associativity).

(** [fmt.Fprint(out, s)] and [fmt.Fprintln(out, s)], with the error they
    return; the code drops it at every call. *)
Definition Fprint (s : string) : M (option error) :=
  ask (fun h => Write w h s) (EvWrite s).

Definition Fprintln (s : string) : M (option error) :=
  Fprint (s ++ nl)%string.

Definition Sleep (d : Z) : M unit := emit (EvSleep d).

Definition shared_GetRun (client : Client) (repo : Repo) (runID : string)
  : M (result (Run Time)) :=
  ask (fun h => GetRun w h client repo runID) (EvGetRun runID).

Definition shared_GetJobs (client : Client) (repo : Repo) (run : Run Time)
  : M (result (list Job)) :=
  ask (fun h => GetJobs w h client repo run) (EvGetJobs run).

Definition shared_GetAnnotations (client : Client) (repo : Repo) (job : Job)
  : M (result (list Annotation)) :=
  ask (fun h => GetAnnotations w h client repo job) (EvGetAnnotations job).

Definition shared_PullRequestForRun (client : Client) (repo : Repo)
           (run : Run Time) : M (result Z) :=
  ask (fun h => PullRequestForRun w h client repo run) (EvPullRequestForRun run).

Definition shared_PromptForRun (cs : ColorScheme) (client : Client)
           (repo : Repo) : M (result string) :=
  ask (fun h => PromptForRun w h cs client repo) EvPromptForRun.

(** The [for _, job := range jobs] loop of [renderRun]. *)
Fixpoint rangeJobs (client : Client) (repo : Repo) (jobs : list Job)
         (annotations : list Annotation)
  : M (list Annotation * option error) :=
  match jobs with
  | [] => ret (annotations, None)
  | job :: jobs' =>
      r <- shared_GetAnnotations client repo job ;;
      match r with
      | Err annotationErr => ret (annotations, Some annotationErr)
      | Ok as_ => rangeJobs client repo jobs' (annotations ++ as_)
      end
  end.

Definition renderRun (opts : WatchOptions) (client : Client) (repo : Repo)
           (run : Run Time) (prNumber : string) : M (result (Run Time)) :=
  let cs := ColorScheme_ (IO opts) in
  r <- shared_GetRun client repo (itoa (ID run)) ;;
  match r with
  | Err err => ret (Err (Errorf_w "failed to get run: " err))
  | Ok run =>
      now <- peek (Now opts) ;;
      let ago := Sub hp now (CreatedAt run) in
      j <- shared_GetJobs client repo run ;;
      match j with
      | Err err => ret (Err (Errorf_w "failed to get jobs: " err))
      | Ok jobs =>
          a <- rangeJobs client repo jobs [] ;;
          let (annotations, annotationErr) := a in
          match annotationErr with
          | Some annotationErr =>
              ret (Err (Errorf_w "failed to get annotations: " annotationErr))
          | None =>
              Fprint cursorHome ;;
              Fprint clearToEnd ;;
              Fprintln (Boldf hp cs refreshing [Interval opts]) ;;
              Fprintln "" ;;
              Fprintln (RenderRunHeader hp cs run (FuzzyAgo hp ago) prNumber) ;;
              Fprintln "" ;;
              if (List.length jobs =? 0)%nat && (Conclusion run =? Failure)%string
              then ret (Ok run)
              else
                Fprintln (Bold hp cs "JOBS") ;;
                Fprintln (RenderJobs hp cs jobs true) ;;
                (if (0 <? List.length annotations)%nat
                 then
                   Fprintln "" ;;
                   Fprintln (Bold hp cs "ANNOTATIONS") ;;
                   Fprintln (RenderAnnotations hp cs annotations) ;;
                   ret tt
                 else ret tt) ;;
                ret (Ok run)
          end
      end
  end.

(** [for run.Status != shared.Completed { ... }]: one unit of fuel pays
    for one execution of the body. *)
Fixpoint watchLoop (fuel : nat) (opts : WatchOptions) (client : Client)
         (repo : Repo) (run : Run Time) (prNumber : string) : M outcome :=
  if (Status run =? Completed)%string then ret (Returned None)
  else
    match fuel with
    | O => ret OutOfFuel
    | S fuel' =>
        r <- renderRun opts client repo run prNumber ;;
        match r with
        | Err err => ret (Returned (Some err))
        | Ok run =>
            Sleep (int_mul (Interval opts) 1000) ;;
            watchLoop fuel' opts client repo run prNumber
        end
    end.

Definition watchRun (fuel : nat) (opts : WatchOptions) : M outcome :=
  c <- ask (HttpClient opts) EvHttpClient ;;
  match c with
  | Err err => ret (Returned (Some (Errorf_w "failed to create http client: " err)))
  | Ok c =>
      let client := NewClientFromHTTP hp c in
      rp <- ask (BaseRepo opts) EvBaseRepo ;;
      match rp with
      | Err err => ret (Returned (Some (Errorf_w "failed to determine base repo: " err)))
      | Ok repo =>
          p <- (if Prompt opts
                then shared_PromptForRun (ColorScheme_ (IO opts)) client repo
                else ret (Ok (RunID opts))) ;;
          match p with
          | Err err => ret (Returned (Some err))
          | Ok runID =>
              r <- shared_GetRun client repo runID ;;
              match r with
              | Err err => ret (Returned (Some (Errorf_w "failed to get run: " err)))
              | Ok run =>
                  n <- shared_PullRequestForRun client repo run ;;
                  let prNumber :=
                    match n with
                    | Ok number => (" #" ++ itoa number)%string
                    | Err _ => ""
                    end in
                  Fprint clearScreen ;;
                  watchLoop fuel opts client repo run prNumber
              end
          end
      end
  end.

(** *** Reading traces *)

Definition is_PullRequestForRun (ev : event) : bool :=
  match ev with EvPullRequestForRun _ _ => true | _ => false end.

Definition is_write (ev : event) : bool :=
  match ev with EvWrite _ _ => true | _ => false end.

(** A call that came back with an error, writes included. *)
Definition failed (ev : event) : bool :=
  match ev with
  | EvHttpClient r => is_err r
  | EvBaseRepo r => is_err r
  | EvPromptForRun r => is_err r
  | EvGetRun _ r => is_err r
  | EvPullRequestForRun _ r => is_err r
  | EvGetJobs _ r => is_err r
  | EvGetAnnotations _ r => is_err r
  | EvWrite _ err => match err with Some _ => true | None => false end
  | EvSleep _ => false
  end.


(** The run selection of [watchRun]: the prompt, or the run ID of the
    command line. *)
Definition selectRun (opts : WatchOptions) (client : Client) (repo : Repo)
  : M (result string) :=
  if Prompt opts
  then shared_PromptForRun (ColorScheme_ (IO opts)) client repo
  else ret (Ok (RunID opts)).


End Model.

Arguments EvHttpClient {HTTPClient Repo Time Job Annotation} r.
Arguments EvBaseRepo {HTTPClient Repo Time Job Annotation} r.
Arguments EvPromptForRun {HTTPClient Repo Time Job Annotation} r.
Arguments EvGetRun {HTTPClient Repo Time Job Annotation} runID r.
Arguments EvPullRequestForRun {HTTPClient Repo Time Job Annotation} run r.
Arguments EvGetJobs {HTTPClient Repo Time Job Annotation} run r.
Arguments EvGetAnnotations {HTTPClient Repo Time Job Annotation} job r.
Arguments EvWrite {HTTPClient Repo Time Job Annotation} s err.
Arguments EvSleep {HTTPClient Repo Time Job Annotation} d.
Arguments ret {HTTPClient Repo Time Job Annotation A} a _.
Arguments is_PullRequestForRun {HTTPClient Repo Time Job Annotation} ev.
Arguments is_write {HTTPClient Repo Time Job Annotation} ev.
Arguments failed {HTTPClient Repo Time Job Annotation} ev.

(** *** Worlds to run the code in *)

(** The script of [Scenario.world], with an output stream that answers
    every write with [write]. *)
Definition world (runs : list (result (Run Z)))
           (jobsOf : Run Z -> result (list string))
           (annotationsOf : string -> result (list string))
           (pr : result Z) (write : option error)
  : World unit unit unit unit Z string string :=
  {| GetRun := fun h _ _ _ =>
       nth (List.length
              (filter (fun ev => match ev with
                                 | EvGetRun _ _ => true
                                 | _ => false
                                 end) h))
           runs (Err (New "run not found"));
     GetJobs := fun _ _ _ run => jobsOf run;
     GetAnnotations := fun _ _ _ job => annotationsOf job;
     PullRequestForRun := fun _ _ _ _ => pr;
     PromptForRun := fun _ _ _ _ => Ok "7";
     time_Now := fun _ => 160%Z;
     Write := fun _ _ => write |}.

(** The run is in progress at first and completed at the next fetch; its
    pull request cannot be looked up. *)
Definition noPullRequest : World unit unit unit unit Z string string :=
  world [Ok Scenario.inProgress; Ok Scenario.succeeded]
        Scenario.buildAndTest Scenario.lint (Err (New "404")) None.



(** The options of [gh run watch 7] in a session that cannot prompt. *)
Definition watch7 : WatchOptions unit unit unit Z string string :=
  {| IO := {| CanPrompt := false; ColorScheme_ := tt |};
     HttpClient := fun _ => Ok tt;
     BaseRepo := fun _ => Ok tt;
     RunID := "7";
     Interval := 2%Z;
     Prompt := false;
     Now := fun _ => 160%Z |}.

End WatchIO.

(** *** The two models of the watch command

    Forgetting what the writes returned turns a trace of [WatchIO] into a
    trace of the model above, and a world of the model above, with an
    output stream, is a world of [WatchIO] that does not look at what the
    writes returned. *)

Section Erasure.

Variables HTTPClient Client Repo ColorScheme Time Job Annotation : Type.

Definition erase (ev : WatchIO.event HTTPClient Repo Time Job Annotation)
  : event HTTPClient Repo Time Job Annotation :=
  match ev with
  | WatchIO.EvHttpClient r => EvHttpClient r
  | WatchIO.EvBaseRepo r => EvBaseRepo r
  | WatchIO.EvPromptForRun r => EvPromptForRun r
  | WatchIO.EvGetRun runID r => EvGetRun runID r
  | WatchIO.EvPullRequestForRun run r => EvPullRequestForRun run r
  | WatchIO.EvGetJobs run r => EvGetJobs run r
  | WatchIO.EvGetAnnotations job r => EvGetAnnotations job r
  | WatchIO.EvWrite s _ => EvWrite s
  | WatchIO.EvSleep d => EvSleep d
  end.

Definition with_writes
           (w : World HTTPClient Client Repo ColorScheme Time Job Annotation)
           (write : WatchIO.trace HTTPClient Repo Time Job Annotation
                    -> string -> option error)
  : WatchIO.World HTTPClient Client Repo ColorScheme Time Job Annotation :=
  {| WatchIO.GetRun := fun h => GetRun w (map erase h);
     WatchIO.GetJobs := fun h => GetJobs w (map erase h);
     WatchIO.GetAnnotations := fun h => GetAnnotations w (map erase h);
     WatchIO.PullRequestForRun := fun h => PullRequestForRun w (map erase h);
     WatchIO.PromptForRun := fun h => PromptForRun w (map erase h);
     WatchIO.time_Now := fun h => time_Now w (map erase h);
     WatchIO.Write := write |}.

Definition with_writes_options
           (opts : WatchOptions HTTPClient Repo ColorScheme Time Job Annotation)
  : WatchIO.WatchOptions HTTPClient Repo ColorScheme Time Job Annotation :=
  {| WatchIO.IO := IO opts;
     WatchIO.HttpClient := fun h => HttpClient opts (map erase h);
     WatchIO.BaseRepo := fun h => BaseRepo opts (map erase h);
     WatchIO.RunID := RunID opts;
     WatchIO.Interval := Interval opts;
     WatchIO.Prompt := Prompt opts;
     WatchIO.Now := fun h => Now opts (map erase h) |}.

End Erasure.

(** * The [gh workflow view] command

    A shallow embedding of the package [view]: the two fetches
    ([getWorkflowContent], [getWorkflowRuns]), the command set-up
    ([NewCmdView]) and what it runs ([runView], [viewWorkflowContent],
    [viewWorkflowInfo]).  As for the watch command, every call of a
    collaborator joins a trace, and what the collaborator answers may
    depend on the trace so far.  Here writing can fail, and the error is
    looked at in some places: the answer of each write is part of the
    world. *)

Module View.

(** [strings.HasSuffix(s, suffix)]:
    [len(s) >= len(suffix) && s[len(s)-len(suffix):] == suffix]. *)
Definition HasSuffix (s suffix : string) : bool :=
  (String.length suffix <=? String.length s)%nat
  && (substring (String.length s - String.length suffix)
                (String.length suffix) s =? suffix)%string.

(** [errors.As(err, &target)], as far as its result goes: some error in the
    chain of [err] has the type of the target.  [hasType] is the test of
    the type. *)
Fixpoint errors_As (hasType : error -> bool) (err : error) : bool :=
  hasType err
  || match err with
     | New _ => false
     | Errorf_w _ err' => errors_As hasType err'
     | FlagError err' => errors_As hasType err'
     end.

(** The chain of an error: the error itself, the error it wraps, and so
    on. *)
Fixpoint chain (err : error) : list error :=
  err :: match err with
         | New _ => []
         | Errorf_w _ err' => chain err'
         | FlagError err' => chain err'
         end.

(** The package [workflow/shared]: the fields of [shared.Workflow] that the
    view command reads. *)
Module shared.

Record Workflow : Type := mkWorkflow {
  Name : string;
  ID : Z;
  Path : string
}.

End shared.

(** The package [run/shared]: the fields of [runShared.Run] and of
    [runShared.RunsPayload] that the view command reads.  A status, a
    conclusion and an event are strings. *)
Module runShared.

Record Run (Time : Type) : Type := mkRun {
  ID : Z;
  Name : string;
  Status : string;
  Conclusion : string;
  HeadBranch : string;
  Event : string;
  CreatedAt : Time;
  UpdatedAt : Time
}.

Record RunsPayload (Time : Type) : Type := mkRunsPayload {
  TotalCount : Z;
  WorkflowRuns : list (Run Time)
}.

End runShared.

(** The options of [markdown.RenderWithOpts] that the command passes. *)
Inductive RenderOpt : Type :=
| WithoutIndentation
| WithoutWrap.

(** [opts.IO.Out] and [opts.IO.ErrOut] *)
Inductive stream : Type :=
| Out
| ErrOut.

(** A colour function of the table printer: nil, or a function. *)
Definition colorFunc : Type := option (string -> string).

Section Code.

(** Opaque handles and payloads of the collaborators. *)
Variables HTTPClient Client Repo ColorScheme Time Theme Style WorkflowState
  : Type.

Record recentRuns : Type := mkRecentRuns {
  TotalRuns : Z;
  RecentRuns : list (runShared.Run Time)
}.

(** *** Traces *)

Inductive event : Type :=
| EvHttpClient (r : result HTTPClient)
| EvBaseRepo (r : result Repo)
| EvResolveWorkflow (prompt : bool) (selector : string)
                    (r : result shared.Workflow)
| EvRepoDefaultBranch (r : result string)
| EvRESTContent (hostname method path : string) (r : result string)
    (* client.REST into a Result: its Content *)
| EvRESTRuns (hostname method path : string)
             (r : result (runShared.RunsPayload Time))
    (* client.REST into a RunsPayload *)
| EvStartProgressIndicator
| EvStopProgressIndicator
| EvStartPager (err : option error)
| EvStopPager
| EvWrite (to : stream) (s : string) (err : option error)
| EvAddField (text : string) (color : colorFunc)
| EvEndRow
| EvRender (err : option error)
| EvOpenInBrowser (url : string) (err : option error).

Definition trace := list event.

(** *** The monad of the code: state passing over the trace *)

Definition M (A : Type) : Type := trace -> A * trace.

Definition ret {A} (a : A) : M A := fun h => (a, h).

Definition bind {A B} (m : M A) (k : A -> M B) : M B :=
  fun h => let (a, h') := m h in k a h'.

Definition ask {A} (answer : trace -> A) (ev : A -> event) : M A :=
  fun h => (answer h, h ++ [ev (answer h)]).

Definition peek {A} (answer : trace -> A) : M A :=
  fun h => (answer h, h).

Definition emit (ev : event) : M unit :=
  fun h => (tt, h ++ [ev]).

(** [defer d] before [body]: [d] runs when [body] returns, whatever it
    returns. *)
Definition defer {A} (d : M unit) (body : M A) : M A :=
  bind body (fun a => bind d (fun _ => ret a)).

(** *** Collaborators *)

Record IOStreams : Type := mkIOStreams {
  CanPrompt : bool;
  IsStdoutTTY : bool;
  ColorScheme_ : ColorScheme
}.

(** Pure helpers of other packages ([api], [ghrepo], [net/url],
    [encoding/base64], [path/filepath], [utils], [iostreams], [markdown],
    [run/shared], [workflow/shared], [time]). *)
Record Helpers : Type := mkHelpers {
  NewClientFromHTTP : HTTPClient -> Client;
  FullName : Repo -> string;
  RepoHost : Repo -> string;
  QueryEscape : string -> string;
  DecodeString : string -> result string;
  Base : string -> string;
  DisplayURL : string -> string;
  Active : WorkflowState;
  IsFilteredAllError : error -> bool;   (* the error is a FilteredAllError *)
  Bold : ColorScheme -> string -> string;
  Gray : ColorScheme -> string -> string;
  Cyan : ColorScheme -> string -> string;
  Cyanf : ColorScheme -> string -> list Z -> string;
  GetStyle : Theme -> Style;
  RenderWithOpts : string -> Style -> list RenderOpt -> result string;
  Symbol : ColorScheme -> string -> string -> string * colorFunc;
  CommitMsg : runShared.Run Time -> string;
  Sub : Time -> Time -> Z;              (* t.Sub(u), a Duration *)
  Duration_String : Z -> string         (* d.String() *)
}.

(** The remote API, the prompt behind [ResolveWorkflow], the terminal, the
    pager, the table printer and the browser. *)
Record World : Type := mkWorld {
  ResolveWorkflow : trace -> IOStreams -> Client -> Repo -> bool -> string
                    -> list WorkflowState -> result shared.Workflow;
  RepoDefaultBranch : trace -> Client -> Repo -> result string;
  REST_Content : trace -> Client -> string -> string -> string
                 -> result string;
  REST_Runs : trace -> Client -> string -> string -> string
              -> result (runShared.RunsPayload Time);
  DetectTerminalTheme : trace -> Theme;
  StartPager : trace -> option error;
  Write : trace -> stream -> string -> option error;
  Render : trace -> option error;
  utils_OpenInBrowser : trace -> string -> option error
}.

Record ViewOptions : Type := mkViewOptions {
  HttpClient : trace -> result HTTPClient;
  IO : IOStreams;
  BaseRepo : trace -> result Repo;
  OpenInBrowser : trace -> string -> option error;
  Selector : string;
  Ref : string;
  Web : bool;
  Prompt : bool;
  Raw : bool;
  Yaml : bool
}.

Record Factory : Type := mkFactory {
  f_IOStreams : IOStreams;
  f_HttpClient : trace -> result HTTPClient;
  f_BaseRepo : trace -> result Repo
}.

(** *** The code *)

Variable hp : Helpers.
Variable w : World.

Notation "x <- m ;; k" := (bind m (fun x => k))
  (at level 61, m at next level, right associativity).
Notation "m ;; k" := (bind m (fun _ => k))
  (at level 61, right associativity).

(** [fmt.Fprint(out, s)], [fmt.Fprintf] and [fmt.Fprintln] with their
    arguments put together: what is written, and the error that comes
    back. *)
Definition Fprint (to : stream) (s : string) : M (option error) :=
  ask (fun h => Write w h to s) (EvWrite to s).

Definition StartProgressIndicator : M unit := emit EvStartProgressIndicator.
Definition StopProgressIndicator : M unit := emit EvStopProgressIndicator.
Definition IO_StartPager : M (option error) := ask (StartPager w) EvStartPager.
Definition IO_StopPager : M unit := emit EvStopPager.

Definition client_REST_Content (client : Client) (hostname method path : string)
  : M (result string) :=
  ask (fun h => REST_Content w h client hostname method path)
      (EvRESTContent hostname method path).

Definition client_REST_Runs (client : Client) (hostname method path : string)
  : M (result (runShared.RunsPayload Time)) :=
  ask (fun h => REST_Runs w h client hostname method path)
      (EvRESTRuns hostname method path).

Definition getWorkflowContent (client : Client) (repo : Repo) (ref : string)
           (workflow : shared.Workflow) : M (result string) :=
  let path := ("repos/" ++ FullName hp repo ++ "/contents/"
               ++ shared.Path workflow)%string in
  let path :=
    if negb (ref =? "")%string
    then (path ++ ("?ref=" ++ QueryEscape hp ref))%string
    else path in
  r <- client_REST_Content client (RepoHost hp repo) "GET" path ;;
  match r with
  | Err err => ret (Err err)
  | Ok content =>
      match DecodeString hp content with
      | Err err => ret (Err (Errorf_w "failed to decode workflow file: " err))
      | Ok decoded => ret (Ok decoded)
      end
  end.

(** The [for _, run := range result.WorkflowRuns] loop of
    [getWorkflowRuns]: the state of the loop is [rr.RecentRuns]. *)
Fixpoint rangeWorkflowRuns (runs recent : list (runShared.Run Time))
  : list (runShared.Run Time) :=
  match runs with
  | [] => recent
  | run :: runs' => rangeWorkflowRuns runs' (recent ++ [run])
  end.

Definition getWorkflowRuns (client : Client) (repo : Repo)
           (workflow : shared.Workflow) : M (result recentRuns) :=
  let path := ("repos/" ++ FullName hp repo ++ "/actions/workflows/"
               ++ itoa (shared.ID workflow) ++ "/runs?per_page=" ++ itoa 5
               ++ "&page=" ++ itoa 1)%string in
  r <- client_REST_Runs client (RepoHost hp repo) "GET" path ;;
  match r with
  | Err err => ret (Err err)
  | Ok result =>
      ret (Ok {| TotalRuns := runShared.TotalCount result;
                 RecentRuns :=
                   rangeWorkflowRuns (runShared.WorkflowRuns result) [] |})
  end.

Definition viewWorkflowContent (opts : ViewOptions) (client : Client)
           (workflow : shared.Workflow) : M (option error) :=
  rp <- ask (BaseRepo opts) EvBaseRepo ;;
  match rp with
  | Err err => ret (Some (Errorf_w "could not determine base repo: " err))
  | Ok repo =>
      StartProgressIndicator ;;
      y <- getWorkflowContent client repo (Ref opts) workflow ;;
      StopProgressIndicator ;;
      match y with
      | Err err =>
          ret (Some (Errorf_w "could not get workflow file content: " err))
      | Ok yaml =>
          theme <- peek (DetectTerminalTheme w) ;;
          let markdownStyle := GetStyle hp theme in
          e <- IO_StartPager ;;
          (match e with
           | Some err =>
               Fprint ErrOut
                 ("starting pager failed: " ++ Error err ++ nl)%string ;;
               ret tt
           | None => ret tt
           end) ;;
          defer IO_StopPager
            (if negb (Raw opts)
             then
               let cs := ColorScheme_ (IO opts) in
               let fileName := Base hp (shared.Path workflow) in
               Fprint Out (Bold hp cs (shared.Name workflow) ++ " - "
                           ++ Gray hp cs fileName ++ nl)%string ;;
               Fprint Out ("ID: " ++ Cyanf hp cs "%d" [shared.ID workflow])%string ;;
               let codeBlock := ("```yaml" ++ nl ++ yaml ++ nl ++ "```")%string in
               match RenderWithOpts hp codeBlock markdownStyle
                       [WithoutIndentation; WithoutWrap] with
               | Err err => ret (Some err)
               | Ok rendered => Fprint Out rendered
               end
             else
               e <- Fprint Out yaml ;;
               match e with
               | Some err => ret (Some err)
               | None =>
                   if negb (HasSuffix yaml nl)
                   then Fprint Out nl
                   else ret None
               end)
      end
  end.

Definition AddField (text : string) (color : colorFunc) : M unit :=
  emit (EvAddField text color).

Definition EndRow : M unit := emit EvEndRow.

(** The body of the [for _, run := range rr.RecentRuns] loop of
    [viewWorkflowInfo]. *)
Definition addRun (opts : ViewOptions) (run : runShared.Run Time) : M unit :=
  let cs := ColorScheme_ (IO opts) in
  (if Raw opts
   then
     AddField (runShared.Status run) None ;;
     AddField (runShared.Conclusion run) None
   else
     let (symbol, symbolColor) :=
       Symbol hp cs (runShared.Status run) (runShared.Conclusion run) in
     AddField symbol symbolColor) ;;
  AddField (CommitMsg hp run) (Some (Bold hp cs)) ;;
  AddField (runShared.Name run) None ;;
  AddField (runShared.HeadBranch run) (Some (Bold hp cs)) ;;
  AddField (runShared.Event run) None ;;
  (if Raw opts
   then
     let elapsed := Sub hp (runShared.UpdatedAt run) (runShared.CreatedAt run) in
     let elapsed := if (elapsed <? 0)%Z then 0%Z else elapsed in
     AddField (Duration_String hp elapsed) None
   else ret tt) ;;
  AddField (itoa (runShared.ID run)) (Some (Cyan hp cs)) ;;
  EndRow.

Fixpoint rangeRecentRuns (opts : ViewOptions)
         (runs : list (runShared.Run Time)) : M unit :=
  match runs with
  | [] => ret tt
  | run :: runs' => addRun opts run ;; rangeRecentRuns opts runs'
  end.

Definition viewWorkflowInfo (opts : ViewOptions) (client : Client)
           (workflow : shared.Workflow) : M (option error) :=
  rp <- ask (BaseRepo opts) EvBaseRepo ;;
  match rp with
  | Err err => ret (Some (Errorf_w "could not determine base repo: " err))
  | Ok repo =>
      StartProgressIndicator ;;
      r <- getWorkflowRuns client repo workflow ;;
      StopProgressIndicator ;;
      match r with
      | Err err => ret (Some (Errorf_w "failed to get runs: " err))
      | Ok rr =>
          let cs := ColorScheme_ (IO opts) in
          let fileName := Base hp (shared.Path workflow) in
          Fprint Out (Bold hp cs (shared.Name workflow) ++ " - "
                      ++ Gray hp cs fileName ++ nl)%string ;;
          Fprint Out ("ID: " ++ Cyanf hp cs "%d" [shared.ID workflow]
                      ++ nl ++ nl)%string ;;
          Fprint Out ("Total runs " ++ itoa (TotalRuns rr) ++ nl)%string ;;
          (if negb (TotalRuns rr =? 0)%Z
           then Fprint Out ("Recent runs" ++ nl)%string ;; ret tt
           else ret tt) ;;
          rangeRecentRuns opts (RecentRuns rr) ;;
          e <- ask (Render w) EvRender ;;
          match e with
          | Some err => ret (Some err)
          | None =>
              Fprint Out nl ;;
              (if negb (TotalRuns rr =? 0)%Z
               then
                 Fprint Out
                   ("To see more runs for this workflow, try: gh run list --workflow "
                    ++ itoa (shared.ID workflow) ++ nl)%string ;;
                 ret tt
               else ret tt) ;;
              Fprint Out
                ("To see the YAML for this workflow, try: gh workflow view "
                 ++ itoa (shared.ID workflow) ++ " --yaml" ++ nl)%string ;;
              ret None
          end
      end
  end.

(** The URL that [runView] opens with [--web]; without a ref, the default
    branch of the repository is looked up. *)
Definition webURL (opts : ViewOptions) (client : Client) (repo : Repo)
           (workflow : shared.Workflow) : M (result string) :=
  let hostname := RepoHost hp repo in
  if Yaml opts
  then
    r <- (if (Ref opts =? "")%string
          then
            StartProgressIndicator ;;
            r <- ask (fun h => RepoDefaultBranch w h client repo)
                     EvRepoDefaultBranch ;;
            StopProgressIndicator ;;
            ret r
          else ret (Ok (Ref opts))) ;;
    match r with
    | Err err => ret (Err err)
    | Ok ref =>
        ret (Ok ("https://" ++ hostname ++ "/" ++ FullName hp repo ++ "/blob/"
                 ++ ref ++ "/" ++ shared.Path workflow)%string)
    end
  else
    let baseName := Base hp (shared.Path workflow) in
    ret (Ok ("https://" ++ hostname ++ "/" ++ FullName hp repo
             ++ "/actions/workflows/" ++ baseName)%string).

Definition runView (opts : ViewOptions) : M (option error) :=
  c <- ask (HttpClient opts) EvHttpClient ;;
  match c with
  | Err err => ret (Some (Errorf_w "could not build http client: " err))
  | Ok c =>
      let client := NewClientFromHTTP hp c in
      rp <- ask (BaseRepo opts) EvBaseRepo ;;
      match rp with
      | Err err => ret (Some (Errorf_w "could not determine base repo: " err))
      | Ok repo =>
          let states := [Active hp] in
          wf <- ask (fun h => ResolveWorkflow w h (IO opts) client repo
                                (Prompt opts) (Selector opts) states)
                    (EvResolveWorkflow (Prompt opts) (Selector opts)) ;;
          match wf with
          | Err err =>
              if errors_As (IsFilteredAllError hp) err
              then ret (Some (New "there are no enabled workflows"))
              else ret (Some err)
          | Ok workflow =>
              if Web opts
              then
                u <- webURL opts client repo workflow ;;
                match u with
                | Err err => ret (Some err)
                | Ok url =>
                    (if IsStdoutTTY (IO opts)
                     then
                       Fprint Out ("Opening " ++ DisplayURL hp url
                                   ++ " in your browser." ++ nl)%string ;;
                       ret tt
                     else ret tt) ;;
                    ask (fun h => OpenInBrowser opts h url) (EvOpenInBrowser url)
                end
              else
                if Yaml opts
                then viewWorkflowContent opts client workflow
                else viewWorkflowInfo opts client workflow
          end
      end
  end.

(** [NewCmdView]: the options the command starts from, with the flags
    [--web], [--yaml] and [--ref] as the command line sets them, and its
    [RunE].  [opts.BaseRepo] is nil until [RunE] sets it, which it does
    before anything reads it; here it is set from the start. *)
Definition NewCmdView_opts (f : Factory) (web yaml : bool) (ref : string)
  : ViewOptions :=
  {| HttpClient := f_HttpClient f;
     IO := f_IOStreams f;
     BaseRepo := f_BaseRepo f;
     OpenInBrowser := utils_OpenInBrowser w;
     Selector := "";
     Ref := ref;
     Web := web;
     Prompt := false;
     Raw := false;
     Yaml := yaml |}.

Definition set_Raw (opts : ViewOptions) (raw : bool) : ViewOptions :=
  {| HttpClient := HttpClient opts; IO := IO opts; BaseRepo := BaseRepo opts;
     OpenInBrowser := OpenInBrowser opts; Selector := Selector opts;
     Ref := Ref opts; Web := Web opts; Prompt := Prompt opts; Raw := raw;
     Yaml := Yaml opts |}.

Definition set_Selector (opts : ViewOptions) (selector : string)
  : ViewOptions :=
  {| HttpClient := HttpClient opts; IO := IO opts; BaseRepo := BaseRepo opts;
     OpenInBrowser := OpenInBrowser opts; Selector := selector;
     Ref := Ref opts; Web := Web opts; Prompt := Prompt opts; Raw := Raw opts;
     Yaml := Yaml opts |}.

Definition set_Prompt (opts : ViewOptions) (p : bool) : ViewOptions :=
  {| HttpClient := HttpClient opts; IO := IO opts; BaseRepo := BaseRepo opts;
     OpenInBrowser := OpenInBrowser opts; Selector := Selector opts;
     Ref := Ref opts; Web := Web opts; Prompt := p; Raw := Raw opts;
     Yaml := Yaml opts |}.

Definition RunE (f : Factory) (web yaml : bool) (ref : string)
           (runF : option (ViewOptions -> M (option error)))
           (args : list string) : M (option error) :=
  let opts := NewCmdView_opts f web yaml ref in
  let opts := set_Raw opts (negb (CanPrompt (IO opts))) in
  let parsed : result ViewOptions :=
    match args with
    | arg0 :: _ => Ok (set_Selector opts arg0)
    | [] =>
        if negb (CanPrompt (IO opts))
        then Err (FlagError
               (New "workflow argument required when not running interactively"))
        else Ok (set_Prompt opts true)
    end in
  match parsed with
  | Err err => ret (Some err)
  | Ok opts =>
      if (Selector opts =? "")%string && Yaml opts
      then ret (Some (FlagError
             (New "workflow argument required when viewing workflow yaml file")))
      else
        match runF with
        | Some runF => runF opts
        | None => runView opts
        end
  end.

(** *** Reading traces *)

Definition is_write (ev : event) : bool :=
  match ev with EvWrite _ _ _ => true | _ => false end.

Definition is_BaseRepo (ev : event) : bool :=
  match ev with EvBaseRepo _ => true | _ => false end.

Definition is_REST (ev : event) : bool :=
  match ev with
  | EvRESTContent _ _ _ _ | EvRESTRuns _ _ _ _ => true
  | _ => false
  end.

Definition is_RepoDefaultBranch (ev : event) : bool :=
  match ev with EvRepoDefaultBranch _ => true | _ => false end.

Definition is_StartPager (ev : event) : bool :=
  match ev with EvStartPager _ => true | _ => false end.

Definition is_StopPager (ev : event) : bool :=
  match ev with EvStopPager => true | _ => false end.

Definition is_Render (ev : event) : bool :=
  match ev with EvRender _ => true | _ => false end.

Definition is_OpenInBrowser (ev : event) : bool :=
  match ev with EvOpenInBrowser _ _ => true | _ => false end.

(** A call of the table printer that adds to the table. *)
Definition is_table (ev : event) : bool :=
  match ev with EvAddField _ _ | EvEndRow => true | _ => false end.

(** A call that goes over the network. *)
Definition is_remote (ev : event) : bool :=
  match ev with
  | EvRepoDefaultBranch _ | EvRESTContent _ _ _ _ | EvRESTRuns _ _ _ _ => true
  | _ => false
  end.

Definition count (p : event -> bool) (tr : trace) : nat :=
  List.length (filter p tr).

(** What a trace wrote, or tried to write, to a stream, piece by piece. *)
Fixpoint writes_to (to : stream) (tr : trace) : list string :=
  match tr with
  | [] => []
  | EvWrite to' s _ :: tr' =>
      match to, to' with
      | Out, Out | ErrOut, ErrOut => s :: writes_to to tr'
      | _, _ => writes_to to tr'
      end
  | _ :: tr' => writes_to to tr'
  end.

(** No write of the trace failed. *)
Fixpoint writes_succeed (tr : trace) : bool :=
  match tr with
  | [] => true
  | EvWrite _ _ (Some _) :: _ => false
  | _ :: tr' => writes_succeed tr'
  end.

(** The progress indicator: idle, or running, before or after the call
    that it is shown for. *)
Inductive spinner : Type :=
| Idle
| Started
| Called.

(** [indicator st tr]: the progress indicator, in the state [st] at the
    start of [tr], is used in [tr] as it should be: it is started only
    when it is idle; while it runs there is exactly one call, one that goes
    over the network, and then it is stopped; no such call is made while it
    is idle; and in the end it is idle. *)
Fixpoint indicator (st : spinner) (tr : trace) : bool :=
  match tr with
  | [] => match st with Idle => true | _ => false end
  | ev :: tr' =>
      match ev with
      | EvStartProgressIndicator =>
          match st with Idle => indicator Started tr' | _ => false end
      | EvRepoDefaultBranch _ | EvRESTContent _ _ _ _ | EvRESTRuns _ _ _ _ =>
          match st with Started => indicator Called tr' | _ => false end
      | EvStopProgressIndicator =>
          match st with Called => indicator Idle tr' | _ => false end
      | _ =>
          match st with Idle => indicator Idle tr' | _ => false end
      end
  end.

(** [paged on tr]: in [tr] the output goes through the pager.  [on] says
    whether the pager is in use at the start of [tr]; the pager is started
    only when it is not in use and stopped only when it is, the output is
    written only while it is in use, and in the end it is not in use. *)
Fixpoint paged (on : bool) (tr : trace) : bool :=
  match tr with
  | [] => negb on
  | EvStartPager _ :: tr' => negb on && paged true tr'
  | EvStopPager :: tr' => on && paged false tr'
  | EvWrite Out _ _ :: tr' => on && paged on tr'
  | _ :: tr' => paged on tr'
  end.

(** What the calls of [StartPager] in a trace returned. *)
Fixpoint pager_starts (tr : trace) : list (option error) :=
  match tr with
  | [] => []
  | EvStartPager err :: tr' => err :: pager_starts tr'
  | _ :: tr' => pager_starts tr'
  end.

(** The repositories that the calls of [BaseRepo] in a trace returned. *)
Fixpoint repos_of (tr : trace) : list Repo :=
  match tr with
  | [] => []
  | EvBaseRepo (Ok repo) :: tr' => repo :: repos_of tr'
  | _ :: tr' => repos_of tr'
  end.

(** The REST calls of a trace: the host and the method of each. *)
Fixpoint rest_calls (tr : trace) : list (string * string) :=
  match tr with
  | [] => []
  | EvRESTContent hostname method _ _ :: tr' =>
      (hostname, method) :: rest_calls tr'
  | EvRESTRuns hostname method _ _ :: tr' =>
      (hostname, method) :: rest_calls tr'
  | _ :: tr' => rest_calls tr'
  end.

(** The tables that a trace has rendered: for each call of [Render], the
    rows that were handed to the table printer before it, as the texts of
    their fields.  [rows] are the rows ended so far, [row] holds the fields
    of the row that is not ended yet. *)
Fixpoint rendered (rows : list (list string)) (row : list string)
         (tr : trace) : list (list (list string)) :=
  match tr with
  | [] => []
  | EvAddField text _ :: tr' => rendered rows (row ++ [text]) tr'
  | EvEndRow :: tr' => rendered (rows ++ [row]) [] tr'
  | EvRender _ :: tr' => rows :: rendered rows row tr'
  | _ :: tr' => rendered rows row tr'
  end.

(** The texts of the fields of the row of a run. *)
Definition fields_of (opts : ViewOptions) (run : runShared.Run Time)
  : list string :=
  let cs := ColorScheme_ (IO opts) in
  (if Raw opts
   then [runShared.Status run; runShared.Conclusion run]
   else [fst (Symbol hp cs (runShared.Status run) (runShared.Conclusion run))])
  ++ [CommitMsg hp run; runShared.Name run; runShared.HeadBranch run;
      runShared.Event run]
  ++ (if Raw opts
      then [Duration_String hp
              (Z.max 0 (Sub hp (runShared.UpdatedAt run)
                               (runShared.CreatedAt run)))]
      else [])
  ++ [itoa (runShared.ID run)].

End Code.

Arguments EvHttpClient {HTTPClient Repo Time} r.
Arguments EvBaseRepo {HTTPClient Repo Time} r.
Arguments EvResolveWorkflow {HTTPClient Repo Time} prompt selector r.
Arguments EvRepoDefaultBranch {HTTPClient Repo Time} r.
Arguments EvRESTContent {HTTPClient Repo Time} hostname method path r.
Arguments EvRESTRuns {HTTPClient Repo Time} hostname method path r.
Arguments EvStartProgressIndicator {HTTPClient Repo Time}.
Arguments EvStopProgressIndicator {HTTPClient Repo Time}.
Arguments EvStartPager {HTTPClient Repo Time} err.
Arguments EvStopPager {HTTPClient Repo Time}.
Arguments EvWrite {HTTPClient Repo Time} to s err.
Arguments EvAddField {HTTPClient Repo Time} text color.
Arguments EvEndRow {HTTPClient Repo Time}.
Arguments EvRender {HTTPClient Repo Time} err.
Arguments EvOpenInBrowser {HTTPClient Repo Time} url err.
Arguments ret {HTTPClient Repo Time A} a _.
Arguments is_write {HTTPClient Repo Time} ev.
Arguments is_BaseRepo {HTTPClient Repo Time} ev.
Arguments is_RepoDefaultBranch {HTTPClient Repo Time} ev.
Arguments is_REST {HTTPClient Repo Time} ev.
Arguments is_StartPager {HTTPClient Repo Time} ev.
Arguments is_StopPager {HTTPClient Repo Time} ev.
Arguments is_Render {HTTPClient Repo Time} ev.
Arguments is_OpenInBrowser {HTTPClient Repo Time} ev.
Arguments is_table {HTTPClient Repo Time} ev.
Arguments is_remote {HTTPClient Repo Time} ev.

(** ** A world to run the code in *)

Module Demo.

(** Handles carry nothing; a repository is its full name; times are
    numbers; nothing is coloured or escaped, and the content "!" cannot
    be decoded. *)
Definition helpers : Helpers unit unit string unit Z unit unit string :=
  {| NewClientFromHTTP := fun _ => tt;
     FullName := fun repo => repo;
     RepoHost := fun _ => "github.com";
     QueryEscape := fun s => s;
     DecodeString := fun s =>
       if (s =? "!")%string then Err (New "illegal base64 data") else Ok s;
     Base := fun p => p;
     DisplayURL := fun u => u;
     Active := "active";
     IsFilteredAllError := fun e =>
       match e with New EmptyString => true | _ => false end;
     Bold := fun _ s => s;
     Gray := fun _ s => s;
     Cyan := fun _ s => s;
     Cyanf := fun _ format args => Scenario.Sprintf format args;
     GetStyle := fun _ => tt;
     RenderWithOpts := fun text _ _ => Ok text;
     Symbol := fun _ status conclusion => ("*", None);
     CommitMsg := fun run => ("commit of " ++ runShared.Name run)%string;
     Sub := Z.sub;
     Duration_String := fun d => (itoa d ++ "ns")%string |}.

Definition ci : shared.Workflow :=
  {| shared.Name := "CI"; shared.ID := 12%Z;
     shared.Path := ".github/workflows/ci.yml" |}.

Definition first : runShared.Run Z :=
  {| runShared.ID := 101%Z; runShared.Name := "CI";
     runShared.Status := "completed"; runShared.Conclusion := "success";
     runShared.HeadBranch := "trunk"; runShared.Event := "push";
     runShared.CreatedAt := 100%Z; runShared.UpdatedAt := 160%Z |}.

(** A run whose last update is stamped before its creation. *)
Definition skewed : runShared.Run Z :=
  {| runShared.ID := 102%Z; runShared.Name := "CI";
     runShared.Status := "in_progress"; runShared.Conclusion := "";
     runShared.HeadBranch := "fix"; runShared.Event := "pull_request";
     runShared.CreatedAt := 200%Z; runShared.UpdatedAt := 190%Z |}.

Definition twoRuns : runShared.RunsPayload Z :=
  {| runShared.TotalCount := 2%Z; runShared.WorkflowRuns := [first; skewed] |}.

(** A world that answers the same at any time. *)
Definition world (workflow : result shared.Workflow) (content : result string)
           (runs : result (runShared.RunsPayload Z))
  : World unit unit string unit Z unit string :=
  {| ResolveWorkflow := fun _ _ _ _ _ _ _ => workflow;
     RepoDefaultBranch := fun _ _ _ => Ok "trunk";
     REST_Content := fun _ _ _ _ _ => content;
     REST_Runs := fun _ _ _ _ _ => runs;
     DetectTerminalTheme := fun _ => tt;
     StartPager := fun _ => None;
     Write := fun _ _ _ => None;
     Render := fun _ => None;
     utils_OpenInBrowser := fun _ _ => None |}.

Definition usual : World unit unit string unit Z unit string :=
  world (Ok ci) (Ok "on: push") (Ok twoRuns).

(** The file cannot be fetched. *)
Definition contentDown : World unit unit string unit Z unit string :=
  world (Ok ci) (Err (New "404")) (Ok twoRuns).

(** Every workflow of the repository is disabled. *)
Definition allDisabled : World unit unit string unit Z unit string :=
  world (Err (Errorf_w "could not select a workflow: " (New "")))
        (Ok "on: push") (Ok twoRuns).

Definition factory (canPrompt : bool) : Factory unit string unit Z :=
  {| f_IOStreams := {| CanPrompt := canPrompt; IsStdoutTTY := canPrompt;
                       ColorScheme_ := tt |};
     f_HttpClient := fun _ => Ok tt;
     f_BaseRepo := fun _ => Ok "cli/cli" |}.

(** The options of [gh workflow view ci.yml] with the flags [web] and
    [yaml] in the world [w], in a session that can prompt or not. *)
Definition options (w : World unit unit string unit Z unit string)
           (canPrompt web yaml : bool) : ViewOptions unit string unit Z :=
  set_Selector
    (set_Raw (NewCmdView_opts w (factory canPrompt) web yaml "")
             (negb canPrompt))
    "ci.yml".

End Demo.

End View.

(** * Properties *)

Section Properties.

Context {HTTPClient Client Repo ColorScheme Time Job Annotation : Type}.
Variable hp : Helpers HTTPClient Client ColorScheme Time Job Annotation.
Variable w : World HTTPClient Client Repo ColorScheme Time Job Annotation.

Abbreviation Trace := (trace HTTPClient Repo Time Job Annotation).
Abbreviation Options := (WatchOptions HTTPClient Repo ColorScheme Time Job Annotation).

Implicit Types (h : Trace) (opts : Options) (client : Client) (repo : Repo)
  (run : Run Time) (jobs : list Job) (lists : list (list Annotation))
  (prNumber : string) (fuel : nat).

Ltac flat := repeat rewrite <- app_assoc; simpl.

(** ** The annotation loop *)

Lemma annEvents_app jobs1 jobs2 (rs1 rs2 : list (result (list Annotation))) :
  length jobs1 = length rs1 ->
  annEvents (HTTPClient:=HTTPClient) (Repo:=Repo) (Time:=Time)
    (jobs1 ++ jobs2) (rs1 ++ rs2)
  = annEvents jobs1 rs1 ++ annEvents jobs2 rs2.
Proof.
  revert rs1. induction jobs1 as [|j jobs1 IH]; intros [|r rs1]; simpl;
    try discriminate; auto.
  intros E. f_equal. apply IH. congruence.
Qed.

Lemma answered_length client repo h jobs rs :
  answered w client repo h jobs rs -> length jobs = length rs.
Proof. induction 1; simpl; congruence. Qed.

(** Every fetch answered with a list: the loop runs to its end and the
    slice holds the lists one after the other. *)
Lemma rangeJobs_ok client repo jobs : forall lists h annotations,
  answered w client repo h jobs (map Ok lists) ->
  rangeJobs w client repo jobs annotations h
  = ((annotations ++ concat lists, None), h ++ annEvents jobs (map Ok lists)).
Proof.
  induction jobs as [|job jobs IH]; intros lists h annotations A;
    inversion A; subst.
  - destruct lists; [|discriminate]. simpl. now rewrite !app_nil_r.
  - destruct lists as [|l lists]; [discriminate|].
    simpl in *. match goal with H : _ :: _ = _ :: _ |- _ => injection H as E1 E2 end.
    subst. unfold bind, shared_GetAnnotations, ask. rewrite E1.
    rewrite (IH lists); [|now rewrite E1 in *]. flat. now rewrite app_assoc.
Qed.

(** The fetch for [k] fails after the fetches for [before] succeeded: the
    loop is left there. *)
Lemma rangeJobs_fail client repo before : forall lists k after e h annotations,
  answered w client repo h (before ++ [k]) (map Ok lists ++ [Err e]) ->
  length before = length lists ->
  rangeJobs w client repo (before ++ k :: after) annotations h
  = ((annotations ++ concat lists, Some e),
     h ++ annEvents (before ++ [k]) (map Ok lists ++ [Err e])).
Proof.
  induction before as [|job before IH]; intros lists k after e h annotations A L.
  - destruct lists; [|discriminate]. simpl in *. inversion A; subst.
    unfold bind, shared_GetAnnotations, ask.
    match goal with H : GetAnnotations _ _ _ _ _ = _ |- _ => rewrite H end.
    unfold ret. now rewrite app_nil_r.
  - destruct lists as [|l lists]; [discriminate|]. simpl in *.
    inversion A; subst.
    unfold bind, shared_GetAnnotations, ask.
    match goal with H : GetAnnotations _ _ _ _ _ = _ |- _ => rewrite H in * end.
    rewrite (IH lists k after e); auto. flat. now rewrite app_assoc.
Qed.

(** The world always answers: all the lists, or some lists and then an
    error. *)
Lemma answered_total client repo jobs : forall h,
  (exists lists, answered w client repo h jobs (map Ok lists))
  \/ (exists before k after lists e,
        jobs = before ++ k :: after /\ length before = length lists /\
        answered w client repo h (before ++ [k]) (map Ok lists ++ [Err e])).
Proof.
  induction jobs as [|job jobs IH]; intros h.
  - left. exists []. constructor.
  - destruct (GetAnnotations w h client repo job) as [l|e] eqn:E.
    + destruct (IH (h ++ [EvGetAnnotations job (Ok l)]))
        as [[lists A]|(before & k & after & lists & e & -> & L & A)].
      * left. exists (l :: lists). simpl. now constructor.
      * right. exists (job :: before), k, after, (l :: lists), e.
        simpl. repeat split; auto. now constructor.
    + right. exists [], job, jobs, [], e. simpl. repeat split.
      constructor; auto. constructor.
Qed.

(** ** One iteration: [renderRun] *)

Lemma renderRun_GetRun_err opts client repo run prNumber h e :
  GetRun w h client repo (itoa (ID run)) = Err e ->
  renderRun hp w opts client repo run prNumber h
  = (Err (Errorf_w "failed to get run: " e),
     h ++ [EvGetRun (itoa (ID run)) (Err e)]).
Proof.
  intros E. unfold renderRun, bind, shared_GetRun, ask. now rewrite E.
Qed.

Lemma renderRun_GetJobs_err opts client repo run prNumber h run' e :
  GetRun w h client repo (itoa (ID run)) = Ok run' ->
  GetJobs w (h ++ [EvGetRun (itoa (ID run)) (Ok run')]) client repo run' = Err e ->
  renderRun hp w opts client repo run prNumber h
  = (Err (Errorf_w "failed to get jobs: " e),
     h ++ [EvGetRun (itoa (ID run)) (Ok run'); EvGetJobs run' (Err e)]).
Proof.
  intros E1 E2.
  unfold renderRun, bind, shared_GetRun, shared_GetJobs, ask, peek.
  rewrite E1, E2. unfold ret. now flat.
Qed.

Lemma renderRun_GetAnnotations_err
      opts client repo run prNumber h run' before k after lists e :
  GetRun w h client repo (itoa (ID run)) = Ok run' ->
  GetJobs w (h ++ [EvGetRun (itoa (ID run)) (Ok run')]) client repo run'
  = Ok (before ++ k :: after) ->
  length before = length lists ->
  answered w client repo
    (h ++ [EvGetRun (itoa (ID run)) (Ok run');
           EvGetJobs run' (Ok (before ++ k :: after))])
    (before ++ [k]) (map Ok lists ++ [Err e]) ->
  renderRun hp w opts client repo run prNumber h
  = (Err (Errorf_w "failed to get annotations: " e),
     h ++ [EvGetRun (itoa (ID run)) (Ok run');
           EvGetJobs run' (Ok (before ++ k :: after))]
       ++ annEvents (before ++ [k]) (map Ok lists ++ [Err e])).
Proof.
  intros E1 E2 L A.
  unfold renderRun, bind, shared_GetRun, shared_GetJobs, ask, peek.
  rewrite E1, E2. flat.
  rewrite rangeJobs_fail with (lists:=lists) (e:=e); auto.
  unfold ret. now flat.
Qed.

Lemma renderRun_ok opts client repo run prNumber h run' jobs lists :
  GetRun w h client repo (itoa (ID run)) = Ok run' ->
  GetJobs w (h ++ [EvGetRun (itoa (ID run)) (Ok run')]) client repo run'
  = Ok jobs ->
  answered w client repo
    (h ++ [EvGetRun (itoa (ID run)) (Ok run'); EvGetJobs run' (Ok jobs)])
    jobs (map Ok lists) ->
  renderRun hp w opts client repo run prNumber h
  = (Ok run',
     h ++ [EvGetRun (itoa (ID run)) (Ok run'); EvGetJobs run' (Ok jobs)]
       ++ annEvents jobs (map Ok lists)
       ++ map EvWrite
            (report hp opts run' jobs (concat lists)
               (Sub hp (Now opts (h ++ [EvGetRun (itoa (ID run)) (Ok run')]))
                  (CreatedAt run'))
               prNumber)).
Proof.
  intros E1 E2 A.
  unfold renderRun, bind, shared_GetRun, shared_GetJobs, ask, peek.
  rewrite E1, E2. flat.
  rewrite rangeJobs_ok with (lists:=lists); auto.
  unfold report, Fprint, Fprintln, emit, ret. simpl.
  destruct ((length jobs =? 0)%nat && (Conclusion run' =? Failure)%string);
    [ now flat |].
  destruct (0 <? length (concat lists))%nat; now flat.
Qed.

(** ** The loop, one turn at a time *)

Lemma watchLoop_done fuel opts client repo run prNumber h :
  Status run = Completed ->
  watchLoop hp w fuel opts client repo run prNumber h = (Returned None, h).
Proof.
  intros E. destruct fuel; simpl; rewrite E; reflexivity.
Qed.

Lemma watchLoop_out_of_fuel opts client repo run prNumber h :
  Status run <> Completed ->
  watchLoop hp w 0 opts client repo run prNumber h = (OutOfFuel, h).
Proof.
  intros N. simpl. apply String.eqb_neq in N. now rewrite N.
Qed.

Lemma watchLoop_step fuel opts client repo run prNumber h :
  Status run <> Completed ->
  watchLoop hp w (S fuel) opts client repo run prNumber h
  = match renderRun hp w opts client repo run prNumber h with
    | (Err err, h') => (Returned (Some err), h')
    | (Ok run', h') =>
        watchLoop hp w fuel opts client repo run' prNumber
          (h' ++ [EvSleep (int_mul (Interval opts) 1000)])
    end.
Proof.
  intros N. apply String.eqb_neq in N. simpl. rewrite N.
  unfold bind at 1.
  destruct (renderRun hp w opts client repo run prNumber h) as [[run'|err] h'];
    reflexivity.
Qed.

Lemma append_assoc (s1 s2 s3 : string) :
  ((s1 ++ s2) ++ s3 = s1 ++ (s2 ++ s3))%string.
Proof. induction s1; simpl; congruence. Qed.

Lemma wraps_Errorf_w stage e :
  wraps stage e (Errorf_w (stage ++ ": ") e).
Proof.
  split; [reflexivity|]. simpl. apply append_assoc.
Qed.

(** ** Counting in traces *)

Lemma count_app (p : event HTTPClient Repo Time Job Annotation -> bool)
      (tr1 tr2 : Trace) :
  count p (tr1 ++ tr2) = count p tr1 + count p tr2.
Proof. unfold count. now rewrite filter_app, length_app. Qed.

Lemma count_none (p : event HTTPClient Repo Time Job Annotation -> bool)
      (tr : Trace) :
  forallb (fun ev => negb (p ev)) tr = true -> count p tr = 0.
Proof.
  unfold count. induction tr as [|ev tr IH]; simpl; auto.
  intros H. apply andb_prop in H as [H1 H2].
  destruct (p ev); [discriminate|auto].
Qed.

Lemma forallb_annEvents (p : event HTTPClient Repo Time Job Annotation -> bool)
      jobs (rs : list (result (list Annotation))) :
  (forall job r, In r rs -> p (EvGetAnnotations job r) = true) ->
  forallb p (annEvents jobs rs) = true.
Proof.
  revert rs. induction jobs as [|job jobs IH]; intros [|r rs] H; simpl; auto.
  rewrite H by now left. apply IH. intros; apply H; now right.
Qed.

Lemma annEvents_no_GetRun jobs (rs : list (result (list Annotation))) :
  forallb (fun ev => negb (is_GetRun ev))
    (annEvents (HTTPClient:=HTTPClient) (Repo:=Repo) (Time:=Time) jobs rs)
  = true.
Proof.
  apply (forallb_annEvents (fun ev => negb (is_GetRun ev))). reflexivity.
Qed.

Lemma forallb_writes (p : event HTTPClient Repo Time Job Annotation -> bool)
      (ss : list string) :
  (forall s, p (EvWrite s) = true) -> forallb p (map EvWrite ss) = true.
Proof.
  intros H. induction ss; simpl; auto. now rewrite H.
Qed.

Lemma fetched_runs_app (tr1 tr2 : Trace) :
  fetched_runs (tr1 ++ tr2) = fetched_runs tr1 ++ fetched_runs tr2.
Proof.
  induction tr1 as [|ev tr1 IH]; simpl; auto.
  destruct ev as [| | |? [?|?]| | | | |]; simpl; now rewrite IH.
Qed.

Lemma fetched_runs_none (tr : Trace) :
  forallb (fun ev => negb (is_GetRun ev)) tr = true -> fetched_runs tr = [].
Proof.
  induction tr as [|ev tr IH]; simpl; auto.
  intros H. apply andb_prop in H as [H1 H2].
  destruct ev; simpl in *; try discriminate; auto.
Qed.

Lemma last_char_nl (s : string) : last_char (s ++ nl) = Some "010"%char.
Proof.
  induction s as [|c s IH]; [reflexivity|].
  simpl. destruct s; [reflexivity|exact IH].
Qed.

Lemma line_is_not_cursorHome (s : string) :
  ((s ++ nl)%string =? cursorHome)%string = false.
Proof.
  apply String.eqb_neq. intros E. apply (f_equal last_char) in E.
  rewrite last_char_nl in E. discriminate.
Qed.

(** A report sends the cursor home once, at its start. *)
Lemma count_redraw_report opts run jobs (annotations : list Annotation) ago prNumber :
  count is_redraw
    (map (@EvWrite HTTPClient Repo Time Job Annotation)
       (report hp opts run jobs annotations ago prNumber)) = 1.
Proof.
  unfold report, count.
  destruct ((length jobs =? 0)%nat && (Conclusion run =? Failure)%string);
    [|destruct (0 <? length annotations)%nat];
    simpl; rewrite ?line_is_not_cursorHome; reflexivity.
Qed.

(** ** The ways an iteration can go *)

Lemma renderRun_cases opts client repo run prNumber h :
  let runID := itoa (ID run) in
  (exists e,
      GetRun w h client repo runID = Err e /\
      renderRun hp w opts client repo run prNumber h
      = (Err (Errorf_w "failed to get run: " e), h ++ [EvGetRun runID (Err e)]))
  \/
  (exists run' e,
      renderRun hp w opts client repo run prNumber h
      = (Err (Errorf_w "failed to get jobs: " e),
         h ++ [EvGetRun runID (Ok run'); EvGetJobs run' (Err e)]))
  \/
  (exists run' before k after lists e,
      length before = length lists /\
      renderRun hp w opts client repo run prNumber h
      = (Err (Errorf_w "failed to get annotations: " e),
         h ++ [EvGetRun runID (Ok run');
               EvGetJobs run' (Ok (before ++ k :: after))]
           ++ annEvents (before ++ [k]) (map Ok lists ++ [Err e])))
  \/
  (exists run' jobs lists ago,
      GetRun w h client repo runID = Ok run' /\
      renderRun hp w opts client repo run prNumber h
      = (Ok run',
         h ++ [EvGetRun runID (Ok run'); EvGetJobs run' (Ok jobs)]
           ++ annEvents jobs (map Ok lists)
           ++ map EvWrite
                (report hp opts run' jobs (concat lists) ago prNumber))).
Proof.
  intros runID.
  destruct (GetRun w h client repo runID) as [run'|e] eqn:E1.
  2:{ left. exists e. split; auto. now apply renderRun_GetRun_err. }
  destruct (GetJobs w (h ++ [EvGetRun runID (Ok run')]) client repo run')
    as [jobs|e] eqn:E2.
  2:{ right; left. exists run', e. now apply renderRun_GetJobs_err. }
  destruct (answered_total client repo jobs
              (h ++ [EvGetRun runID (Ok run'); EvGetJobs run' (Ok jobs)]))
    as [[lists A]|(before & k & after & lists & e & -> & L & A)].
  - right; right; right. exists run', jobs, lists. eexists. split; auto.
    now apply renderRun_ok.
  - right; right; left. exists run', before, k, after, lists, e. split; auto.
    now apply renderRun_GetAnnotations_err.
Qed.

(** What an iteration adds to the trace: its fetches, of which the first
    one, and no other, is the run fetch, and then, if none of them failed,
    one report. *)
Lemma renderRun_delta opts client repo run prNumber h :
  exists fetches writes,
    snd (renderRun hp w opts client repo run prNumber h)
    = h ++ fetches ++ map EvWrite writes /\
    forallb is_fetch fetches = true /\
    count is_GetRun fetches = 1 /\
    (exists r others,
        fetches = EvGetRun (itoa (ID run)) r :: others /\
        forallb (fun ev => negb (is_GetRun ev)) others = true) /\
    match fst (renderRun hp w opts client repo run prNumber h) with
    | Err _ => writes = [] /\ existsb failed fetches = true
    | Ok run' =>
        forallb (fun ev => negb (failed ev)) fetches = true /\
        fetched_runs fetches = [run'] /\
        exists jobs annotations ago,
          writes = report hp opts run' jobs annotations ago prNumber
    end.
Proof.
  destruct (renderRun_cases opts client repo run prNumber h)
    as [(e & _ & R)|[(run' & e & R)|[(run' & before & k & after & lists & e & L & R)
       |(run' & jobs & lists & ago & _ & R)]]]; rewrite R; simpl.
  - exists [EvGetRun (itoa (ID run)) (Err e)], [].
    split; [|split; [|split; [|split]]]; auto. now exists (Err e), [].
  - exists [EvGetRun (itoa (ID run)) (Ok run'); EvGetJobs run' (Err e)], [].
    split; [|split; [|split; [|split]]]; auto.
    now exists (Ok run'), [EvGetJobs run' (Err e)].
  - exists ([EvGetRun (itoa (ID run)) (Ok run');
             EvGetJobs run' (Ok (before ++ k :: after))]
            ++ annEvents (before ++ [k]) (map Ok lists ++ [Err e])), [].
    split; [|split; [|split; [|split; [|split]]]].
    + simpl. now rewrite app_nil_r.
    + simpl. now apply forallb_annEvents.
    + rewrite count_app, (count_none is_GetRun (annEvents _ _)); auto.
      apply annEvents_no_GetRun.
    + eexists _, _. split; [reflexivity|]. simpl. apply annEvents_no_GetRun.
    + reflexivity.
    + simpl. rewrite annEvents_app by now rewrite length_map.
      rewrite existsb_app. simpl. now rewrite orb_true_r.
  - exists ([EvGetRun (itoa (ID run)) (Ok run'); EvGetJobs run' (Ok jobs)]
            ++ annEvents jobs (map Ok lists)),
           (report hp opts run' jobs (concat lists) ago prNumber).
    split; [|split; [|split; [|split; [|split; [|split]]]]].
    + now flat.
    + simpl. now apply forallb_annEvents.
    + rewrite count_app, (count_none is_GetRun (annEvents _ _)); auto.
      apply annEvents_no_GetRun.
    + eexists _, _. split; [reflexivity|]. simpl. apply annEvents_no_GetRun.
    + simpl. apply forallb_annEvents. intros job r I.
      apply in_map_iff in I as (l & <- & _). reflexivity.
    + simpl. f_equal. apply fetched_runs_none. apply annEvents_no_GetRun.
    + now exists jobs, (concat lists), ago.
Qed.

(** ** The claims about one iteration *)

(** C7: an iteration first fetches (the run, the jobs, the annotations) and
    only then writes.  If a fetch fails the iteration returns an error and
    has written nothing; if it writes, every fetch of the iteration has
    succeeded, and what it writes begins with the cursor-home and
    clear-to-end codes. *)
Theorem no_output_on_failed_fetch opts client repo run prNumber h :
  exists fetches writes,
    snd (renderRun hp w opts client repo run prNumber h)
    = h ++ fetches ++ map EvWrite writes /\
    forallb is_fetch fetches = true /\
    match fst (renderRun hp w opts client repo run prNumber h) with
    | Err _ => existsb failed fetches = true /\ writes = []
    | Ok _ =>
        forallb (fun ev => negb (failed ev)) fetches = true /\
        exists rest, writes = cursorHome :: clearToEnd :: rest
    end.
Proof.
  destruct (renderRun_delta opts client repo run prNumber h)
    as (fetches & writes & E & F & _ & _ & C).
  exists fetches, writes. repeat split; auto.
  destruct (fst (renderRun hp w opts client repo run prNumber h)).
  - destruct C as (NF & _ & jobs & annotations & ago & ->). split; auto.
    unfold report. simpl. eauto.
  - now destruct C.
Qed.

(** C4: in an iteration whose run and jobs fetches succeeded, if every
    job's annotation fetch is answered with a list, the slice that is
    rendered is the concatenation of these lists in the order of the jobs
    (so its length is the sum of their lengths), each job being asked once,
    in order; and if the fetch for job [k] fails after the fetches for the
    jobs [before] it succeeded, no job after [k] is asked, the slice holds
    the lists of the jobs before [k] only, and the iteration returns that
    error, wrapped. *)
Theorem annotations_in_job_order opts client repo run prNumber h run' jobs :
  GetRun w h client repo (itoa (ID run)) = Ok run' ->
  GetJobs w (h ++ [EvGetRun (itoa (ID run)) (Ok run')]) client repo run'
  = Ok jobs ->
  let h2 := h ++ [EvGetRun (itoa (ID run)) (Ok run'); EvGetJobs run' (Ok jobs)] in
  (forall lists,
      answered w client repo h2 jobs (map Ok lists) ->
      rangeJobs w client repo jobs [] h2
      = ((concat lists, None), h2 ++ annEvents jobs (map Ok lists)) /\
      length (concat lists) = list_sum (map (@length Annotation) lists) /\
      renderRun hp w opts client repo run prNumber h
      = (Ok run',
         h2 ++ annEvents jobs (map Ok lists)
            ++ map EvWrite
                 (report hp opts run' jobs (concat lists)
                    (Sub hp (Now opts (h ++ [EvGetRun (itoa (ID run)) (Ok run')]))
                       (CreatedAt run'))
                    prNumber)))
  /\
  (forall before k after lists e,
      jobs = before ++ k :: after ->
      length before = length lists ->
      answered w client repo h2 (before ++ [k]) (map Ok lists ++ [Err e]) ->
      rangeJobs w client repo jobs [] h2
      = ((concat lists, Some e),
         h2 ++ annEvents (before ++ [k]) (map Ok lists ++ [Err e])) /\
      renderRun hp w opts client repo run prNumber h
      = (Err (Errorf_w "failed to get annotations: " e),
         h2 ++ annEvents (before ++ [k]) (map Ok lists ++ [Err e]))).
Proof.
  intros E1 E2 h2. split.
  - intros lists A. repeat split.
    + now rewrite rangeJobs_ok with (lists:=lists).
    + apply length_concat.
    + rewrite renderRun_ok with (run':=run') (jobs:=jobs) (lists:=lists); auto.
      unfold h2. now flat.
  - intros before k after lists e -> L A. split.
    + now rewrite rangeJobs_fail with (lists:=lists) (e:=e).
    + rewrite renderRun_GetAnnotations_err
        with (run':=run') (before:=before) (k:=k) (after:=after)
             (lists:=lists) (e:=e); auto.
      unfold h2. now flat.
Qed.

(** C5: in an iteration, a failing run fetch, jobs fetch or annotation
    fetch ends [watchRun]'s loop at once with an error that wraps the
    underlying one behind "failed to get run", "failed to get jobs" or
    "failed to get annotations"; the failed fetch is the last thing that
    happens (it is not tried again), and after a failed jobs fetch no
    annotation is fetched. *)
Theorem fetch_failure_aborts fuel opts client repo run prNumber h :
  Status run <> Completed ->
  (forall e,
      GetRun w h client repo (itoa (ID run)) = Err e ->
      exists err,
        wraps "failed to get run" e err /\
        watchLoop hp w (S fuel) opts client repo run prNumber h
        = (Returned (Some err), h ++ [EvGetRun (itoa (ID run)) (Err e)]))
  /\
  (forall run' e,
      GetRun w h client repo (itoa (ID run)) = Ok run' ->
      GetJobs w (h ++ [EvGetRun (itoa (ID run)) (Ok run')]) client repo run'
      = Err e ->
      exists err,
        wraps "failed to get jobs" e err /\
        watchLoop hp w (S fuel) opts client repo run prNumber h
        = (Returned (Some err),
           h ++ [EvGetRun (itoa (ID run)) (Ok run'); EvGetJobs run' (Err e)]))
  /\
  (forall run' before k after lists e,
      GetRun w h client repo (itoa (ID run)) = Ok run' ->
      GetJobs w (h ++ [EvGetRun (itoa (ID run)) (Ok run')]) client repo run'
      = Ok (before ++ k :: after) ->
      length before = length lists ->
      answered w client repo
        (h ++ [EvGetRun (itoa (ID run)) (Ok run');
               EvGetJobs run' (Ok (before ++ k :: after))])
        (before ++ [k]) (map Ok lists ++ [Err e]) ->
      exists err,
        wraps "failed to get annotations" e err /\
        watchLoop hp w (S fuel) opts client repo run prNumber h
        = (Returned (Some err),
           h ++ [EvGetRun (itoa (ID run)) (Ok run');
                 EvGetJobs run' (Ok (before ++ k :: after))]
             ++ annEvents (before ++ [k]) (map Ok lists ++ [Err e]))).
Proof.
  intros N. repeat split.
  - intros e E. eexists. split; [apply wraps_Errorf_w|].
    rewrite watchLoop_step by assumption.
    now rewrite renderRun_GetRun_err with (e:=e).
  - intros run' e E1 E2. eexists. split; [apply wraps_Errorf_w|].
    rewrite watchLoop_step by assumption.
    now rewrite renderRun_GetJobs_err with (run':=run') (e:=e).
  - intros run' before k after lists e E1 E2 L A.
    eexists. split; [apply wraps_Errorf_w|].
    rewrite watchLoop_step by assumption.
    now rewrite renderRun_GetAnnotations_err
      with (run':=run') (before:=before) (k:=k) (after:=after)
           (lists:=lists) (e:=e).
Qed.

(** C6: in an iteration that fetches a run whose conclusion is failure and
    an empty job list, the redraw stops after the header: no job list and
    no annotations are written, there is no error, and the loop goes on,
    after its sleep, with the run that was just fetched, whose status
    decides whether the body runs again. *)
Theorem failed_run_without_jobs fuel opts client repo run prNumber h run' :
  GetRun w h client repo (itoa (ID run)) = Ok run' ->
  GetJobs w (h ++ [EvGetRun (itoa (ID run)) (Ok run')]) client repo run'
  = Ok [] ->
  Conclusion run' = Failure ->
  let ago :=
    Sub hp (Now opts (h ++ [EvGetRun (itoa (ID run)) (Ok run')]))
      (CreatedAt run') in
  let h' :=
    h ++ [EvGetRun (itoa (ID run)) (Ok run'); EvGetJobs run' (Ok []);
          EvWrite cursorHome; EvWrite clearToEnd;
          EvWrite (Boldf hp (ColorScheme_ (IO opts)) refreshing
                     [Interval opts] ++ nl)%string;
          EvWrite nl;
          EvWrite (RenderRunHeader hp (ColorScheme_ (IO opts)) run'
                     (FuzzyAgo hp ago) prNumber ++ nl)%string;
          EvWrite nl] in
  renderRun hp w opts client repo run prNumber h = (Ok run', h') /\
  (Status run <> Completed ->
   watchLoop hp w (S fuel) opts client repo run prNumber h
   = watchLoop hp w fuel opts client repo run' prNumber
       (h' ++ [EvSleep (int_mul (Interval opts) 1000)])).
Proof.
  intros E1 E2 C ago h'.
  assert (R : renderRun hp w opts client repo run prNumber h = (Ok run', h')).
  { rewrite renderRun_ok with (run':=run') (jobs:=[]) (lists:=[]); auto.
    - unfold report. simpl. rewrite C. reflexivity.
    - constructor. }
  split; [exact R|].
  intros N. rewrite watchLoop_step by assumption. now rewrite R.
Qed.

(** ** What the loop adds to the trace, in any world *)

Lemma fetch_is_no_PullRequestForRun (tr : Trace) :
  forallb is_fetch tr = true ->
  forallb (fun ev => negb (is_PullRequestForRun ev)) tr = true.
Proof.
  induction tr as [|ev tr IH]; simpl; auto.
  intros H. apply andb_prop in H as [H1 H2]. rewrite IH by assumption.
  destruct ev; simpl in *; auto; discriminate.
Qed.

Lemma redrawn_with_fetches opts prNumber (fetches tr : Trace) :
  forallb is_fetch fetches = true ->
  redrawn_with hp opts prNumber tr ->
  redrawn_with hp opts prNumber (fetches ++ tr).
Proof.
  induction fetches as [|ev fetches IH]; simpl; auto.
  intros H R. apply andb_prop in H as [H1 H2].
  apply redrawn_skip; auto. destruct ev; simpl in *; auto; discriminate.
Qed.

Lemma watchLoop_trace fuel : forall opts client repo run prNumber h,
  exists tr,
    snd (watchLoop hp w fuel opts client repo run prNumber h) = h ++ tr /\
    count is_PullRequestForRun tr = 0 /\
    redrawn_with hp opts prNumber tr /\
    (fst (watchLoop hp w fuel opts client repo run prNumber h) = Returned None ->
     forallb (fun ev => negb (failed ev)) tr = true).
Proof.
  induction fuel as [|fuel IH]; intros opts client repo run prNumber h;
    destruct (String.eqb_spec (Status run) Completed) as [C|N].
  - rewrite watchLoop_done by assumption. exists []. simpl.
    rewrite app_nil_r. repeat split; auto. constructor.
  - rewrite watchLoop_out_of_fuel by assumption. exists []. simpl.
    rewrite app_nil_r. repeat split; auto. constructor.
  - rewrite watchLoop_done by assumption. exists []. simpl.
    rewrite app_nil_r. repeat split; auto. constructor.
  - rewrite watchLoop_step by assumption.
    destruct (renderRun_delta opts client repo run prNumber h)
      as (fetches & writes & E & F & _ & _ & D).
    destruct (renderRun hp w opts client repo run prNumber h) as [[run'|err] h'];
      simpl in E, D; subst h'.
    + destruct D as (NF & _ & jobs & annotations & ago & ->).
      set (h1 := (h ++ fetches ++ map EvWrite _) ++ [EvSleep _]).
      destruct (IH opts client repo run' prNumber h1) as (tr & E' & P & R & S).
      exists (fetches ++ map EvWrite (report hp opts run' jobs annotations ago prNumber)
                ++ EvSleep (int_mul (Interval opts) 1000) :: tr).
      split; [|split; [|split]].
      * rewrite E'. unfold h1. now flat.
      * rewrite !count_app, (count_none is_PullRequestForRun fetches)
          by now apply fetch_is_no_PullRequestForRun.
        rewrite (count_none is_PullRequestForRun (map EvWrite _))
          by now apply forallb_writes.
        exact P.
      * apply redrawn_with_fetches; auto. apply redrawn_report.
        apply redrawn_skip; auto.
      * intros O. rewrite !forallb_app, NF. simpl.
        rewrite forallb_writes by reflexivity. simpl. now apply S.
    + destruct D as (-> & _). exists fetches. simpl. rewrite app_nil_r.
      split; [reflexivity|split; [|split]].
      * apply count_none. now apply fetch_is_no_PullRequestForRun.
      * rewrite <- (app_nil_r fetches). apply redrawn_with_fetches; auto.
        constructor.
      * discriminate.
Qed.

(** ** The loop against a script *)

Lemma count_fetches (p : event HTTPClient Repo Time Job Annotation -> bool)
      (tr : Trace) :
  (forall ev, is_fetch ev = true -> p ev = false) ->
  forallb is_fetch tr = true -> count p tr = 0.
Proof.
  intros P H. apply count_none. induction tr as [|ev tr IH]; simpl; auto.
  simpl in H. apply andb_prop in H as [H1 H2].
  rewrite (P ev H1). simpl. auto.
Qed.

Lemma count_writes (p : event HTTPClient Repo Time Job Annotation -> bool)
      (ss : list string) :
  (forall s, p (EvWrite s) = false) -> count p (map EvWrite ss) = 0.
Proof.
  intros P. apply count_none. apply forallb_writes. intros s. now rewrite P.
Qed.

Lemma non_terminal_until_completed run (runs : list (Run Time)) :
  until_completed run runs -> non_terminal (run :: runs) = length runs.
Proof.
  revert run. induction runs as [|next runs IH]; intros run; simpl.
  - intros C. unfold non_terminal. simpl. now rewrite C.
  - intros [N U]. apply String.eqb_neq in N.
    unfold non_terminal in *. simpl filter at 1. rewrite N. simpl.
    now rewrite <- (IH next U).
Qed.

Lemma answered_never_fail client repo jobs : forall h,
  annotations_never_fail w ->
  exists lists, answered w client repo h jobs (map Ok lists).
Proof.
  intros h NF. revert h.
  induction jobs as [|job jobs IH]; intros h.
  - exists []. constructor.
  - destruct (GetAnnotations w h client repo job) as [l|e] eqn:E.
    + destruct (IH (h ++ [EvGetAnnotations job (Ok l)])) as [lists A].
      exists (l :: lists). simpl. now constructor.
    + specialize (NF h client repo job). rewrite E in NF. discriminate.
Qed.

Lemma renderRun_succeeds opts client repo run prNumber h run' :
  GetRun w h client repo (itoa (ID run)) = Ok run' ->
  jobs_never_fail w -> annotations_never_fail w ->
  fst (renderRun hp w opts client repo run prNumber h) = Ok run'.
Proof.
  intros E1 J A.
  destruct (GetJobs w (h ++ [EvGetRun (itoa (ID run)) (Ok run')]) client repo run')
    as [jobs|e] eqn:E2.
  2:{ specialize (J (h ++ [EvGetRun (itoa (ID run)) (Ok run')]) client repo run').
      rewrite E2 in J. discriminate. }
  destruct (answered_never_fail client repo jobs
              (h ++ [EvGetRun (itoa (ID run)) (Ok run'); EvGetJobs run' (Ok jobs)]) A)
    as [lists An].
  now rewrite renderRun_ok with (run':=run') (jobs:=jobs) (lists:=lists).
Qed.

Lemma scripted_next b run (runs : list (Run Time)) :
  scripted w b (run :: runs) -> scripted w (S b) runs.
Proof.
  intros Sc h client repo runID k r C N.
  apply (Sc h client repo runID (S k) r); auto.
  rewrite C. lia.
Qed.

(** Against a script that ends with the first completed run, and with
    fuel for every run before it, the loop fetches the script to its end,
    redraws and sleeps once per fetch, and returns nil. *)
Lemma watchLoop_scripted opts client repo prNumber :
  jobs_never_fail w -> annotations_never_fail w ->
  forall runs run fuel h b,
    scripted w b runs ->
    count is_GetRun h = b ->
    until_completed run runs ->
    length runs <= fuel ->
    exists tr,
      watchLoop hp w fuel opts client repo run prNumber h
      = (Returned None, h ++ tr) /\
      fetched_runs tr = runs /\
      count is_GetRun tr = length runs /\
      count is_redraw tr = length runs /\
      count is_sleep tr = length runs.
Proof.
  intros J A. induction runs as [|next runs IH]; intros run fuel h b Sc C U L.
  - simpl in U. rewrite watchLoop_done by assumption.
    exists []. rewrite app_nil_r. now repeat split.
  - destruct U as [N U]. destruct fuel as [|fuel]; [simpl in L; lia|].
    rewrite watchLoop_step by assumption.
    assert (G : GetRun w h client repo (itoa (ID run)) = Ok next).
    { apply (Sc h client repo (itoa (ID run)) 0); [lia|reflexivity]. }
    pose proof (renderRun_succeeds opts client repo run prNumber h G J A) as R.
    destruct (renderRun_delta opts client repo run prNumber h)
      as (fetches & writes & E & F & G1 & _ & D).
    destruct (renderRun hp w opts client repo run prNumber h) as [r h'].
    simpl in R, E, D. subst r h'.
    destruct D as (_ & FR & jobs & annotations & ago & ->).
    set (h1 := (h ++ fetches ++ map EvWrite _) ++ [EvSleep _]).
    destruct (IH next fuel h1 (S b)) as (tr & E' & T1 & T2 & T3 & T4).
    + now apply scripted_next with (run:=next).
    + unfold h1. rewrite !count_app, C, G1, count_writes by reflexivity.
      unfold count. simpl. lia.
    + assumption.
    + simpl in L. lia.
    + exists (fetches ++ map EvWrite (report hp opts next jobs annotations ago prNumber)
                ++ EvSleep (int_mul (Interval opts) 1000) :: tr).
      split; [|split; [|split; [|split]]].
      * rewrite E'. unfold h1. now flat.
      * rewrite !fetched_runs_app, FR.
        rewrite (fetched_runs_none (map EvWrite _))
          by now apply forallb_writes.
        simpl. now rewrite T1.
      * rewrite !count_app, G1, count_writes by reflexivity.
        change (EvSleep ?d :: tr) with ([EvSleep d] ++ tr).
        rewrite count_app, T2. reflexivity.
      * rewrite !count_app, count_redraw_report.
        rewrite (count_fetches is_redraw fetches); auto.
        2:{ intros ev; destruct ev; simpl; auto; discriminate. }
        change (EvSleep ?d :: tr) with ([EvSleep d] ++ tr).
        rewrite count_app, T3. reflexivity.
      * rewrite !count_app, count_writes by reflexivity.
        rewrite (count_fetches is_sleep fetches); auto.
        2:{ intros ev; destruct ev; simpl; auto; discriminate. }
        change (EvSleep ?d :: tr) with ([EvSleep d] ++ tr).
        rewrite count_app, T4. reflexivity.
Qed.

(** With less fuel than that the loop is still running when the fuel is
    spent: its body runs once per run of the script that is not the last. *)
Lemma watchLoop_scripted_short opts client repo prNumber :
  jobs_never_fail w -> annotations_never_fail w ->
  forall runs run fuel h b,
    scripted w b runs ->
    count is_GetRun h = b ->
    until_completed run runs ->
    fuel < length runs ->
    fst (watchLoop hp w fuel opts client repo run prNumber h) = OutOfFuel.
Proof.
  intros J A. induction runs as [|next runs IH]; intros run fuel h b Sc C U L.
  - simpl in L. lia.
  - destruct U as [N U]. destruct fuel as [|fuel].
    + now rewrite watchLoop_out_of_fuel.
    + rewrite watchLoop_step by assumption.
      assert (G : GetRun w h client repo (itoa (ID run)) = Ok next).
      { apply (Sc h client repo (itoa (ID run)) 0); [lia|reflexivity]. }
      pose proof (renderRun_succeeds opts client repo run prNumber h G J A) as R.
      destruct (renderRun_delta opts client repo run prNumber h)
        as (fetches & writes & E & F & G1 & _ & D).
      destruct (renderRun hp w opts client repo run prNumber h) as [r h'].
      simpl in R, E, D. subst r h'.
      apply IH with (b := S b).
      * now apply scripted_next with (run:=next).
      * rewrite !count_app, C, G1, count_writes by reflexivity.
        unfold count. simpl. lia.
      * assumption.
      * simpl in L. lia.
Qed.

(** ** A completed run ends the watch *)

Lemma split_after {A} (p : A -> bool) (l1 : list A) :
  forall l2 pre x post,
    forallb (fun a => negb (p a)) l1 = true ->
    p x = true ->
    l1 ++ l2 = pre ++ x :: post ->
    exists pre', l2 = pre' ++ x :: post.
Proof.
  induction l1 as [|a l1 IH]; intros l2 pre x post F P E.
  - now exists pre.
  - simpl in F. apply andb_prop in F as [F1 F2].
    destruct pre as [|b pre]; simpl in E; injection E as -> E.
    + rewrite P in F1. discriminate.
    + now apply IH with (pre:=pre).
Qed.

(** In any world: once a run fetch of the loop has returned a completed
    run, what follows is the rest of that iteration only: no run fetch
    any more, one redraw and one sleep at most. *)
Lemma completed_is_absorbing fuel : forall opts client repo run prNumber h tr,
  snd (watchLoop hp w fuel opts client repo run prNumber h) = h ++ tr ->
  forall pre runID r post,
    tr = pre ++ EvGetRun runID (Ok r) :: post ->
    Status r = Completed ->
    count is_GetRun post = 0 /\
    count is_redraw post <= 1 /\
    count is_sleep post <= 1.
Proof.
  assert (Nil : forall (h tr : Trace), h = h ++ tr -> tr = []).
  { intros h tr E. rewrite <- (app_nil_r h) in E at 1.
    now apply app_inv_head in E. }
  assert (RF : forall ev : event HTTPClient Repo Time Job Annotation,
             is_fetch ev = true -> is_redraw ev = false)
    by (intros ev; destruct ev; simpl; auto; discriminate).
  assert (SF : forall ev : event HTTPClient Repo Time Job Annotation,
             is_fetch ev = true -> is_sleep ev = false)
    by (intros ev; destruct ev; simpl; auto; discriminate).
  induction fuel as [|fuel IH];
    intros opts client repo run prNumber h tr E pre runID r post S C;
    destruct (String.eqb_spec (Status run) Completed) as [C'|N].
  - rewrite watchLoop_done in E by assumption. apply Nil in E. subst tr.
    now destruct pre.
  - rewrite watchLoop_out_of_fuel in E by assumption. apply Nil in E. subst tr.
    now destruct pre.
  - rewrite watchLoop_done in E by assumption. apply Nil in E. subst tr.
    now destruct pre.
  - rewrite watchLoop_step in E by assumption.
    destruct (renderRun_delta opts client repo run prNumber h)
      as (fetches & writes & E1 & F & _ & (res & others & -> & NG) & D).
    simpl in F.
    destruct (renderRun hp w opts client repo run prNumber h) as [[run'|err] h'];
      simpl in E1, D; subst h'.
    + destruct D as (_ & FR & jobs & annotations & ago & ->).
      assert (res = Ok run') as ->.
      { destruct res as [x|e]; simpl in FR;
          rewrite (fetched_runs_none others NG) in FR;
          [now injection FR as ->|discriminate]. }
      set (sleep := EvSleep (int_mul (Interval opts) 1000)) in *.
      set (writes := map EvWrite (report hp opts run' jobs annotations ago prNumber)) in *.
      match type of E with
      | snd (watchLoop hp w fuel opts client repo run' prNumber ?h1) = _ =>
          destruct (watchLoop_trace fuel opts client repo run' prNumber h1)
            as (tr' & E' & _);
          pose proof (IH opts client repo run' prNumber h1 tr' E') as IH'
      end.
      rewrite E' in E. revert E. flat. intros E.
      apply app_inv_head in E. rewrite <- E in S. clear E.
      destruct pre as [|ev pre]; simpl in S.
      * injection S as _ <- <-.
        rewrite watchLoop_done in E' by assumption. apply Nil in E'.
        subst tr'.
        rewrite !count_app.
        rewrite (count_none is_GetRun others NG).
        rewrite (count_fetches is_redraw others RF F).
        rewrite (count_fetches is_sleep others SF F).
        unfold writes. rewrite count_redraw_report.
        rewrite !count_writes by reflexivity.
        unfold count. simpl. lia.
      * injection S as _ S2.
        assert (S3 : (others ++ writes ++ [sleep]) ++ tr'
                     = pre ++ EvGetRun runID (Ok r) :: post)
          by (rewrite <- S2, <- !app_assoc; reflexivity).
        apply split_after with (p:=is_GetRun) in S3 as [pre' S3]; auto.
        -- now apply IH' with (pre:=pre') (runID:=runID) (r:=r).
        -- rewrite !forallb_app, NG. unfold writes.
           rewrite forallb_writes by reflexivity. reflexivity.
    + destruct D as (-> & _). simpl in E. rewrite app_nil_r in E.
      apply app_inv_head in E. rewrite <- E in S. clear E.
      destruct pre as [|ev pre]; simpl in S.
      * injection S as _ _ <-.
        rewrite (count_none is_GetRun others NG).
        rewrite (count_fetches is_redraw others RF F).
        rewrite (count_fetches is_sleep others SF F). lia.
      * injection S as _ ->. rewrite forallb_app in NG. simpl in NG.
        now rewrite andb_false_r in NG.
Qed.

(** ** From [watchRun] into its loop *)

Lemma watchRun_enters_loop
      (v : World HTTPClient Client Repo ColorScheme Time Job Annotation)
      fuel opts h0 client repo runID h2 run :
  set_up hp v opts h0 client repo runID h2 ->
  GetRun v h2 client repo runID = Ok run ->
  let n := PullRequestForRun v (h2 ++ [EvGetRun runID (Ok run)]) client repo run in
  watchRun hp v fuel opts h0
  = watchLoop hp v fuel opts client repo run (prSuffix n)
      (h2 ++ [EvGetRun runID (Ok run); EvPullRequestForRun run n;
              EvWrite clearScreen]).
Proof.
  intros (c & E1 & -> & E2 & E3) E4 n.
  unfold watchRun, bind, ask. rewrite E1, E2. flat.
  change (if Prompt opts
          then shared_PromptForRun v (ColorScheme_ (IO opts))
                 (NewClientFromHTTP hp c) repo
          else ret (Ok (RunID opts)))
    with (selectRun v opts (NewClientFromHTTP hp c) repo).
  rewrite E3. unfold shared_GetRun, shared_PullRequestForRun, ask.
  rewrite E4. unfold Fprint, emit. flat. reflexivity.
Qed.

(** Fuel beyond what the loop needs changes nothing. *)
Lemma watchLoop_more_fuel fuel : forall fuel' opts client repo run prNumber h,
  fuel <= fuel' ->
  fst (watchLoop hp w fuel opts client repo run prNumber h) <> OutOfFuel ->
  watchLoop hp w fuel' opts client repo run prNumber h
  = watchLoop hp w fuel opts client repo run prNumber h.
Proof.
  induction fuel as [|fuel IH]; intros fuel' opts client repo run prNumber h L O;
    destruct (String.eqb_spec (Status run) Completed) as [C|N].
  - now rewrite !watchLoop_done.
  - rewrite watchLoop_out_of_fuel in O by assumption. now elim O.
  - now rewrite !watchLoop_done.
  - destruct fuel' as [|fuel']; [lia|].
    rewrite watchLoop_step in O by assumption.
    rewrite !watchLoop_step by assumption.
    destruct (renderRun hp w opts client repo run prNumber h) as [[run'|err] h'];
      [|reflexivity].
    apply IH; [lia|assumption].
Qed.

(** ** The claims about the loop *)

(** C1: let the run fetches return the snapshots [first :: rest], one per
    fetch, of which the last is completed and no other is (and let the jobs
    and annotations fetches succeed).  Then, given fuel for that many
    turns, [watchRun] returns nil; a render being one turn of the loop (a
    call of [renderRun]: one run fetch and one redraw), there is exactly
    one render per snapshot that is not completed; if the first fetch is
    completed already the loop does nothing at all; the run fetches return
    [first :: rest] and nothing more, and the fetch that returns the
    completed run is followed by the rest of its own turn only: no run
    fetch and no redraw of a further turn. *)
Theorem one_render_per_non_terminal_snapshot
        opts h0 client repo runID h2 first rest :
  set_up hp w opts h0 client repo runID h2 ->
  scripted w (count is_GetRun h2) (first :: rest) ->
  jobs_never_fail w ->
  annotations_never_fail w ->
  until_completed first rest ->
  exists n tr,
    (forall fuel,
        non_terminal (first :: rest) <= fuel ->
        watchRun hp w fuel opts h0
        = (Returned None,
           h2 ++ [EvGetRun runID (Ok first); EvPullRequestForRun first n;
                  EvWrite clearScreen] ++ tr)) /\
    (forall fuel,
        fuel < non_terminal (first :: rest) ->
        fst (watchRun hp w fuel opts h0) = OutOfFuel) /\
    fetched_runs tr = rest /\
    count is_GetRun tr = non_terminal (first :: rest) /\
    count is_redraw tr = non_terminal (first :: rest) /\
    (Status first = Completed -> tr = []) /\
    (forall pre runID' run post,
        tr = pre ++ EvGetRun runID' (Ok run) :: post ->
        Status run = Completed ->
        count is_GetRun post = 0 /\ count is_redraw post <= 1).
Proof.
  intros SU Sc J A U.
  assert (G : GetRun w h2 client repo runID = Ok first).
  { apply (Sc h2 client repo runID 0); [lia|reflexivity]. }
  rewrite (non_terminal_until_completed _ _ U).
  set (n := PullRequestForRun w (h2 ++ [EvGetRun runID (Ok first)]) client repo first).
  set (h3 := h2 ++ [EvGetRun runID (Ok first); EvPullRequestForRun first n;
                    EvWrite clearScreen]).
  assert (C3 : count is_GetRun h3 = S (count is_GetRun h2)).
  { unfold h3. rewrite count_app. unfold count at 2. simpl. lia. }
  assert (Sc' : scripted w (S (count is_GetRun h2)) rest)
    by now apply scripted_next with (run:=first).
  edestruct watchLoop_scripted
    with (opts:=opts) (client:=client) (repo:=repo) (prNumber:=prSuffix n)
         (runs:=rest) (run:=first) (fuel:=length rest) (h:=h3)
    as (tr & E & T1 & T2 & T3 & _); eauto.
  exists n, tr. split; [|split; [|split; [|split; [|split; [|split]]]]]; auto.
  - intros fuel L.
    rewrite (watchRun_enters_loop fuel SU G). fold n. fold h3.
    rewrite watchLoop_more_fuel with (fuel:=length rest); auto.
    + rewrite E. unfold h3. now flat.
    + rewrite E. discriminate.
  - intros fuel L.
    rewrite (watchRun_enters_loop fuel SU G).
    now apply watchLoop_scripted_short with (runs:=rest) (b:=S (count is_GetRun h2)).
  - intros C. destruct rest as [|next rest]; [|now destruct U].
    rewrite watchLoop_done in E by assumption.
    injection E as E. rewrite <- (app_nil_r h3) in E at 1.
    now apply app_inv_head in E.
  - intros pre runID' run post Sp C.
    apply (f_equal snd) in E. simpl in E.
    edestruct completed_is_absorbing as (P1 & P2 & _);
      [exact E|exact Sp|exact C|].
    now split.
Qed.

(** C3, as amended: the sleep follows every iteration that returns without
    an error, the one that fetched a completed run included: the loop
    sleeps first and tests the status of the fetched run after that, so
    that it leaves after the sleep.  Only an iteration that fails is not
    followed by a sleep. *)
Theorem sleep_follows_every_render fuel opts client repo run prNumber h :
  Status run <> Completed ->
  exists d,
    (forall run' h',
        renderRun hp w opts client repo run prNumber h = (Ok run', h') ->
        watchLoop hp w (S fuel) opts client repo run prNumber h
        = watchLoop hp w fuel opts client repo run' prNumber (h' ++ [EvSleep d]) /\
        (Status run' = Completed ->
         watchLoop hp w (S fuel) opts client repo run prNumber h
         = (Returned None, h' ++ [EvSleep d])))
    /\
    (forall err h',
        renderRun hp w opts client repo run prNumber h = (Err err, h') ->
        watchLoop hp w (S fuel) opts client repo run prNumber h
        = (Returned (Some err), h')).
Proof.
  intros N. exists (int_mul (Interval opts) 1000). split.
  - intros run' h' R. rewrite watchLoop_step by assumption. rewrite R.
    split; [reflexivity|]. intros C. now apply watchLoop_done.
  - intros err h' R. rewrite watchLoop_step by assumption. now rewrite R.
Qed.

(** The sleep that the loop asks for lasts [opts.Interval * 1000]
    nanoseconds: as many microseconds as the interval counts seconds. *)
Lemma sleep_is_microseconds (i : Z) :
  (0 < i)%Z -> (i * Second < 2 ^ 63)%Z ->
  int_mul i 1000 = (i * 1000)%Z /\
  (int_mul i 1000 * 1000000 = i * Second)%Z.
Proof.
  unfold int_mul, wrap_int, Second, Nanosecond.
  change (2 ^ 63)%Z with 9223372036854775808%Z.
  change (2 ^ 64)%Z with 18446744073709551616%Z.
  intros P B. rewrite Z.mod_small by lia. lia.
Qed.

(** ** The pull request of the run *)

Lemma set_up_trace opts h0 client repo runID h2 :
  set_up hp w opts h0 client repo runID h2 ->
  exists pre,
    h2 = h0 ++ pre /\
    count is_PullRequestForRun pre = 0 /\
    forallb (fun ev => negb (failed ev)) pre = true.
Proof.
  intros (c & E1 & -> & E2 & E3). unfold selectRun in E3.
  destruct (Prompt opts).
  - unfold shared_PromptForRun, ask in E3. injection E3 as E3 <-.
    eexists. split; [now flat|]. rewrite E3. now split.
  - injection E3 as _ <-. eexists. split; [reflexivity|now split].
Qed.

Lemma not_failed_weaken (tr : Trace) :
  forallb (fun ev => negb (failed ev)) tr = true ->
  forallb (fun ev => implb (failed ev) (is_PullRequestForRun ev)) tr = true.
Proof.
  induction tr as [|ev tr IH]; simpl; auto.
  intros H. apply andb_prop in H as [H1 H2]. rewrite IH by assumption.
  destruct (failed ev); [discriminate|reflexivity].
Qed.

(** Whatever the world does: [watchRun] looks the pull request up at most
    once, and when it returns nil no call has failed but, possibly, that
    lookup. *)
Lemma watchRun_trace fuel opts h0 :
  exists tr,
    snd (watchRun hp w fuel opts h0) = h0 ++ tr /\
    count is_PullRequestForRun tr <= 1 /\
    (fst (watchRun hp w fuel opts h0) = Returned None ->
     forallb (fun ev => implb (failed ev) (is_PullRequestForRun ev)) tr = true).
Proof.
  unfold watchRun, bind, ask.
  destruct (HttpClient opts h0) as [c|e] eqn:E1.
  2:{ eexists. split; [reflexivity|]. split; [unfold count; simpl; lia|discriminate]. }
  destruct (BaseRepo opts (h0 ++ [EvHttpClient (Ok c)])) as [repo|e] eqn:E2.
  2:{ eexists. split; [simpl; now flat|].
      split; [unfold count; simpl; lia|discriminate]. }
  set (client := NewClientFromHTTP hp c).
  assert (P : exists pre r,
             (if Prompt opts
              then shared_PromptForRun w (ColorScheme_ (IO opts)) client repo
              else ret (Ok (RunID opts)))
               ((h0 ++ [EvHttpClient (Ok c)]) ++ [EvBaseRepo (Ok repo)])
             = (r, h0 ++ pre) /\
             count is_PullRequestForRun pre = 0 /\
             (is_err r = false ->
              forallb (fun ev => negb (failed ev)) pre = true)).
  { destruct (Prompt opts).
    - unfold shared_PromptForRun, ask. do 2 eexists.
      split; [now flat|]. split; [reflexivity|]. simpl. intros ->. reflexivity.
    - do 2 eexists. split; [unfold ret; now flat|]. now split. }
  destruct P as (pre & r & -> & P1 & P2).
  destruct r as [runID|e].
  2:{ exists pre. split; [reflexivity|]. split; [lia|discriminate]. }
  unfold shared_GetRun, shared_PullRequestForRun, ask.
  destruct (GetRun w (h0 ++ pre) client repo runID) as [run|e] eqn:E4.
  2:{ eexists. split; [simpl; now flat|].
      split; [rewrite count_app, P1; unfold count; simpl; lia|discriminate]. }
  unfold Fprint, emit.
  set (n := PullRequestForRun w _ client repo run).
  match goal with |- context [watchLoop hp w fuel opts client repo run ?pr ?h] =>
    destruct (watchLoop_trace fuel opts client repo run pr h)
      as (tr & E & T1 & _ & T2) end.
  exists (pre ++ [EvGetRun runID (Ok run); EvPullRequestForRun run n;
                  EvWrite clearScreen] ++ tr).
  split; [rewrite E; now flat|]. split.
  - rewrite !count_app, P1, T1. unfold count. simpl. lia.
  - intros O. rewrite !forallb_app.
    rewrite (not_failed_weaken pre) by now apply P2.
    rewrite (not_failed_weaken tr) by now apply T2.
    simpl. now destruct (is_err n).
Qed.

(** ** Two worlds that differ in their pull requests only *)

Section TwoWorlds.

Variable w' : World HTTPClient Client Repo ColorScheme Time Job Annotation.
Hypothesis same_GetRun :
  forall h c r runID, GetRun w' h c r runID = GetRun w h c r runID.
Hypothesis same_GetJobs :
  forall h c r run, GetJobs w' h c r run = GetJobs w h c r run.
Hypothesis same_GetAnnotations :
  forall h c r job, GetAnnotations w' h c r job = GetAnnotations w h c r job.

Lemma rangeJobs_same client repo jobs : forall (annotations : list Annotation) h,
  rangeJobs w' client repo jobs annotations h
  = rangeJobs w client repo jobs annotations h.
Proof.
  induction jobs as [|job jobs IH]; intros annotations h; simpl; auto.
  unfold bind, shared_GetAnnotations, ask. rewrite same_GetAnnotations.
  destruct (GetAnnotations w h client repo job); auto.
Qed.

Lemma renderRun_same opts client repo run prNumber h :
  renderRun hp w' opts client repo run prNumber h
  = renderRun hp w opts client repo run prNumber h.
Proof.
  unfold renderRun, bind, shared_GetRun, shared_GetJobs, ask, peek.
  rewrite same_GetRun.
  destruct (GetRun w h client repo (itoa (ID run))) as [run'|e]; auto.
  rewrite same_GetJobs.
  destruct (GetJobs w _ client repo run') as [jobs|e]; auto.
  now rewrite rangeJobs_same.
Qed.

Lemma watchLoop_same fuel : forall opts client repo run prNumber h,
  watchLoop hp w' fuel opts client repo run prNumber h
  = watchLoop hp w fuel opts client repo run prNumber h.
Proof.
  induction fuel as [|fuel IH]; intros opts client repo run prNumber h;
    simpl; auto.
  destruct (Status run =? Completed)%string; auto.
  unfold bind. rewrite renderRun_same.
  destruct (renderRun hp w opts client repo run prNumber h) as [[run'|e] h'];
    [apply IH|reflexivity].
Qed.

End TwoWorlds.

(** C10: once the set-up is through and the first run fetch has succeeded,
    the pull request is looked up once, before the screen is cleared and
    the loop is entered; nothing in the loop is a pull request lookup, and
    every report written in the loop has the [prNumber] of that one lookup
    in its header.  So a world that differs only in what it would tell
    about the pull request at any other moment leads to the very same
    outcome and trace. *)
Theorem pull_request_is_looked_up_once
        fuel opts h0 client repo runID h2 run :
  set_up hp w opts h0 client repo runID h2 ->
  GetRun w h2 client repo runID = Ok run ->
  let h3 := h2 ++ [EvGetRun runID (Ok run)] in
  let n := PullRequestForRun w h3 client repo run in
  (exists pre tr,
      h3 = h0 ++ pre /\
      snd (watchRun hp w fuel opts h0)
      = h0 ++ pre ++ [EvPullRequestForRun run n; EvWrite clearScreen] ++ tr /\
      count is_PullRequestForRun pre = 0 /\
      count is_PullRequestForRun tr = 0 /\
      redrawn_with hp opts (prSuffix n) tr)
  /\
  (forall w',
      same_but_pull_requests w w' h3 client repo run ->
      watchRun hp w' fuel opts h0 = watchRun hp w fuel opts h0).
Proof.
  intros SU G h3 n. split.
  - destruct (set_up_trace SU) as (pre & -> & P & _).
    rewrite (watchRun_enters_loop fuel SU G). fold h3. fold n.
    match goal with |- context [watchLoop hp w fuel opts client repo run ?pr ?h] =>
      destruct (watchLoop_trace fuel opts client repo run pr h)
        as (tr & T & T1 & R & _) end.
    exists (pre ++ [EvGetRun runID (Ok run)]), tr.
    split; [unfold h3; now flat|]. split; [rewrite T; now flat|].
    split; [rewrite count_app, P; reflexivity|]. now split.
  - intros w' (S1 & S2 & S3 & S4 & S5).
    assert (SU' : set_up hp w' opts h0 client repo runID h2).
    { destruct SU as (c & E1 & E2 & E3 & E4). exists c. repeat split; auto.
      rewrite <- E4. unfold selectRun. destruct (Prompt opts); auto.
      unfold shared_PromptForRun, ask. now rewrite S4. }
    assert (G' : GetRun w' h2 client repo runID = Ok run) by now rewrite S1.
    rewrite (watchRun_enters_loop fuel SU G).
    rewrite (watchRun_enters_loop fuel SU' G').
    fold h3. rewrite S5. now apply watchLoop_same.
Qed.

(** ** The command line *)

(** The errors of the loop are the wrapped errors of its fetches. *)
Lemma watchLoop_errors fuel : forall opts client repo run prNumber h err,
  fst (watchLoop hp w fuel opts client repo run prNumber h) = Returned (Some err) ->
  exists msg e, err = Errorf_w msg e.
Proof.
  induction fuel as [|fuel IH]; intros opts client repo run prNumber h err;
    destruct (String.eqb_spec (Status run) Completed) as [C|N].
  - rewrite watchLoop_done by assumption. discriminate.
  - rewrite watchLoop_out_of_fuel by assumption. discriminate.
  - rewrite watchLoop_done by assumption. discriminate.
  - rewrite watchLoop_step by assumption.
    destruct (renderRun_cases opts client repo run prNumber h)
      as [(e & _ & R)|[(run' & e & R)|[(run' & before & k & after & lists & e & L & R)
         |(run' & jobs & lists & ago & _ & R)]]]; rewrite R; simpl.
    1-3: intros [= <-]; eauto.
    apply IH.
Qed.

(** With [opts.Prompt] set, what follows a set-up that went through is the
    prompt; and a flag error can only be one that the prompt returned. *)
Lemma watchRun_prompts fuel opts h :
  Prompt opts = true ->
  (forall e,
      fst (watchRun hp w fuel opts h) = Returned (Some (FlagError e)) ->
      In (EvPromptForRun (Err (FlagError e))) (snd (watchRun hp w fuel opts h)))
  /\
  (forall c repo,
      HttpClient opts h = Ok c ->
      BaseRepo opts (h ++ [EvHttpClient (Ok c)]) = Ok repo ->
      exists tr,
        snd (watchRun hp w fuel opts h)
        = h ++ [EvHttpClient (Ok c); EvBaseRepo (Ok repo);
                EvPromptForRun
                  (PromptForRun w (h ++ [EvHttpClient (Ok c); EvBaseRepo (Ok repo)])
                     (ColorScheme_ (IO opts)) (NewClientFromHTTP hp c) repo)]
            ++ tr).
Proof.
  intros P. split.
  - intros e. unfold watchRun, bind, ask. rewrite P.
    unfold shared_PromptForRun, shared_GetRun, shared_PullRequestForRun, ask,
      Fprint, emit.
    destruct (HttpClient opts h) as [c|e1]; [|discriminate].
    destruct (BaseRepo opts (h ++ [EvHttpClient (Ok c)])) as [repo|e2];
      [|discriminate].
    destruct (PromptForRun w _ (ColorScheme_ (IO opts)) (NewClientFromHTTP hp c) repo)
      as [runID|e3] eqn:R.
    2:{ simpl. intros [= ->]. apply in_or_app. right. now left. }
    destruct (GetRun w _ (NewClientFromHTTP hp c) repo runID) as [run|e4];
      [|discriminate].
    intros O. apply watchLoop_errors in O as (msg & e' & [=]).
  - intros c repo E1 E2. unfold watchRun, bind, ask. rewrite P, E1, E2.
    unfold shared_PromptForRun, shared_GetRun, shared_PullRequestForRun, ask,
      Fprint, emit. flat.
    destruct (PromptForRun w _ (ColorScheme_ (IO opts)) (NewClientFromHTTP hp c) repo)
      as [runID|e3].
    2:{ exists []. simpl. now flat. }
    flat.
    destruct (GetRun w _ (NewClientFromHTTP hp c) repo runID) as [run|e4].
    2:{ eexists. simpl. flat. reflexivity. }
    flat.
    match goal with |- context [watchLoop hp w fuel opts ?cl repo run ?pr ?h'] =>
      destruct (watchLoop_trace fuel opts cl repo run pr h') as (tr & T & _)
    end.
    rewrite T. eexists. flat. reflexivity.
Qed.

(** A set-up step that fails ends [watchRun] before the prompt. *)
Lemma watchRun_set_up_fails fuel opts h :
  (forall e,
      HttpClient opts h = Err e ->
      watchRun hp w fuel opts h
      = (Returned (Some (Errorf_w "failed to create http client: " e)),
         h ++ [EvHttpClient (Err e)]))
  /\
  (forall c e,
      HttpClient opts h = Ok c ->
      BaseRepo opts (h ++ [EvHttpClient (Ok c)]) = Err e ->
      watchRun hp w fuel opts h
      = (Returned (Some (Errorf_w "failed to determine base repo: " e)),
         h ++ [EvHttpClient (Ok c); EvBaseRepo (Err e)])).
Proof.
  split.
  - intros e E. unfold watchRun, bind, ask. now rewrite E.
  - intros c e E1 E2. unfold watchRun, bind, ask. rewrite E1, E2.
    unfold ret. now flat.
Qed.

(** C9, as amended: the run selector being omitted, [RunE] returns the
    flag error at once, before anything has happened, if the session
    cannot prompt.  If it can prompt, [RunE] runs [watchRun] with
    [opts.Prompt] set and raises no flag error of its own (a flag error
    could only be the prompt's); as soon as the HTTP client and the base
    repository are there, the prompt is what comes next, before any fetch;
    and if the HTTP client or the base repository cannot be had, that
    error is returned and nothing else happens: there is no prompt. *)
Theorem run_selector_omitted fuel f h :
  (forall runF,
      CanPrompt (f_IOStreams f) = false ->
      RunE hp w fuel f runF [] h
      = (Returned (Some (FlagError
           (New "run ID required when not running interactively"))), h))
  /\
  (CanPrompt (f_IOStreams f) = true ->
   RunE hp w fuel f None [] h
   = watchRun hp w fuel (set_Prompt (NewCmdWatch_opts w f) true) h /\
   (forall e,
       fst (RunE hp w fuel f None [] h) = Returned (Some (FlagError e)) ->
       In (EvPromptForRun (Err (FlagError e))) (snd (RunE hp w fuel f None [] h))) /\
   (forall c repo,
       f_HttpClient f h = Ok c ->
       f_BaseRepo f (h ++ [EvHttpClient (Ok c)]) = Ok repo ->
       exists tr,
         snd (RunE hp w fuel f None [] h)
         = h ++ [EvHttpClient (Ok c); EvBaseRepo (Ok repo);
                 EvPromptForRun
                   (PromptForRun w (h ++ [EvHttpClient (Ok c); EvBaseRepo (Ok repo)])
                      (ColorScheme_ (f_IOStreams f)) (NewClientFromHTTP hp c) repo)]
             ++ tr) /\
   (forall e,
       f_HttpClient f h = Err e ->
       RunE hp w fuel f None [] h
       = (Returned (Some (Errorf_w "failed to create http client: " e)),
          h ++ [EvHttpClient (Err e)])) /\
   (forall c e,
       f_HttpClient f h = Ok c ->
       f_BaseRepo f (h ++ [EvHttpClient (Ok c)]) = Err e ->
       RunE hp w fuel f None [] h
       = (Returned (Some (Errorf_w "failed to determine base repo: " e)),
          h ++ [EvHttpClient (Ok c); EvBaseRepo (Err e)]))).
Proof.
  split.
  - intros runF P. unfold RunE. simpl. rewrite P. reflexivity.
  - intros P.
    assert (E : RunE hp w fuel f None [] h
                = watchRun hp w fuel (set_Prompt (NewCmdWatch_opts w f) true) h).
    { unfold RunE. simpl. rewrite P. reflexivity. }
    rewrite E. split; [reflexivity|].
    destruct (@watchRun_prompts fuel (set_Prompt (NewCmdWatch_opts w f) true) h
                eq_refl) as [P1 P2].
    destruct (watchRun_set_up_fails fuel (set_Prompt (NewCmdWatch_opts w f) true) h)
      as [F1 F2].
    repeat split; assumption.
Qed.

End Properties.

(** * The code at work in the worlds of [Scenario] *)

Import Scenario.

Lemma watch7_set_up :
  forall w, set_up helpers w watch7 [] tt tt "7" afterSetUp.
Proof. intros w. exists tt. now repeat split. Qed.

Lemma usual_scripted :
  scripted usual (count is_GetRun afterSetUp) [inProgress; inProgress; succeeded].
Proof.
  intros h client repo runID k run C N. simpl. rewrite C. simpl.
  destruct k as [|[|[|k]]]; simpl in N;
    [injection N as <-; reflexivity ..|destruct k; discriminate].
Qed.

Lemma lint_never_fails runs jobsOf pr :
  annotations_never_fail (world runs jobsOf lint pr).
Proof.
  intros h client repo job. simpl. unfold lint.
  now destruct (job =? "build")%string.
Qed.

(** C2: the code at work with its default options.  The interval is 2,
    which the banner announces as seconds; the loop sleeps, after each of
    the two iterations of the usual case, for 2000 nanoseconds, and never
    for 2 seconds. *)
Lemma default_interval_sleeps_2000ns :
  let tr := snd (RunE helpers usual 5 (factory false (Ok tt)) None ["7"] []) in
  Interval (NewCmdWatch_opts usual (factory false (Ok tt))) = 2%Z /\
  In (EvWrite ("Refreshing run status every 2 seconds. Press Ctrl+C to quit."
               ++ nl)%string) tr /\
  filter is_sleep tr = [EvSleep 2000; EvSleep 2000] /\
  (2 * Second = 2000000000)%Z /\
  ~ In (EvSleep (2 * Second)) tr.
Proof.
  vm_compute. split; [reflexivity|]. split; [|split; [reflexivity|]].
  - do 11 right. left. reflexivity.
  - split; [reflexivity|].
    intros H. repeat (destruct H as [H|H]; [discriminate H|]). exact H.
Qed.

(** ** The theorems at work *)

(** The usual case: two snapshots in progress, then a completed one. *)
Lemma one_render_per_non_terminal_snapshot_witness :
  exists n tr,
    watchRun helpers usual 2 watch7 []
    = (Returned None,
       afterSetUp ++ [EvGetRun "7" (Ok inProgress);
                      EvPullRequestForRun inProgress n;
                      EvWrite clearScreen] ++ tr) /\
    fst (watchRun helpers usual 1 watch7 []) = OutOfFuel /\
    fetched_runs tr = [inProgress; succeeded] /\
    count is_redraw tr = 2.
Proof.
  assert (U : until_completed inProgress [inProgress; succeeded])
    by (simpl; repeat split; discriminate).
  destruct (one_render_per_non_terminal_snapshot
              (hp:=helpers) (w:=usual) (opts:=watch7) (h0:=[])
              (watch7_set_up usual) usual_scripted
              (fun h c r run => eq_refl)
              (lint_never_fails _ _ _) U)
    as (n & tr & F & O & R & _ & D & _).
  exists n, tr. split; [|split; [|split]].
  - apply F. vm_compute. lia.
  - apply O. vm_compute. lia.
  - exact R.
  - exact D.
Defined.

(** The run is found completed by the first iteration: render, sleep,
    return. *)
Lemma sleep_follows_every_render_witness :
  exists d run' h',
    renderRun helpers completesAtOnce watch7 tt tt inProgress "" []
    = (Ok run', h') /\
    Status run' = Completed /\
    watchLoop helpers completesAtOnce 1 watch7 tt tt inProgress "" []
    = (Returned None, h' ++ [EvSleep d]).
Proof.
  assert (N : Status inProgress <> Completed) by discriminate.
  destruct (sleep_follows_every_render
              helpers completesAtOnce 0 watch7 tt tt inProgress "" [] N)
    as (d & H & _).
  exists d, succeeded.
  exists (snd (renderRun helpers completesAtOnce watch7 tt tt inProgress "" [])).
  split; [reflexivity|]. split; [reflexivity|].
  apply (proj2 (H succeeded _ eq_refl)). reflexivity.
Defined.

(** Two jobs with one and two annotations; and the same jobs when the
    annotations of the second cannot be fetched. *)
Lemma annotations_in_job_order_witness :
  rangeJobs usual tt tt ["build"; "test"] []
    [EvGetRun "7" (Ok inProgress); EvGetJobs inProgress (Ok ["build"; "test"])]
  = ((["unused variable"; "test failed"; "exit code 1"], None),
     [EvGetRun "7" (Ok inProgress); EvGetJobs inProgress (Ok ["build"; "test"]);
      EvGetAnnotations "build" (Ok ["unused variable"]);
      EvGetAnnotations "test" (Ok ["test failed"; "exit code 1"])])
  /\
  renderRun helpers lintBroken watch7 tt tt inProgress "" []
  = (Err (Errorf_w "failed to get annotations: " (New "502")),
     [EvGetRun "7" (Ok inProgress); EvGetJobs inProgress (Ok ["build"; "test"]);
      EvGetAnnotations "build" (Ok ["unused variable"]);
      EvGetAnnotations "test" (Err (New "502"))]).
Proof.
  split.
  - apply (proj1 (annotations_in_job_order
                    helpers usual watch7 tt tt inProgress "" []
                    (run':=inProgress) (jobs:=["build"; "test"])
                    eq_refl eq_refl)
             [["unused variable"]; ["test failed"; "exit code 1"]]).
    repeat constructor.
  - apply (proj2 (annotations_in_job_order
                    helpers lintBroken watch7 tt tt inProgress "" []
                    (run':=inProgress) (jobs:=["build"; "test"])
                    eq_refl eq_refl)
             ["build"] "test" [] [["unused variable"]] (New "502"));
      [reflexivity|reflexivity|repeat constructor].
Defined.

(** The jobs fetch fails in the first iteration. *)
Lemma fetch_failure_aborts_witness :
  exists err,
    wraps "failed to get jobs" (New "502") err /\
    watchLoop helpers jobsBroken 1 watch7 tt tt inProgress "" []
    = (Returned (Some err),
       [EvGetRun "7" (Ok inProgress); EvGetJobs inProgress (Err (New "502"))]).
Proof.
  assert (N : Status inProgress <> Completed) by discriminate.
  exact (proj1 (proj2 (fetch_failure_aborts
                         helpers jobsBroken 0 watch7 tt tt inProgress "" [] N))
           inProgress (New "502") eq_refl eq_refl).
Defined.

(** A run that failed before any of its jobs ran. *)
Lemma failed_run_without_jobs_witness :
  renderRun helpers failedBeforeJobs watch7 tt tt inProgress " #42" []
  = (Ok failedEarly,
     [EvGetRun "7" (Ok failedEarly); EvGetJobs failedEarly (Ok []);
      EvWrite cursorHome; EvWrite clearToEnd;
      EvWrite ("Refreshing run status every 2 seconds. Press Ctrl+C to quit."
               ++ nl)%string;
      EvWrite nl;
      EvWrite ("run 7 #42 60 ago" ++ nl)%string;
      EvWrite nl]).
Proof.
  exact (proj1 (failed_run_without_jobs
                  helpers failedBeforeJobs 0 watch7 tt tt inProgress " #42" []
                  (run':=failedEarly) eq_refl eq_refl eq_refl)).
Defined.

(** The run changes its pull request while it is watched. *)
Lemma pull_request_is_looked_up_once_witness :
  watchRun helpers fickle 5 watch7 [] = watchRun helpers usual 5 watch7 [].
Proof.
  apply (proj2 (pull_request_is_looked_up_once
                  (hp:=helpers) (w:=usual) 5
                  (watch7_set_up usual) (run:=inProgress) eq_refl)).
  repeat split.
Defined.

(** [gh run watch] without a run selector, in a session that cannot
    prompt and in one that can. *)
Lemma run_selector_omitted_witness :
  RunE helpers usual 5 (factory false (Ok tt)) None [] []
  = (Returned (Some (FlagError
       (New "run ID required when not running interactively"))), [])
  /\
  exists tr,
    snd (RunE helpers usual 5 (factory true (Ok tt)) None [] [])
    = [EvHttpClient (Ok tt); EvBaseRepo (Ok tt); EvPromptForRun (Ok "7")] ++ tr.
Proof.
  split.
  - exact (proj1 (run_selector_omitted helpers usual 5 (factory false (Ok tt)) [])
             None eq_refl).
  - exact (proj1 (proj2 (proj2 (proj2 (run_selector_omitted
                                         helpers usual 5 (factory true (Ok tt)) [])
                                  eq_refl)))
             tt tt eq_refl eq_refl).
Defined.

(** ** Where the code departs from what is said of it *)

(** C3 as it is stated does not hold: after the iteration that fetched a
    completed run the loop does not leave at once, it sleeps first. *)
Lemma exit_without_sleep_counterexample :
  ~ (forall fuel opts client repo run prNumber h run' h',
        Status run <> Completed ->
        renderRun helpers completesAtOnce opts client repo run prNumber h
        = (Ok run', h') ->
        Status run' = Completed ->
        watchLoop helpers completesAtOnce (S fuel) opts client repo run prNumber h
        = (Returned None, h')).
Proof.
  intros H.
  assert (N : Status inProgress <> Completed) by discriminate.
  specialize (H 0 watch7 tt tt inProgress "" [] succeeded
                (snd (renderRun helpers completesAtOnce watch7 tt tt inProgress "" []))
                N eq_refl eq_refl).
  vm_compute in H. discriminate H.
Qed.

(** C9 as it is stated does not hold: a session that can prompt does not
    get to the prompt when the HTTP client cannot be built. *)
Lemma prompt_not_reached_counterexample :
  ~ (forall f h,
        CanPrompt (f_IOStreams f) = true ->
        exists r,
          In (EvPromptForRun r) (snd (RunE helpers usual 5 f None [] h))).
Proof.
  intros H.
  destruct (H (factory true (Err (New "no token"))) [] eq_refl) as [r I].
  vm_compute in I. destruct I as [I|[]]. discriminate I.
Qed.

(** * The pull request lookup and the writes: what is swallowed *)

Section WatchIOFacts.

Import WatchIO.

Context {HTTPClient Client Repo ColorScheme Time Job Annotation : Type}.
Variable hp : Helpers HTTPClient Client ColorScheme Time Job Annotation.
Variable w : World HTTPClient Client Repo ColorScheme Time Job Annotation.

Abbreviation IOTrace := (trace HTTPClient Repo Time Job Annotation).
Abbreviation IOOptions := (WatchOptions HTTPClient Repo ColorScheme Time
                             Job Annotation).


(** A call that may have failed when [watchRun] returns nil. *)
Abbreviation let_through :=
  (fun ev : event HTTPClient Repo Time Job Annotation =>
     implb (failed ev) (is_PullRequestForRun ev || is_write ev)).








End WatchIOFacts.

(** The run 7 is in progress and then completed.  Its pull request cannot
    be looked up: the header reads "run 7 60 ago" and the watch returns
    nil; with the pull request 42 it reads "run 7 #42 60 ago". *)
Section WatchIOWitnesses.

Import WatchIO.



End WatchIOWitnesses.

(** ** The two models agree *)

Section ErasureFacts.

Context {HTTPClient Client Repo ColorScheme Time Job Annotation : Type}.
Variable hp : Helpers HTTPClient Client ColorScheme Time Job Annotation.
Variable w : World HTTPClient Client Repo ColorScheme Time Job Annotation.
Variable write : WatchIO.trace HTTPClient Repo Time Job Annotation
                 -> string -> option error.

Abbreviation wio := (with_writes w write).

Lemma erase_snoc (h : WatchIO.trace HTTPClient Repo Time Job Annotation) ev :
  map (@erase HTTPClient Repo Time Job Annotation) (h ++ [ev])
  = map (@erase _ _ _ _ _) h ++ [erase ev].
Proof. now rewrite map_app. Qed.

Ltac er := repeat (simpl; rewrite ?erase_snoc); simpl.

Lemma rangeJobs_erase client repo jobs : forall (annotations : list Annotation) h,
  rangeJobs w client repo jobs annotations (map (@erase _ _ _ _ _) h)
  = (fst (WatchIO.rangeJobs wio client repo jobs annotations h),
     map (@erase _ _ _ _ _)
         (snd (WatchIO.rangeJobs wio client repo jobs annotations h))).
Proof.
  induction jobs as [|job jobs IH]; intros annotations h; simpl; [reflexivity|].
  unfold bind, WatchIO.bind, shared_GetAnnotations, WatchIO.shared_GetAnnotations,
    ask, WatchIO.ask, ret, WatchIO.ret. er.
  destruct (GetAnnotations w (map (@erase _ _ _ _ _) h) client repo job)
    as [as_|e]; [|er; reflexivity].
  rewrite <- IH. er. reflexivity.
Qed.

Lemma renderRun_erase opts client repo run prNumber h :
  renderRun hp w opts client repo run prNumber (map (@erase _ _ _ _ _) h)
  = (fst (WatchIO.renderRun hp wio (with_writes_options opts) client repo run
            prNumber h),
     map (@erase _ _ _ _ _)
         (snd (WatchIO.renderRun hp wio (with_writes_options opts) client repo
                 run prNumber h))).
Proof.
  unfold renderRun, WatchIO.renderRun, bind, WatchIO.bind,
    shared_GetRun, WatchIO.shared_GetRun, shared_GetJobs, WatchIO.shared_GetJobs,
    ask, WatchIO.ask, peek, WatchIO.peek, ret, WatchIO.ret. er.
  destruct (GetRun w (map (@erase _ _ _ _ _) h) client repo (itoa (ID run)))
    as [run'|e]; [|er; reflexivity].
  er.
  destruct (GetJobs w _ client repo run') as [jobs|e]; [|er; reflexivity].
  er.
  pose proof (rangeJobs_erase client repo jobs []
                ((h ++ [WatchIO.EvGetRun (itoa (ID run)) (Ok run')])
                   ++ [WatchIO.EvGetJobs run' (Ok jobs)])) as R.
  revert R. er. intros ->.
  destruct (WatchIO.rangeJobs wio client repo jobs [] _)
    as [[annotations [e|]] h7]; simpl; [reflexivity|].
  unfold Fprint, Fprintln, WatchIO.Fprintln, WatchIO.Fprint, emit, WatchIO.ask,
    ret, WatchIO.ret.
  destruct ((length jobs =? 0)%nat && (Conclusion run' =? Failure)%string);
    [|destruct (0 <? length annotations)%nat];
    er; reflexivity.
Qed.

Lemma watchLoop_erase fuel opts client repo prNumber : forall run h,
  watchLoop hp w fuel opts client repo run prNumber (map (@erase _ _ _ _ _) h)
  = (fst (WatchIO.watchLoop hp wio fuel (with_writes_options opts) client repo
            run prNumber h),
     map (@erase _ _ _ _ _)
         (snd (WatchIO.watchLoop hp wio fuel (with_writes_options opts) client
                 repo run prNumber h))).
Proof.
  induction fuel as [|fuel IH]; intros run h; simpl;
    destruct (Status run =? Completed)%string; try reflexivity.
  unfold bind, WatchIO.bind. rewrite renderRun_erase.
  destruct (WatchIO.renderRun hp wio (with_writes_options opts) client repo run
              prNumber h) as [[run'|e] h']; simpl; [|reflexivity].
  unfold Sleep, WatchIO.Sleep, emit, WatchIO.emit.
  rewrite <- IH. er. reflexivity.
Qed.

(** In a world that does not look at what the writes returned, whatever
    they return, [watchRun] does what it does in the model without the
    results of writes: the same outcome, and the same trace once the
    results of the writes are forgotten. *)
Lemma watchRun_erase fuel opts h :
  watchRun hp w fuel opts (map (@erase _ _ _ _ _) h)
  = (fst (WatchIO.watchRun hp wio fuel (with_writes_options opts) h),
     map (@erase _ _ _ _ _)
         (snd (WatchIO.watchRun hp wio fuel (with_writes_options opts) h))).
Proof.
  unfold watchRun, WatchIO.watchRun, bind, WatchIO.bind, ask, WatchIO.ask,
    shared_PromptForRun, WatchIO.shared_PromptForRun,
    shared_GetRun, WatchIO.shared_GetRun,
    shared_PullRequestForRun, WatchIO.shared_PullRequestForRun,
    Fprint, WatchIO.Fprint, emit, ask, WatchIO.ask, ret, WatchIO.ret. er.
  destruct (HttpClient opts (map (@erase _ _ _ _ _) h)) as [c|e];
    [|er; reflexivity].
  er. destruct (BaseRepo opts _) as [repo|e]; [|er; reflexivity].
  er. destruct (Prompt opts); er.
  - destruct (PromptForRun w _ _ _ _) as [runID|e]; [|er; reflexivity].
    er. destruct (GetRun w _ _ _ _) as [run|e]; [|er; reflexivity].
    er. destruct (PullRequestForRun w _ _ _ _) as [number|e]; er;
      match goal with
         | |- context [WatchIO.watchLoop hp wio fuel ?o ?cl ?rp ?rn ?pr ?h1] =>
             rewrite <- (watchLoop_erase fuel opts cl rp pr rn h1)
         end; er; reflexivity.
  - destruct (GetRun w _ _ _ _) as [run|e]; [|er; reflexivity].
    er. destruct (PullRequestForRun w _ _ _ _) as [number|e]; er;
      match goal with
         | |- context [WatchIO.watchLoop hp wio fuel ?o ?cl ?rp ?rn ?pr ?h1] =>
             rewrite <- (watchLoop_erase fuel opts cl rp pr rn h1)
         end; er; reflexivity.
Qed.

End ErasureFacts.

(** * More about the watch *)

Section WatchExtras.

Context {HTTPClient Client Repo ColorScheme Time Job Annotation : Type}.
Variable hp : Helpers HTTPClient Client ColorScheme Time Job Annotation.
Variable w : World HTTPClient Client Repo ColorScheme Time Job Annotation.

Abbreviation XTrace := (trace HTTPClient Repo Time Job Annotation).
Abbreviation XOptions :=
  (WatchOptions HTTPClient Repo ColorScheme Time Job Annotation).

Implicit Types (h : XTrace) (opts : XOptions) (client : Client) (repo : Repo)
  (run : Run Time) (prNumber : string) (fuel : nat).

Ltac flatten := repeat rewrite <- app_assoc; simpl.

Lemma trace_grows_by_nothing (h tr : XTrace) : h = h ++ tr -> tr = [].
Proof.
  intros E. rewrite <- (app_nil_r h) in E at 1. now apply app_inv_head in E.
Qed.

(** ** The turns of the loop *)

(** A turn of the loop in full: the run fetch first, then the other
    fetches; if all went well the report, the sleep and the turns that
    follow. *)
Lemma watchLoop_turn fuel opts client repo run prNumber h :
  Status run <> Completed ->
  exists r others,
    forallb is_fetch others = true /\
    forallb (fun ev => negb (is_GetRun ev)) others = true /\
    ((exists err,
         watchLoop hp w (S fuel) opts client repo run prNumber h
         = (Returned (Some err), h ++ EvGetRun (itoa (ID run)) r :: others))
     \/
     (exists run' jobs annotations ago,
         r = Ok run' /\
         let h' := h ++ EvGetRun (itoa (ID run)) r :: others
                     ++ map EvWrite (report hp opts run' jobs annotations ago prNumber)
                     ++ [EvSleep (int_mul (Interval opts) 1000)] in
         watchLoop hp w (S fuel) opts client repo run prNumber h
         = watchLoop hp w fuel opts client repo run' prNumber h')).
Proof.
  intros N. rewrite watchLoop_step by assumption.
  destruct (renderRun_delta hp w opts client repo run prNumber h)
    as (fetches & writes & E & F & _ & (r & others & -> & NG) & D).
  simpl in F.
  exists r, others. split; [assumption|]. split; [assumption|].
  destruct (renderRun hp w opts client repo run prNumber h) as [[run'|err] h'];
    simpl in E, D; subst h'.
  - right. destruct D as (_ & FR & jobs & annotations & ago & ->).
    assert (r = Ok run') as ->.
    { destruct r as [x|e]; simpl in FR;
        rewrite (fetched_runs_none others NG) in FR;
        [now injection FR as ->|discriminate]. }
    exists run', jobs, annotations, ago. split; [reflexivity|].
    cbv zeta. f_equal.
    rewrite <- app_assoc, <- app_comm_cons, <- app_assoc. reflexivity.
  - left. destruct D as (-> & _). exists err. simpl. now rewrite app_nil_r.
Qed.

(** To show that every run of the loop has a property: show it of the
    loop that does not turn (the run is completed, or the fuel is spent),
    of a turn that fails, and of a turn that goes well before a run of the
    loop that has it. *)
Lemma watchLoop_runs opts client repo prNumber
      (P : Run Time -> outcome -> XTrace -> Prop) :
  (forall run, Status run = Completed -> P run (Returned None) []) ->
  (forall run, Status run <> Completed -> P run OutOfFuel []) ->
  (forall run r others err,
      Status run <> Completed ->
      forallb is_fetch others = true ->
      forallb (fun ev => negb (is_GetRun ev)) others = true ->
      P run (Returned (Some err)) (EvGetRun (itoa (ID run)) r :: others)) ->
  (forall run run' others jobs annotations ago out tr,
      Status run <> Completed ->
      forallb is_fetch others = true ->
      forallb (fun ev => negb (is_GetRun ev)) others = true ->
      P run' out tr ->
      P run out
        (EvGetRun (itoa (ID run)) (Ok run') :: others
           ++ map EvWrite (report hp opts run' jobs annotations ago prNumber)
           ++ [EvSleep (int_mul (Interval opts) 1000)] ++ tr)) ->
  forall fuel run h,
  exists out tr,
    watchLoop hp w fuel opts client repo run prNumber h = (out, h ++ tr) /\
    P run out tr.
Proof.
  intros Pdone Pfuel Pfail Pturn.
  induction fuel as [|fuel IH]; intros run h;
    destruct (String.eqb_spec (Status run) Completed) as [C|N].
  - exists (Returned None), []. rewrite watchLoop_done, app_nil_r by assumption.
    auto.
  - exists OutOfFuel, []. rewrite watchLoop_out_of_fuel, app_nil_r by assumption.
    auto.
  - exists (Returned None), []. rewrite watchLoop_done, app_nil_r by assumption.
    auto.
  - destruct (watchLoop_turn fuel opts client repo run prNumber h N)
      as (r & others & F & NG & [[err E]|(run' & jobs & annotations & ago & -> & E)]).
    + exists (Returned (Some err)), (EvGetRun (itoa (ID run)) r :: others).
      split; [exact E|]. now apply Pfail.
    + cbv zeta in E. rewrite E.
      match goal with |- context [watchLoop hp w fuel opts client repo run' prNumber ?h1] =>
        destruct (IH run' h1) as (out & tr & E' & Ptr) end.
      exists out,
        (EvGetRun (itoa (ID run)) (Ok run') :: others
           ++ map EvWrite (report hp opts run' jobs annotations ago prNumber)
           ++ [EvSleep (int_mul (Interval opts) 1000)] ++ tr).
      split.
      * rewrite E'. f_equal. rewrite <- app_assoc. f_equal.
        rewrite <- app_comm_cons. f_equal. rewrite <- !app_assoc. reflexivity.
      * now apply Pturn.
Qed.

(** ** Reading what the loop did *)

Lemma count_cons (p : event HTTPClient Repo Time Job Annotation -> bool)
      (ev : event HTTPClient Repo Time Job Annotation) (tr : XTrace) :
  count p (ev :: tr) = (if p ev then 1 else 0) + count p tr.
Proof. unfold count. simpl. now destruct (p ev). Qed.

Lemma writes_of_app (tr1 tr2 : XTrace) :
  writes_of (tr1 ++ tr2) = writes_of tr1 ++ writes_of tr2.
Proof.
  induction tr1 as [|ev tr1 IH]; simpl; auto.
  destruct ev; simpl; now rewrite IH.
Qed.

Lemma writes_of_fetches (tr : XTrace) :
  forallb is_fetch tr = true -> writes_of tr = [].
Proof.
  induction tr as [|ev tr IH]; simpl; auto.
  intros F. apply andb_prop in F as [F1 F2].
  destruct ev; simpl in *; auto; discriminate.
Qed.

Lemma writes_of_writes (ss : list string) :
  writes_of (map (@EvWrite HTTPClient Repo Time Job Annotation) ss) = ss.
Proof. induction ss; simpl; congruence. Qed.

Lemma sleeps_of_app (tr1 tr2 : XTrace) :
  sleeps_of (tr1 ++ tr2) = sleeps_of tr1 ++ sleeps_of tr2.
Proof.
  induction tr1 as [|ev tr1 IH]; simpl; auto.
  destruct ev; simpl; now rewrite IH.
Qed.

Lemma sleeps_of_fetches (tr : XTrace) :
  forallb is_fetch tr = true -> sleeps_of tr = [].
Proof.
  induction tr as [|ev tr IH]; simpl; auto.
  intros F. apply andb_prop in F as [F1 F2].
  destruct ev; simpl in *; auto; discriminate.
Qed.

Lemma sleeps_of_writes (ss : list string) :
  sleeps_of (map (@EvWrite HTTPClient Repo Time Job Annotation) ss) = [].
Proof. induction ss; simpl; congruence. Qed.

Lemma chained_others run (others tr : XTrace) :
  forallb (fun ev => negb (is_GetRun ev)) others = true ->
  chained run (others ++ tr) = chained run tr.
Proof.
  induction others as [|ev others IH]; simpl; auto.
  intros F. apply andb_prop in F as [F1 F2].
  destruct ev; simpl in *; auto; discriminate.
Qed.

Lemma line_is_not_clearScreen (s : string) : (s ++ nl)%string <> clearScreen.
Proof.
  intros E. apply (f_equal last_char) in E.
  rewrite last_char_nl in E. discriminate.
Qed.

Lemma clearScreen_not_in_report opts run jobs (annotations : list Annotation)
      ago prNumber :
  ~ In clearScreen (report hp opts run jobs annotations ago prNumber).
Proof.
  assert (L : forall s, clearScreen <> (s ++ nl)%string)
    by (intros s E; now apply (line_is_not_clearScreen s)).
  unfold report.
  destruct ((length jobs =? 0)%nat && (Conclusion run =? Failure)%string);
    [|destruct (0 <? length annotations)%nat];
    simpl; intros I;
    repeat (destruct I as [I|I];
            [first [discriminate I | now apply (L _ (eq_sym I))
                   | now apply (L EmptyString (eq_sym I))]|]);
    exact I.
Qed.

(** ** Fetches, redraws and sleeps *)

(** In any world, and however long it runs, the loop has redrawn as often
    as it has slept, with one run fetch each time; when it returns an error
    there is one run fetch more, that of the turn that failed, which has
    neither redrawn nor slept. *)
Theorem one_fetch_one_redraw_one_sleep fuel opts client repo run prNumber h :
  exists out tr,
    watchLoop hp w fuel opts client repo run prNumber h = (out, h ++ tr) /\
    count is_redraw tr = count is_sleep tr /\
    count is_GetRun tr
    = match out with
      | Returned (Some _) => S (count is_sleep tr)
      | _ => count is_sleep tr
      end.
Proof.
  assert (RF : forall ev : event HTTPClient Repo Time Job Annotation,
             is_fetch ev = true -> is_redraw ev = false)
    by (intros ev; destruct ev; simpl; auto; discriminate).
  assert (SF : forall ev : event HTTPClient Repo Time Job Annotation,
             is_fetch ev = true -> is_sleep ev = false)
    by (intros ev; destruct ev; simpl; auto; discriminate).
  apply (watchLoop_runs opts client repo prNumber
           (fun _ out tr =>
              count is_redraw tr = count is_sleep tr /\
              count is_GetRun tr
              = match out with
                | Returned (Some _) => S (count is_sleep tr)
                | _ => count is_sleep tr
                end)).
  - now split.
  - now split.
  - intros run0 r others err N F NG. rewrite !count_cons. simpl.
    rewrite (count_fetches is_redraw others RF F).
    rewrite (count_fetches is_sleep others SF F).
    rewrite (count_none is_GetRun others NG). now split.
  - intros run0 run' others jobs annotations ago out tr N F NG [P1 P2].
    rewrite !count_cons, !count_app.
    rewrite (count_fetches is_redraw others RF F).
    rewrite (count_fetches is_sleep others SF F).
    rewrite (count_none is_GetRun others NG).
    rewrite count_redraw_report, !count_writes by reflexivity.
    rewrite P1, P2.
    change (count is_redraw [EvSleep (int_mul (Interval opts) 1000)]) with 0.
    change (count is_sleep [EvSleep (int_mul (Interval opts) 1000)]) with 1.
    change (count is_GetRun [EvSleep (int_mul (Interval opts) 1000)]) with 0.
    simpl. split; [reflexivity|]. destruct out as [|[err|]]; lia.
Qed.

Lemma watchLoop_sleeps opts fuel client repo run prNumber h :
  exists out tr,
    watchLoop hp w fuel opts client repo run prNumber h = (out, h ++ tr) /\
    Forall (eq (int_mul (Interval opts) 1000)) (sleeps_of tr).
Proof.
  apply (watchLoop_runs opts client repo prNumber
           (fun _ _ tr => Forall (eq (int_mul (Interval opts) 1000)) (sleeps_of tr))).
  - constructor.
  - constructor.
  - intros run0 r others err N F NG. simpl.
    rewrite sleeps_of_fetches by assumption. constructor.
  - intros run0 run' others jobs annotations ago out tr N F NG P.
    change (sleeps_of (EvGetRun ?i ?r :: ?l)) with (sleeps_of l).
    rewrite !sleeps_of_app, sleeps_of_fetches, sleeps_of_writes by assumption.
    simpl. now constructor.
Qed.

(** Every turn fetches the run by the ID of the run that the fetch before
    it returned (for the first turn, the run the loop was entered with):
    never by the selector of the command line. *)
Theorem run_is_fetched_by_the_latest_id fuel opts client repo run prNumber h :
  exists out tr,
    watchLoop hp w fuel opts client repo run prNumber h = (out, h ++ tr) /\
    chained run tr = true.
Proof.
  apply (watchLoop_runs opts client repo prNumber
           (fun run _ tr => chained run tr = true)).
  - reflexivity.
  - reflexivity.
  - intros run0 r others err N F NG. simpl. rewrite String.eqb_refl. simpl.
    rewrite <- (app_nil_r others). now rewrite chained_others.
  - intros run0 run' others jobs annotations ago out tr N F NG P.
    cbn [chained]. rewrite String.eqb_refl. cbn [andb].
    rewrite chained_others by assumption.
    rewrite chained_others by (apply forallb_writes; reflexivity).
    simpl. exact P.
Qed.

(** ** Before the loop *)

(** The first run fetch fails. *)
Lemma watchRun_first_fetch_fails fuel opts h0 client repo runID h2 e :
  set_up hp w opts h0 client repo runID h2 ->
  GetRun w h2 client repo runID = Err e ->
  watchRun hp w fuel opts h0
  = (Returned (Some (Errorf_w "failed to get run: " e)),
     h2 ++ [EvGetRun runID (Err e)]).
Proof.
  intros (c & E1 & -> & E2 & E3) E4.
  unfold watchRun, bind, ask. rewrite E1, E2. flatten.
  change (if Prompt opts
          then shared_PromptForRun w (ColorScheme_ (IO opts))
                 (NewClientFromHTTP hp c) repo
          else ret (Ok (RunID opts)))
    with (selectRun w opts (NewClientFromHTTP hp c) repo).
  rewrite E3. unfold shared_GetRun, ask. rewrite E4. reflexivity.
Qed.

(** The prompt fails. *)
Lemma watchRun_prompt_fails fuel opts h0 c repo e :
  HttpClient opts h0 = Ok c ->
  BaseRepo opts (h0 ++ [EvHttpClient (Ok c)]) = Ok repo ->
  Prompt opts = true ->
  PromptForRun w (h0 ++ [EvHttpClient (Ok c); EvBaseRepo (Ok repo)])
    (ColorScheme_ (IO opts)) (NewClientFromHTTP hp c) repo = Err e ->
  watchRun hp w fuel opts h0
  = (Returned (Some e),
     h0 ++ [EvHttpClient (Ok c); EvBaseRepo (Ok repo); EvPromptForRun (Err e)]).
Proof.
  intros E1 E2 P E3.
  unfold watchRun, bind, ask. rewrite E1, E2, P. flatten.
  unfold shared_PromptForRun, ask. rewrite E3. unfold ret. now flatten.
Qed.

(** The ways [watchRun] can go before its loop. *)
Lemma watchRun_cases fuel opts h0 :
  (exists e,
      HttpClient opts h0 = Err e /\
      watchRun hp w fuel opts h0
      = (Returned (Some (Errorf_w "failed to create http client: " e)),
         h0 ++ [EvHttpClient (Err e)]))
  \/
  (exists c e,
      HttpClient opts h0 = Ok c /\
      BaseRepo opts (h0 ++ [EvHttpClient (Ok c)]) = Err e /\
      watchRun hp w fuel opts h0
      = (Returned (Some (Errorf_w "failed to determine base repo: " e)),
         h0 ++ [EvHttpClient (Ok c); EvBaseRepo (Err e)]))
  \/
  (exists c repo e,
      Prompt opts = true /\
      watchRun hp w fuel opts h0
      = (Returned (Some e),
         h0 ++ [EvHttpClient (Ok c); EvBaseRepo (Ok repo);
                EvPromptForRun (Err e)]))
  \/
  (exists c repo pre runID,
      pre = (if Prompt opts then [EvPromptForRun (Ok runID)] else []) /\
      (Prompt opts = false -> runID = RunID opts) /\
      let h2 := h0 ++ [EvHttpClient (Ok c); EvBaseRepo (Ok repo)] ++ pre in
      let client := NewClientFromHTTP hp c in
      set_up hp w opts h0 client repo runID h2 /\
      ((exists e,
           GetRun w h2 client repo runID = Err e /\
           watchRun hp w fuel opts h0
           = (Returned (Some (Errorf_w "failed to get run: " e)),
              h2 ++ [EvGetRun runID (Err e)]))
       \/
       (exists run n,
           GetRun w h2 client repo runID = Ok run /\
           watchRun hp w fuel opts h0
           = watchLoop hp w fuel opts client repo run (prSuffix n)
               (h2 ++ [EvGetRun runID (Ok run); EvPullRequestForRun run n;
                       EvWrite clearScreen])))).
Proof.
  assert (After : forall c repo pre runID,
             pre = (if Prompt opts then [EvPromptForRun (Ok runID)] else []) ->
             (Prompt opts = false -> runID = RunID opts) ->
             set_up hp w opts h0 (NewClientFromHTTP hp c) repo runID
               (h0 ++ [EvHttpClient (Ok c); EvBaseRepo (Ok repo)] ++ pre) ->
             exists c repo pre runID,
               pre = (if Prompt opts then [EvPromptForRun (Ok runID)] else []) /\
               (Prompt opts = false -> runID = RunID opts) /\
               let h2 := h0 ++ [EvHttpClient (Ok c); EvBaseRepo (Ok repo)] ++ pre in
               let client := NewClientFromHTTP hp c in
               set_up hp w opts h0 client repo runID h2 /\
               ((exists e,
                    GetRun w h2 client repo runID = Err e /\
                    watchRun hp w fuel opts h0
                    = (Returned (Some (Errorf_w "failed to get run: " e)),
                       h2 ++ [EvGetRun runID (Err e)]))
                \/
                (exists run n,
                    GetRun w h2 client repo runID = Ok run /\
                    watchRun hp w fuel opts h0
                    = watchLoop hp w fuel opts client repo run (prSuffix n)
                        (h2 ++ [EvGetRun runID (Ok run); EvPullRequestForRun run n;
                                EvWrite clearScreen])))).
  { intros c repo pre runID Epre Eid SU.
    exists c, repo, pre, runID. split; [exact Epre|]. split; [exact Eid|].
    cbv zeta. split; [exact SU|].
    destruct (GetRun w (h0 ++ [EvHttpClient (Ok c); EvBaseRepo (Ok repo)] ++ pre)
                (NewClientFromHTTP hp c) repo runID) as [run|e] eqn:E4.
    - right. eexists run, _. split; [reflexivity|].
      exact (watchRun_enters_loop fuel SU E4).
    - left. exists e. split; [reflexivity|].
      exact (watchRun_first_fetch_fails fuel SU E4). }
  destruct (HttpClient opts h0) as [c|e] eqn:E1.
  2:{ left. exists e. split; [reflexivity|].
      unfold watchRun, bind, ask. now rewrite E1. }
  destruct (BaseRepo opts (h0 ++ [EvHttpClient (Ok c)])) as [repo|e] eqn:E2.
  2:{ right; left. exists c, e. split; [reflexivity|]. split; [assumption|].
      unfold watchRun, bind, ask. rewrite E1, E2. unfold ret. now flatten. }
  destruct (Prompt opts) eqn:P.
  - destruct (PromptForRun w (h0 ++ [EvHttpClient (Ok c); EvBaseRepo (Ok repo)])
                (ColorScheme_ (IO opts)) (NewClientFromHTTP hp c) repo)
      as [runID|e] eqn:E3.
    + right; right; right.
      apply (After c repo [EvPromptForRun (Ok runID)] runID);
        [reflexivity|discriminate|].
      exists c. repeat split; auto.
      unfold selectRun, shared_PromptForRun, ask. rewrite P, E3.
      now rewrite <- app_assoc.
    + right; right; left. exists c, repo, e. split; [reflexivity|].
      now apply watchRun_prompt_fails.
  - right; right; right.
    apply (After c repo [] (RunID opts)); [reflexivity|reflexivity|].
    exists c. repeat split; auto.
    unfold selectRun. rewrite P. unfold ret. now rewrite app_nil_r.
Qed.

(** The loop fetches, writes and sleeps, and does nothing else; and it
    never writes the code that clears the whole screen. *)
Lemma watchLoop_events fuel opts client repo run prNumber h :
  exists out tr,
    watchLoop hp w fuel opts client repo run prNumber h = (out, h ++ tr) /\
    forallb is_loop_event tr = true /\
    ~ In clearScreen (writes_of tr).
Proof.
  assert (LF : forall tr : XTrace,
             forallb is_fetch tr = true -> forallb is_loop_event tr = true).
  { induction tr as [|ev tr IH]; simpl; auto.
    intros F. apply andb_prop in F as [F1 F2].
    unfold is_loop_event at 1. rewrite F1. simpl. auto. }
  apply (watchLoop_runs opts client repo prNumber
           (fun _ _ tr => forallb is_loop_event tr = true
                          /\ ~ In clearScreen (writes_of tr))).
  - split; [reflexivity|]. intros [].
  - split; [reflexivity|]. intros [].
  - intros run0 r others err N F NG. simpl.
    rewrite (LF others F), (writes_of_fetches others F). split; [reflexivity|].
    intros [].
  - intros run0 run' others jobs annotations ago out tr N F NG [P1 P2].
    split.
    + cbn [forallb]. rewrite !forallb_app, (LF others F), P1.
      rewrite forallb_writes by reflexivity. reflexivity.
    + change (writes_of (EvGetRun ?i ?r :: ?l)) with (writes_of l).
      rewrite !writes_of_app, (writes_of_fetches others F), writes_of_writes.
      cbn [app writes_of]. intros I. apply in_app_or in I as [I|I]; [|now apply P2].
      now apply clearScreen_not_in_report in I.
Qed.

(** [watchRun] ends before its loop when the prompt or the first run fetch
    fails: the error of the prompt is returned as it is, the error of the
    fetch behind "failed to get run"; the failed call is the last thing
    that happens, so the pull request is not looked up and nothing is
    written. *)
Theorem watch_ends_before_its_loop fuel opts h0 :
  (forall c repo e,
      HttpClient opts h0 = Ok c ->
      BaseRepo opts (h0 ++ [EvHttpClient (Ok c)]) = Ok repo ->
      Prompt opts = true ->
      PromptForRun w (h0 ++ [EvHttpClient (Ok c); EvBaseRepo (Ok repo)])
        (ColorScheme_ (IO opts)) (NewClientFromHTTP hp c) repo = Err e ->
      watchRun hp w fuel opts h0
      = (Returned (Some e),
         h0 ++ [EvHttpClient (Ok c); EvBaseRepo (Ok repo);
                EvPromptForRun (Err e)]))
  /\
  (forall client repo runID h2 e,
      set_up hp w opts h0 client repo runID h2 ->
      GetRun w h2 client repo runID = Err e ->
      exists err,
        wraps "failed to get run" e err /\
        watchRun hp w fuel opts h0
        = (Returned (Some err), h2 ++ [EvGetRun runID (Err e)])).
Proof.
  split.
  - intros c repo e E1 E2 P E3. now apply watchRun_prompt_fails.
  - intros client repo runID h2 e SU E. eexists.
    split; [apply wraps_Errorf_w|].
    now apply watchRun_first_fetch_fails with (client:=client) (repo:=repo).
Qed.

(** Whatever happens, [watchRun] clears the whole screen at most once, and
    before it writes anything else: either it writes nothing at all, and
    then it returns an error, or its first write is the clear-screen code
    and that code is not written again. *)
Theorem screen_is_cleared_once fuel opts h0 :
  exists tr,
    snd (watchRun hp w fuel opts h0) = h0 ++ tr /\
    ((writes_of tr = [] /\
      exists err, fst (watchRun hp w fuel opts h0) = Returned (Some err))
     \/
     (exists rest, writes_of tr = clearScreen :: rest /\ ~ In clearScreen rest)).
Proof.
  destruct (watchRun_cases fuel opts h0)
    as [(e & _ & E)|[(c & e & _ & _ & E)|[(c & repo & e & _ & E)
       |(c & repo & pre & runID & Epre & _ & _ & [(e & _ & E)|(run & n & _ & E)])]]];
    rewrite E.
  - eexists. split; [reflexivity|]. left. simpl. eauto.
  - eexists. split; [reflexivity|]. left. simpl. eauto.
  - eexists. split; [reflexivity|]. left. simpl. eauto.
  - eexists. split; [simpl; rewrite <- !app_assoc; reflexivity|]. left.
    rewrite !writes_of_app. subst pre. destruct (Prompt opts); simpl; eauto.
  - match goal with |- context [watchLoop hp w fuel opts ?cl repo run ?pr ?h] =>
      destruct (watchLoop_events fuel opts cl repo run pr h)
        as (out & tr & E' & _ & NC) end.
    rewrite E'. eexists. split; [simpl; rewrite <- !app_assoc; reflexivity|].
    right. exists (writes_of tr). split; [|exact NC].
    rewrite !writes_of_app. subst pre. now destruct (Prompt opts).
Qed.

(** A run selector on the command line is the run that is fetched first,
    whether the session can prompt or not: the prompt is never invoked
    (arguments after the first are not looked at). *)
Theorem selector_argument_is_fetched fuel f arg0 args h :
  exists tr,
    snd (RunE hp w fuel f None (arg0 :: args) h) = h ++ tr /\
    count is_PromptForRun tr = 0 /\
    (forall c repo,
        f_HttpClient f h = Ok c ->
        f_BaseRepo f (h ++ [EvHttpClient (Ok c)]) = Ok repo ->
        exists r tr',
          tr = EvHttpClient (Ok c) :: EvBaseRepo (Ok repo)
                 :: EvGetRun arg0 r :: tr').
Proof.
  assert (PL : forall tr : XTrace,
             forallb is_loop_event tr = true -> count is_PromptForRun tr = 0).
  { intros tr L. apply count_none. induction tr as [|ev tr IH]; simpl; auto.
    simpl in L. apply andb_prop in L as [L1 L2]. rewrite IH by assumption.
    destruct ev; simpl in *; auto; discriminate. }
  set (opts := set_RunID (NewCmdWatch_opts w f) arg0).
  assert (E0 : RunE hp w fuel f None (arg0 :: args) h = watchRun hp w fuel opts h)
    by reflexivity.
  rewrite E0.
  destruct (watchRun_cases fuel opts h)
    as [(e & F1 & E)|[(c & e & F1 & F3 & E)|[(c & repo & e & P & E)
       |(c & repo & pre & runID & Epre & Eid & SU
         & [(e & _ & E)|(run & n & _ & E)])]]];
    try discriminate P; rewrite E.
  - eexists. split; [reflexivity|]. split; [reflexivity|].
    intros c repo E1. simpl in F1. rewrite E1 in F1. discriminate.
  - eexists. split; [reflexivity|]. split; [reflexivity|].
    intros c' repo E1 E2. simpl in F1, F3. rewrite E1 in F1.
    injection F1 as <-. rewrite E2 in F3. discriminate.
  - simpl in Epre. subst pre. rewrite (Eid eq_refl) in *. simpl in SU.
    destruct SU as (c' & F1 & F2 & F3 & F4).
    assert (c' = c) as ->.
    { unfold selectRun in F4. simpl in F4. unfold ret in F4.
      injection F4 as F4. apply app_inv_head in F4. now injection F4. }
    exists ([EvHttpClient (Ok c); EvBaseRepo (Ok repo)]
              ++ [EvGetRun arg0 (Err e)]).
    split; [now rewrite app_nil_r, <- app_assoc|]. split; [reflexivity|].
    intros c'' repo' E1 E2. simpl in F1, F3. rewrite E1 in F1.
    injection F1 as <-. rewrite E2 in F3. injection F3 as <-.
    simpl. eauto.
  - simpl in Epre. subst pre. rewrite (Eid eq_refl) in *. simpl in SU.
    destruct SU as (c' & F1 & F2 & F3 & F4).
    assert (c' = c) as ->.
    { unfold selectRun in F4. simpl in F4. unfold ret in F4.
      injection F4 as F4. apply app_inv_head in F4. now injection F4. }
    match goal with |- context [watchLoop hp w fuel opts ?cl repo run ?pr ?h1] =>
      destruct (watchLoop_events fuel opts cl repo run pr h1)
        as (out & tr & E' & L & _) end.
    rewrite E'.
    exists ([EvHttpClient (Ok c); EvBaseRepo (Ok repo)]
              ++ [EvGetRun arg0 (Ok run); EvPullRequestForRun run n;
                  EvWrite clearScreen] ++ tr).
    split; [now rewrite app_nil_r, <- !app_assoc|]. split.
    + rewrite !count_app, (PL tr L). reflexivity.
    + intros c'' repo' E1 E2. simpl in F1, F3. rewrite E1 in F1.
      injection F1 as <-. rewrite E2 in F3. injection F3 as <-.
      simpl. eauto.
Qed.

End WatchExtras.

(** The pause is the same after every turn, and it is fixed by the options
    alone: one duration, chosen before the helpers, the world, the run and
    the number of turns are known, is that of every sleep of the loop. *)
Theorem pause_is_the_same_after_every_turn
        {HTTPClient Client Repo ColorScheme Time Job Annotation : Type}
        (opts : WatchOptions HTTPClient Repo ColorScheme Time Job Annotation) :
  exists d,
    forall (hp : Helpers HTTPClient Client ColorScheme Time Job Annotation)
           (w : World HTTPClient Client Repo ColorScheme Time Job Annotation)
           fuel client repo run prNumber h,
    exists out tr,
      watchLoop hp w fuel opts client repo run prNumber h = (out, h ++ tr) /\
      Forall (eq d) (sleeps_of tr).
Proof.
  exists (int_mul (Interval opts) 1000).
  intros hp w fuel client repo run prNumber h.
  apply watchLoop_sleeps.
Qed.

(** The run 7 does not exist: [gh run watch 7] stops at its first fetch,
    with the set-up behind it and nothing written.  With no selector, in a
    session where the prompt is cancelled, it stops at the prompt. *)
Lemma watch_ends_before_its_loop_witness :
  (exists err,
      wraps "failed to get run" (New "run not found") err /\
      watchRun helpers (world [] buildAndTest lint (Ok 42%Z)) 3 watch7 []
      = (Returned (Some err),
         afterSetUp ++ [EvGetRun "7" (Err (New "run not found"))]))
  /\
  watchRun helpers
    {| GetRun := GetRun usual; GetJobs := GetJobs usual;
       GetAnnotations := GetAnnotations usual;
       PullRequestForRun := PullRequestForRun usual;
       PromptForRun := fun _ _ _ _ => Err (New "cancelled");
       time_Now := time_Now usual |}
    3 (set_Prompt (NewCmdWatch_opts usual (factory true (Ok tt))) true) []
  = (Returned (Some (New "cancelled")),
     [] ++ [EvHttpClient (Ok tt); EvBaseRepo (Ok tt);
            EvPromptForRun (Err (New "cancelled"))]).
Proof.
  split.
  - apply (proj2 (watch_ends_before_its_loop
                    helpers (world [] buildAndTest lint (Ok 42%Z)) 3 watch7 [])
             tt tt "7" afterSetUp (New "run not found")).
    + exists tt. now repeat split.
    + reflexivity.
  - apply (proj1 (watch_ends_before_its_loop helpers _ 3 _ []) tt tt);
      reflexivity.
Defined.

(** [gh run watch 7] in a session that can prompt: no prompt, and the
    first fetch asks for the run 7. *)
Lemma selector_argument_is_fetched_witness :
  exists tr r tr',
    snd (RunE helpers usual 5 (factory true (Ok tt)) None ["7"] []) = [] ++ tr /\
    count is_PromptForRun tr = 0 /\
    tr = EvHttpClient (Ok tt) :: EvBaseRepo (Ok tt) :: EvGetRun "7" r :: tr'.
Proof.
  destruct (selector_argument_is_fetched
              helpers usual 5 (factory true (Ok tt)) "7" [] [])
    as (tr & E & C & F).
  destruct (F tt tt eq_refl eq_refl) as (r & tr' & T).
  exists tr, r, tr'. split; [exact E|]. split; [exact C|exact T].
Defined.

(** * Properties of the view command *)

Section ViewFacts.

Import View.

Context {HTTPClient Client Repo ColorScheme Time Theme Style WorkflowState
         : Type}.
Variable hp :
  Helpers HTTPClient Client Repo ColorScheme Time Theme Style WorkflowState.
Variable w : World HTTPClient Client Repo ColorScheme Time Theme WorkflowState.

Abbreviation VTrace := (trace HTTPClient Repo Time).
Abbreviation VOptions := (ViewOptions HTTPClient Repo ColorScheme Time).

#[local] Arguments String.append : simpl never.

Ltac vunfold :=
  unfold runView, viewWorkflowContent, viewWorkflowInfo, webURL,
    getWorkflowContent, getWorkflowRuns, client_REST_Content,
    client_REST_Runs, IO_StartPager, IO_StopPager, StartProgressIndicator,
    StopProgressIndicator, Fprint, defer, bind, ask, peek, emit, ret.

Ltac vcase :=
  match goal with
  | |- context [match ?x with _ => _ end] =>
      lazymatch x with
      | context [match _ with _ => _ end] => fail
      | _ => destruct x eqn:?
      end
  end.

Ltac vtrace := simpl; repeat rewrite <- app_assoc; reflexivity.

(** ** The loops *)

Lemma rangeWorkflowRuns_app (runs recent : list (runShared.Run Time)) :
  rangeWorkflowRuns runs recent = recent ++ runs.
Proof.
  revert recent. induction runs as [|run runs IH]; intros recent; simpl.
  - now rewrite app_nil_r.
  - now rewrite IH, <- app_assoc.
Qed.

Lemma clamp_is_max (z : Z) : (if (z <? 0)%Z then 0%Z else z) = Z.max 0 z.
Proof. destruct (Z.ltb_spec z 0); lia. Qed.

Lemma addRun_delta (opts : VOptions) run (h : VTrace) :
  exists tr,
    addRun hp opts run h = (tt, h ++ tr) /\
    forallb is_table tr = true /\
    forall rows row rest,
      rendered rows row (tr ++ rest)
      = rendered (rows ++ [row ++ fields_of hp opts run]) [] rest.
Proof.
  unfold addRun, fields_of, AddField, EndRow, bind, emit, ret.
  destruct (Raw opts);
    [|destruct (Symbol hp (ColorScheme_ (IO opts)) (runShared.Status run)
                 (runShared.Conclusion run)) as [symbol symbolColor]];
    (eexists; split; [vtrace|]; split; [reflexivity|]);
    intros rows row rest; simpl; rewrite ?clamp_is_max;
    repeat rewrite <- app_assoc; reflexivity.
Qed.

Lemma rangeRecentRuns_delta (opts : VOptions) runs (h : VTrace) :
  exists tr,
    rangeRecentRuns hp opts runs h = (tt, h ++ tr) /\
    forallb is_table tr = true /\
    forall rows rest,
      rendered rows [] (tr ++ rest)
      = rendered (rows ++ map (fields_of hp opts) runs) [] rest.
Proof.
  revert h. induction runs as [|run runs IH]; intros h; simpl.
  - exists []. unfold ret. rewrite app_nil_r. split; [reflexivity|].
    split; [reflexivity|]. intros rows rest. now rewrite app_nil_r.
  - unfold bind.
    destruct (addRun_delta opts run h) as (tr1 & -> & T1 & R1).
    destruct (IH (h ++ tr1)) as (tr2 & -> & T2 & R2).
    exists (tr1 ++ tr2). split; [now rewrite app_assoc|].
    split; [now rewrite forallb_app, T1, T2|].
    intros rows rest. now rewrite <- app_assoc, R1, R2, <- app_assoc.
Qed.

(** ** Traces of the table printer *)

Lemma indicator_table (tr rest : VTrace) :
  forallb is_table tr = true ->
  indicator Idle (tr ++ rest) = indicator Idle rest.
Proof.
  induction tr as [|ev tr IH]; simpl; auto.
  intros T. apply andb_prop in T as [T1 T2].
  destruct ev; try discriminate; auto.
Qed.

Lemma writes_to_table to (tr rest : VTrace) :
  forallb is_table tr = true ->
  writes_to to (tr ++ rest) = writes_to to rest.
Proof.
  induction tr as [|ev tr IH]; simpl; auto.
  intros T. apply andb_prop in T as [T1 T2].
  destruct ev; try discriminate; auto.
Qed.

Lemma vcount_app (p : event HTTPClient Repo Time -> bool) (tr1 tr2 : VTrace) :
  count p (tr1 ++ tr2) = count p tr1 + count p tr2.
Proof. unfold count. now rewrite filter_app, length_app. Qed.

Lemma vcount_cons (p : event HTTPClient Repo Time -> bool) ev (tr : VTrace) :
  count p (ev :: tr) = (if p ev then 1 else 0) + count p tr.
Proof. unfold count. simpl. now destruct (p ev). Qed.

Lemma vcount_table (p : event HTTPClient Repo Time -> bool) (tr : VTrace) :
  (forall ev, is_table ev = true -> p ev = false) ->
  forallb is_table tr = true ->
  count p tr = 0.
Proof.
  intros D. induction tr as [|ev tr IH]; simpl; auto.
  intros T. apply andb_prop in T as [T1 T2].
  unfold count in *. simpl. rewrite (D ev T1). auto.
Qed.

Ltac vstep :=
  simpl;
  first
    [ match goal with
      | |- context [Write w ?h0 ?to ?s] =>
          lazymatch goal with
          | |- context [match Write w h0 to s with _ => _ end] => fail
          | _ => generalize (Write w h0 to s); intro
          end
      end
    | match goal with
      | |- context [rangeRecentRuns hp ?o ?r ?h0] =>
          let rows := fresh "rows" in
          let T := fresh "T" in
          let R := fresh "R" in
          destruct (rangeRecentRuns_delta o r h0) as (rows & -> & T & R)
      end
    | vcase ].

(** ** The progress indicator *)

(** Whatever the options and whatever the world answers, [runView] leaves
    the progress indicator idle: each start is followed by exactly one
    call that goes over the network and then by the stop, also when that
    call fails; every such call is made while the indicator runs; and
    nothing else happens while it runs (nothing is written, no pager is
    started, no browser opened). *)
Theorem progress_indicator_is_never_left_running (opts : VOptions) h :
  exists tr,
    snd (runView hp w opts h) = h ++ tr /\
    indicator Idle tr = true.
Proof.
  vunfold. repeat vstep.
  all: eexists; (split; [vtrace|]).
  all: simpl; rewrite ?indicator_table by assumption; reflexivity.
Qed.


(** ** The table of recent runs *)

Lemma fields_of_length (opts : VOptions) run :
  length (fields_of hp opts run) = if Raw opts then 8 else 6.
Proof. unfold fields_of. now destruct (Raw opts). Qed.

(** When the runs of the workflow can be fetched, [viewWorkflowInfo] asks
    for the first page of five runs of the workflow, in the repository
    that [BaseRepo] names, and hands the table printer one row for each
    run of the answer, in the order of the answer: eight fields in raw
    mode (status, conclusion, commit message, name, branch, event, elapsed
    time, which is never negative, and ID), six otherwise (a symbol for
    status and conclusion, and no elapsed time).  The table is rendered
    once, when all rows are in it. *)
Theorem one_row_per_run (opts : VOptions) client workflow h repo payload :
  BaseRepo opts h = Ok repo ->
  REST_Runs w (h ++ [EvBaseRepo (Ok repo); EvStartProgressIndicator]) client
    (RepoHost hp repo) "GET"
    ("repos/" ++ FullName hp repo ++ "/actions/workflows/"
     ++ itoa (shared.ID workflow) ++ "/runs?per_page=5&page=1")%string
  = Ok payload ->
  exists e tr,
    viewWorkflowInfo hp w opts client workflow h = (e, h ++ tr) /\
    In (EvRESTRuns (RepoHost hp repo) "GET"
          ("repos/" ++ FullName hp repo ++ "/actions/workflows/"
           ++ itoa (shared.ID workflow) ++ "/runs?per_page=5&page=1")%string
          (Ok payload)) tr /\
    rendered [] [] tr
    = [map (fields_of hp opts) (runShared.WorkflowRuns payload)] /\
    Forall (fun row => length row = if Raw opts then 8 else 6)
           (map (fields_of hp opts) (runShared.WorkflowRuns payload)).
Proof.
  intros E1 E2.
  assert (Rows : Forall (fun row => length row = if Raw opts then 8 else 6)
                   (map (fields_of hp opts) (runShared.WorkflowRuns payload))).
  { apply Forall_forall. intros row I. apply in_map_iff in I as (run & <- & _).
    apply fields_of_length. }
  vunfold.
  change ("/runs?per_page=" ++ itoa 5 ++ "&page=" ++ itoa 1)%string
    with "/runs?per_page=5&page=1".
  simpl. rewrite E1. simpl. rewrite <- app_assoc. simpl.
  rewrite E2. simpl. rewrite rangeWorkflowRuns_app. simpl.
  repeat vstep.
  all: eexists; eexists; (split; [vtrace|]).
  all: split; [simpl; auto|].
  all: split; [|exact Rows].
  all: simpl; rewrite R; reflexivity.
Qed.

(** ** The workflow file *)

Lemma substring_last (s : string) c :
  substring (String.length s) 1 (String c s)
  = match s with
    | EmptyString => String c EmptyString
    | String c' s' => substring (String.length s') 1 s
    end.
Proof. destruct s; reflexivity. Qed.

Lemma HasSuffix_nl (s : string) :
  HasSuffix s nl = true <-> last_char s = Some "010"%char.
Proof.
  unfold HasSuffix. destruct s as [|c s]; [simpl; split; discriminate|].
  change (String.length nl) with 1.
  change (String.length (String c s)) with (S (String.length s)).
  replace (S (String.length s) - 1) with (String.length s) by lia.
  simpl (1 <=? _)%nat. rewrite andb_true_l.
  revert c. induction s as [|c' s IH]; intros c.
  - change ((String c EmptyString =? nl)%string = true
            <-> Some c = Some "010"%char).
    rewrite String.eqb_eq. unfold nl.
    split; intros E; injection E as ->; reflexivity.
  - rewrite substring_last. change (last_char (String c (String c' s)))
      with (last_char (String c' s)). apply IH.
Qed.

Lemma concat_two (s1 s2 : string) :
  String.concat "" [s1; s2] = (s1 ++ s2)%string.
Proof. reflexivity. Qed.

(** In raw mode, when the file can be fetched and written, what
    [viewWorkflowContent] writes to the output is the file and a newline
    if the file does not end with one: the output always ends with a
    newline, and a file that ends with one is written unchanged. *)
Theorem raw_yaml_ends_with_a_newline
        (opts : VOptions) client workflow h repo yaml h2 :
  Raw opts = true ->
  BaseRepo opts h = Ok repo ->
  getWorkflowContent hp w client repo (Ref opts) workflow
    (h ++ [EvBaseRepo (Ok repo); EvStartProgressIndicator])
  = (Ok yaml, h2) ->
  (forall h' s, Write w h' Out s = None) ->
  exists tr,
    viewWorkflowContent hp w opts client workflow h = (None, h ++ tr) /\
    last_char (String.concat "" (writes_to Out tr)) = Some "010"%char /\
    (last_char yaml = Some "010"%char ->
     String.concat "" (writes_to Out tr) = yaml) /\
    (last_char yaml <> Some "010"%char ->
     String.concat "" (writes_to Out tr) = (yaml ++ nl)%string).
Proof.
  intros Raw_ E1 E2 W.
  assert (G : exists ev, h2 = (h ++ [EvBaseRepo (Ok repo);
                                     EvStartProgressIndicator]) ++ [ev]
                         /\ is_REST ev = true).
  { revert E2. unfold getWorkflowContent, client_REST_Content, bind, ask, ret.
    repeat vcase; intros E; injection E as _ <-; eexists; split;
      reflexivity. }
  destruct G as (ev & -> & RE).
  unfold viewWorkflowContent.
  unfold bind at 1. unfold ask at 1. rewrite E1.
  unfold bind at 1. unfold StartProgressIndicator at 1. unfold emit at 1.
  unfold bind at 1. rewrite <- app_assoc. simpl (_ ++ _). rewrite E2.
  rewrite Raw_.
  unfold IO_StartPager, IO_StopPager, StartProgressIndicator,
    StopProgressIndicator, Fprint, defer, bind, ask, peek, emit, ret.
  simpl. destruct (StartPager w _) as [err|]; simpl; rewrite !W;
    destruct (HasSuffix yaml nl) eqn:S; simpl; rewrite ?W;
    (eexists; split; [vtrace|]);
    destruct ev; try discriminate RE; simpl.
  all: try apply HasSuffix_nl in S.
  all: try (assert (N : last_char yaml <> Some "010"%char)
             by (intros L; apply HasSuffix_nl in L; congruence)).
  all: repeat split; try assumption; try reflexivity;
    try (intros; congruence); try apply last_char_nl.
Qed.

(** ** The pager *)

(** [viewWorkflowContent] sends its output through the pager, whatever
    happens: it writes to the output only after it has started the pager,
    and it stops the pager as the last thing it does, also when rendering
    or writing fails.  It starts the pager at most once; when it does not
    get that far it returns an error and has written nothing.  A pager
    that fails to start costs one line on the error stream, and the file is
    written all the same. *)
Theorem content_goes_through_the_pager (opts : VOptions) client workflow h :
  exists e tr,
    viewWorkflowContent hp w opts client workflow h = (e, h ++ tr) /\
    paged false tr = true /\
    match pager_starts tr with
    | [] => e <> None /\ count is_write tr = 0
    | [p] =>
        writes_to Out tr <> [] /\
        writes_to ErrOut tr
        = match p with
          | Some err => [("starting pager failed: " ++ Error err ++ nl)%string]
          | None => []
          end /\
        exists before, tr = before ++ [EvStopPager]
    | _ => False
    end.
Proof.
  vunfold. repeat vstep.
  all: eexists; eexists; (split; [vtrace|]).
  all: simpl; (split; [reflexivity|]).
  all: try (split; [discriminate|reflexivity]).
  all: split; [discriminate|]; (split; [reflexivity|]).
  all: first [ now eexists [_; _; _; _; _; _]
             | now eexists [_; _; _; _; _; _; _]
             | now eexists [_; _; _; _; _; _; _; _]
             | now eexists [_; _; _; _; _; _; _; _; _] ].
Qed.

(** ** The command line *)

(** With [--yaml] the command never prompts for a workflow: it runs only
    with a selector from the command line that is not empty, and with
    prompting off; without one it returns a usage error and does nothing,
    whether the session can prompt or not.  (Arguments after the first are
    not looked at.) *)
Theorem yaml_needs_a_selector
        (f : Factory HTTPClient Repo ColorScheme Time) web ref runF args h :
  (exists msg,
      RunE hp w f web true ref runF args h
      = (Some (FlagError (New msg)), h))
  \/
  (exists arg0 rest opts,
      args = arg0 :: rest /\ arg0 <> "" /\
      RunE hp w f web true ref runF args h
      = match runF with
        | Some runF => runF opts h
        | None => runView hp w opts h
        end /\
      Selector opts = arg0 /\ Prompt opts = false /\ Yaml opts = true /\
      Ref opts = ref /\ Web opts = web /\
      Raw opts = negb (CanPrompt (f_IOStreams f))).
Proof.
  unfold RunE, ret. destruct args as [|arg0 rest]; simpl.
  - left. destruct (CanPrompt (f_IOStreams f)); simpl; eauto.
  - destruct (String.eqb_spec arg0 "") as [->|N]; simpl.
    + left. eauto.
    + right. exists arg0, rest. eexists. split; [reflexivity|].
      split; [exact N|]. split; [destruct runF; reflexivity|].
      simpl. auto 10.
Qed.

(** ** The browser *)

(** With [--web], [runView] fetches neither the file nor the runs, starts
    no pager and prints no table; it asks for the base repository once;
    it looks up the default branch only for [--yaml] without a ref; it
    writes nothing unless the output is a terminal.  Opening the browser
    is the last thing it does, and what that returns is what it returns;
    when it does not get that far it returns an error. *)
Theorem web_mode_only_opens_the_browser (opts : VOptions) h :
  Web opts = true ->
  exists e tr,
    runView hp w opts h = (e, h ++ tr) /\
    count is_REST tr = 0 /\
    count is_StartPager tr = 0 /\
    count is_table tr = 0 /\
    count is_Render tr = 0 /\
    count is_BaseRepo tr <= 1 /\
    (count is_RepoDefaultBranch tr = 0
     \/ count is_RepoDefaultBranch tr = 1
        /\ Yaml opts = true /\ Ref opts = "") /\
    (IsStdoutTTY (IO opts) = false -> count is_write tr = 0) /\
    (count is_OpenInBrowser tr = 0 /\ e <> None
     \/ exists before url,
          tr = before ++ [EvOpenInBrowser url e] /\
          count is_OpenInBrowser before = 0 /\
          e = OpenInBrowser opts (h ++ before) url).
Proof.
  intros Web_. vunfold. rewrite Web_. repeat vstep.
  all: eexists; eexists; (split; [vtrace|]).
  all: simpl; do 5 (split; [unfold count; simpl; lia|]).
  all: split;
    [first [ left; reflexivity
           | right; split; [reflexivity|];
             split; [reflexivity|]; now apply String.eqb_eq ]|].
  all: split; [first [discriminate | reflexivity]|].
  all: first
         [ left; split; [reflexivity|discriminate]
         | right;
           let finish :=
             (eexists; split; [reflexivity|]; split; [reflexivity|];
              simpl; repeat rewrite <- app_assoc; reflexivity) in
           first [ solve [eexists [_; _; _]; finish]
                 | solve [eexists [_; _; _; _]; finish]
                 | solve [eexists [_; _; _; _; _; _]; finish]
                 | solve [eexists [_; _; _; _; _; _; _]; finish] ] ].
Qed.

(** ** Fetching the file *)

Lemma chain_self (err : error) : In err (chain err).
Proof. destruct err; simpl; auto. Qed.

(** [viewWorkflowContent] fetches the file from the contents of the
    repository that [BaseRepo] names, at the path of the workflow, with
    the ref as a query only when a ref is given.  When the fetch fails,
    or the content cannot be decoded, it stops there: the indicator is
    stopped, nothing is written, no pager is started, and the error says
    what failed, with the cause in its chain. *)
Theorem content_is_fetched_at_the_ref (opts : VOptions) client workflow h repo :
  BaseRepo opts h = Ok repo ->
  exists e r rest,
    viewWorkflowContent hp w opts client workflow h
    = (e, h ++ [EvBaseRepo (Ok repo); EvStartProgressIndicator;
                EvRESTContent (RepoHost hp repo) "GET"
                  (if (Ref opts =? "")%string
                   then "repos/" ++ FullName hp repo ++ "/contents/"
                        ++ shared.Path workflow
                   else ("repos/" ++ FullName hp repo ++ "/contents/"
                         ++ shared.Path workflow)
                        ++ "?ref=" ++ QueryEscape hp (Ref opts))%string
                  r;
                EvStopProgressIndicator] ++ rest) /\
    count is_REST rest = 0 /\
    match r with
    | Err cause =>
        rest = [] /\
        exists err,
          e = Some err /\ In cause (chain err) /\
          Error err
          = ("could not get workflow file content: " ++ Error cause)%string
    | Ok content =>
        match DecodeString hp content with
        | Err cause =>
            rest = [] /\
            exists err,
              e = Some err /\ In cause (chain err) /\
              Error err
              = ("could not get workflow file content: "
                 ++ "failed to decode workflow file: " ++ Error cause)%string
        | Ok _ => pager_starts rest <> []
        end
    end.
Proof.
  intros E1. vunfold. simpl. rewrite E1.
  destruct (Ref opts =? "")%string; simpl.
  all: repeat vstep.
  all: do 3 eexists; (split; [vtrace|]).
  all: rewrite ?app_nil_r; (split; [reflexivity|]); simpl.
  all: match goal with
       | H : DecodeString _ _ = _ |- _ => rewrite H
       | _ => idtac
       end.
  all: try discriminate.
  all: split; [reflexivity|]; eexists; (split; [reflexivity|]); simpl.
  all: split; [auto using chain_self|reflexivity].
Qed.

(** ** The summary *)

Lemma writes_to_table_nil to (tr : VTrace) :
  forallb is_table tr = true -> writes_to to tr = [].
Proof.
  intros T. rewrite <- (app_nil_r tr). now rewrite writes_to_table.
Qed.

(** What [viewWorkflowInfo] writes when the runs can be fetched: the name
    and the file, the ID, the total number of runs as the answer states it
    and, when that number is not zero, the heading of the table, whether
    or not the answer lists any run; after the table, unless rendering it
    failed (the error is then returned and nothing more is written), an
    empty line, a hint at [gh run list] when the total is not zero, and a
    hint at the YAML view.  Nothing goes to the error stream. *)
Theorem info_follows_the_total (opts : VOptions) client workflow h repo payload :
  BaseRepo opts h = Ok repo ->
  REST_Runs w (h ++ [EvBaseRepo (Ok repo); EvStartProgressIndicator]) client
    (RepoHost hp repo) "GET"
    ("repos/" ++ FullName hp repo ++ "/actions/workflows/"
     ++ itoa (shared.ID workflow) ++ "/runs?per_page=5&page=1")%string
  = Ok payload ->
  exists e before r after,
    viewWorkflowInfo hp w opts client workflow h
    = (e, h ++ before ++ EvRender r :: after) /\
    e = r /\
    writes_to ErrOut (before ++ after) = [] /\
    writes_to Out before
    = [ (Bold hp (ColorScheme_ (IO opts)) (shared.Name workflow) ++ " - "
         ++ Gray hp (ColorScheme_ (IO opts)) (Base hp (shared.Path workflow))
         ++ nl)%string;
        ("ID: " ++ Cyanf hp (ColorScheme_ (IO opts)) "%d" [shared.ID workflow]
         ++ nl ++ nl)%string;
        ("Total runs " ++ itoa (runShared.TotalCount payload) ++ nl)%string ]
      ++ (if (runShared.TotalCount payload =? 0)%Z then []
          else [("Recent runs" ++ nl)%string]) /\
    writes_to Out after
    = match r with
      | Some _ => []
      | None =>
          [nl]
          ++ (if (runShared.TotalCount payload =? 0)%Z then []
              else [("To see more runs for this workflow, try: "
                     ++ "gh run list --workflow "
                     ++ itoa (shared.ID workflow) ++ nl)%string])
          ++ [("To see the YAML for this workflow, try: gh workflow view "
               ++ itoa (shared.ID workflow) ++ " --yaml" ++ nl)%string]
      end.
Proof.
  intros E1 E2. vunfold.
  change ("/runs?per_page=" ++ itoa 5 ++ "&page=" ++ itoa 1)%string
    with "/runs?per_page=5&page=1".
  simpl. rewrite E1. simpl. rewrite <- app_assoc. simpl.
  rewrite E2. simpl. rewrite rangeWorkflowRuns_app. simpl.
  destruct (runShared.TotalCount payload =? 0)%Z; simpl.
  all: repeat vstep.
  all: simpl; repeat rewrite <- app_assoc; simpl.
  all: match goal with
       | |- context [?rows ++ EvRender ?r :: ?after] =>
           let finish :=
             (exists r, after;
              split; [simpl; repeat rewrite <- app_assoc; reflexivity|];
              split; [reflexivity|];
              split; [simpl; rewrite writes_to_table by assumption;
                      reflexivity|];
              split; [simpl; rewrite writes_to_table_nil by assumption;
                      reflexivity|];
              reflexivity) in
           eexists;
           first [ solve [eexists ([_; _; _; _; _; _; _] ++ rows); finish]
                 | solve [eexists ([_; _; _; _; _; _; _; _] ++ rows); finish] ]
       end.
Qed.

(** ** Resolving the workflow *)

Lemma errors_As_chain hasType (err : error) :
  errors_As hasType err = existsb hasType (chain err).
Proof.
  induction err as [msg|msg err IH|err IH]; simpl.
  - reflexivity.
  - now rewrite IH.
  - now rewrite IH.
Qed.

(** [runView] looks for the workflow among the active workflows only,
    with the selector and the prompt flag of the options.  When that
    fails it stops there, having written nothing: it returns the error as
    it is, not wrapped, unless a [FilteredAllError] is in the chain of the
    error, in which case it returns a new error that says that there are
    no enabled workflows. *)
Theorem unresolved_workflow_shows_nothing (opts : VOptions) h c repo err :
  HttpClient opts h = Ok c ->
  BaseRepo opts (h ++ [EvHttpClient (Ok c)]) = Ok repo ->
  ResolveWorkflow w (h ++ [EvHttpClient (Ok c); EvBaseRepo (Ok repo)])
    (IO opts) (NewClientFromHTTP hp c) repo (Prompt opts) (Selector opts)
    [Active hp]
  = Err err ->
  exists e,
    runView hp w opts h
    = (Some e,
       h ++ [EvHttpClient (Ok c); EvBaseRepo (Ok repo);
             EvResolveWorkflow (Prompt opts) (Selector opts) (Err err)]) /\
    ((exists e', In e' (chain err) /\ IsFilteredAllError hp e' = true) ->
     e = New "there are no enabled workflows") /\
    ((forall e', In e' (chain err) -> IsFilteredAllError hp e' = false) ->
     e = err).
Proof.
  intros E1 E2 E3. vunfold. simpl. rewrite E1. simpl. rewrite E2. simpl.
  rewrite <- app_assoc. simpl. rewrite E3.
  rewrite errors_As_chain.
  destruct (existsb (IsFilteredAllError hp) (chain err)) eqn:X;
    (eexists; split; [vtrace|]).
  - split; [reflexivity|]. intros A.
    apply existsb_exists in X as (e' & I & F). rewrite (A e' I) in F.
    discriminate.
  - split; [|reflexivity]. intros (e' & I & F).
    assert (Y : existsb (IsFilteredAllError hp) (chain err) = true)
      by (apply existsb_exists; eauto).
    congruence.
Qed.

(** ** The repository *)

(** Without [--web], [runView] asks for the base repository a second time
    once the workflow is resolved, and what it then fetches, it fetches
    with a GET from the host of the repository of that second answer; it
    fetches at most once, and it neither looks up the default branch nor
    opens the browser. *)
Theorem repository_is_asked_for_again (opts : VOptions) h :
  Web opts = false ->
  exists e tr,
    runView hp w opts h = (e, h ++ tr) /\
    count is_RepoDefaultBranch tr = 0 /\
    count is_OpenInBrowser tr = 0 /\
    match rest_calls tr with
    | [] => True
    | [(hostname, method)] =>
        method = "GET" /\
        exists repo1 repo2,
          repos_of tr = [repo1; repo2] /\ hostname = RepoHost hp repo2
    | _ => False
    end.
Proof.
  intros Web_.
  assert (C : forall (p : event HTTPClient Repo Time -> bool)
                     (tr rest : VTrace),
             (forall ev, is_table ev = true -> p ev = false) ->
             forallb is_table tr = true ->
             count p (tr ++ rest) = count p rest)
    by (intros p tr rest D T; now rewrite vcount_app, (vcount_table p tr D T)).
  assert (RC : forall tr rest : VTrace,
             forallb is_table tr = true ->
             rest_calls (tr ++ rest) = rest_calls rest).
  { induction tr as [|ev tr IH]; simpl; auto. intros rest T.
    apply andb_prop in T as [T1 T2]. destruct ev; try discriminate; auto. }
  assert (RO : forall tr rest : VTrace,
             forallb is_table tr = true ->
             repos_of (tr ++ rest) = repos_of rest).
  { induction tr as [|ev tr IH]; simpl; auto. intros rest T.
    apply andb_prop in T as [T1 T2]. destruct ev; try discriminate; auto. }
  vunfold. rewrite Web_. repeat vstep.
  all: eexists; eexists; (split; [vtrace|]).
  all: simpl; rewrite ?vcount_cons;
    rewrite ?C by (assumption || (intros ev; destruct ev; simpl; congruence));
    rewrite ?RC, ?RO by assumption; simpl.
  all: split; [reflexivity|]; (split; [reflexivity|]).
  all: first [ exact I | split; [reflexivity|]; eauto ].
Qed.

(** ** From the command line to the output *)

(** [gh workflow view <selector> --yaml] in a session that cannot prompt
    (a pipe, say), when every call succeeds: the command returns nil and
    what it has written to the output is the decoded file, and a newline
    if the file does not end with one.  No header, no markdown: the output
    is the file, ready for the next program. *)
Theorem piped_yaml_is_the_file
        (f : Factory HTTPClient Repo ColorScheme Time) ref arg0 rest h
        c repo workflow content yaml :
  CanPrompt (f_IOStreams f) = false ->
  arg0 <> "" ->
  (forall h', f_HttpClient f h' = Ok c) ->
  (forall h', f_BaseRepo f h' = Ok repo) ->
  (forall h' io client r p s states,
      ResolveWorkflow w h' io client r p s states = Ok workflow) ->
  (forall h' client hostname method path,
      REST_Content w h' client hostname method path = Ok content) ->
  DecodeString hp content = Ok yaml ->
  (forall h' s, Write w h' Out s = None) ->
  exists tr,
    RunE hp w f false true ref None (arg0 :: rest) h = (None, h ++ tr) /\
    last_char (String.concat "" (writes_to Out tr)) = Some "010"%char /\
    (last_char yaml = Some "010"%char ->
     String.concat "" (writes_to Out tr) = yaml) /\
    (last_char yaml <> Some "010"%char ->
     String.concat "" (writes_to Out tr) = (yaml ++ nl)%string).
Proof.
  intros NP N H1 H2 H3 H4 H5 H6.
  unfold RunE. cbn [Selector set_Selector Yaml set_Raw NewCmdView_opts].
  apply String.eqb_neq in N. rewrite N. cbn [andb].
  vunfold.
  cbn [HttpClient BaseRepo set_Selector set_Raw NewCmdView_opts Web Yaml Raw
       IO Prompt Selector Ref].
  rewrite NP. simpl. rewrite H1. simpl. rewrite H2. simpl. rewrite H3. simpl.
  rewrite H2. simpl. rewrite H4. simpl. rewrite H5. simpl.
  destruct (StartPager w _) as [err|]; simpl; rewrite !H6;
    destruct (HasSuffix yaml nl) eqn:S; simpl; rewrite ?H6;
    (eexists; split; [vtrace|]); simpl.
  all: try apply HasSuffix_nl in S.
  all: try (assert (NL : last_char yaml <> Some "010"%char)
             by (intros L; apply HasSuffix_nl in L; congruence)).
  all: repeat split; try assumption; try reflexivity;
    try (intros; congruence); try apply last_char_nl.
Qed.

End ViewFacts.

(** ** The properties at work *)

Section ViewWitnesses.

Import View View.Demo.

Lemma one_row_per_run_witness :
  exists e tr,
    viewWorkflowInfo helpers usual (options usual false false false) tt ci []
    = (e, [] ++ tr) /\
    rendered [] [] tr
    = [[["completed"; "success"; "commit of CI"; "CI"; "trunk"; "push";
         "60ns"; "101"];
        ["in_progress"; ""; "commit of CI"; "CI"; "fix"; "pull_request";
         "0ns"; "102"]]].
Proof.
  destruct (one_row_per_run helpers usual (options usual false false false)
              tt ci [] (repo:="cli/cli") (payload:=twoRuns))
    as (e & tr & E & _ & R & _); [reflexivity|reflexivity|].
  exists e, tr. split; [exact E|exact R].
Defined.

Lemma raw_yaml_ends_with_a_newline_witness :
  exists tr,
    viewWorkflowContent helpers usual (options usual false false true) tt ci []
    = (None, [] ++ tr) /\
    String.concat "" (writes_to Out tr) = ("on: push" ++ nl)%string.
Proof.
  assert (N : last_char "on: push" <> Some "010"%char) by discriminate.
  destruct (raw_yaml_ends_with_a_newline helpers usual
              (options usual false false true) tt ci []
              (repo:="cli/cli") (yaml:="on: push") eq_refl eq_refl eq_refl
              (fun _ _ => eq_refl))
    as (tr & E & _ & _ & A).
  exists tr. split; [exact E|exact (A N)].
Defined.

Lemma web_mode_only_opens_the_browser_witness :
  exists e tr,
    runView helpers usual (options usual true true true) []
    = (e, [] ++ tr) /\
    count is_REST tr = 0 /\
    count is_StartPager tr = 0.
Proof.
  destruct (web_mode_only_opens_the_browser helpers usual
              (options usual true true true) [] eq_refl)
    as (e & tr & E & C1 & C2 & _).
  exists e, tr. auto.
Defined.

Lemma content_is_fetched_at_the_ref_witness :
  exists e r rest,
    viewWorkflowContent helpers contentDown
      (options contentDown false false true) tt ci []
    = (e, [] ++ [EvBaseRepo (Ok "cli/cli"); EvStartProgressIndicator;
                 EvRESTContent "github.com" "GET"
                   "repos/cli/cli/contents/.github/workflows/ci.yml" r;
                 EvStopProgressIndicator] ++ rest) /\
    count is_REST rest = 0.
Proof.
  destruct (content_is_fetched_at_the_ref helpers contentDown
              (options contentDown false false true) tt ci []
              (repo:="cli/cli") eq_refl)
    as (e & r & rest & E & C & _).
  exists e, r, rest. split; [exact E|exact C].
Defined.

Lemma info_follows_the_total_witness :
  exists e before r after,
    viewWorkflowInfo helpers usual (options usual true false false) tt ci []
    = (e, [] ++ before ++ EvRender r :: after) /\
    e = r /\
    writes_to Out before
    = [("CI - .github/workflows/ci.yml" ++ nl)%string;
       ("ID: 12" ++ nl ++ nl)%string;
       ("Total runs 2" ++ nl)%string;
       ("Recent runs" ++ nl)%string].
Proof.
  destruct (info_follows_the_total helpers usual
              (options usual true false false) tt ci []
              (repo:="cli/cli") (payload:=twoRuns) eq_refl eq_refl)
    as (e & before & r & after & E & Er & _ & W & _).
  exists e, before, r, after. split; [exact E|]. split; [exact Er|exact W].
Defined.

Lemma unresolved_workflow_shows_nothing_witness :
  exists e,
    runView helpers allDisabled (options allDisabled false false false) []
    = (Some e,
       [] ++ [EvHttpClient (Ok tt); EvBaseRepo (Ok "cli/cli");
              EvResolveWorkflow false "ci.yml"
                (Err (Errorf_w "could not select a workflow: " (New "")))]) /\
    e = New "there are no enabled workflows".
Proof.
  destruct (unresolved_workflow_shows_nothing helpers allDisabled
              (options allDisabled false false false) []
              (c:=tt) (repo:="cli/cli")
              (err:=Errorf_w "could not select a workflow: " (New ""))
              eq_refl eq_refl eq_refl)
    as (e & E & A & _).
  exists e. split; [exact E|]. apply A. exists (New "").
  split; [simpl; auto|reflexivity].
Defined.

Lemma piped_yaml_is_the_file_witness :
  exists tr,
    RunE helpers usual (factory false) false true "" None ["ci.yml"] []
    = (None, [] ++ tr) /\
    String.concat "" (writes_to Out tr) = ("on: push" ++ nl)%string.
Proof.
  assert (N : "ci.yml" <> "") by discriminate.
  assert (L : last_char "on: push" <> Some "010"%char) by discriminate.
  destruct (@piped_yaml_is_the_file _ _ _ _ _ _ _ _ helpers usual
              (factory false) "" "ci.yml" [] [] tt "cli/cli" ci
              "on: push" "on: push" eq_refl N
              (fun _ => eq_refl) (fun _ => eq_refl)
              (fun _ _ _ _ _ _ _ => eq_refl) (fun _ _ _ _ _ => eq_refl)
              eq_refl (fun _ _ => eq_refl))
    as (tr & E & _ & _ & A).
  exists tr. split; [exact E|exact (A L)].
Defined.

Lemma repository_is_asked_for_again_witness :
  exists e tr,
    runView helpers usual (options usual false false true) []
    = (e, [] ++ tr) /\
    count is_RepoDefaultBranch tr = 0 /\
    count is_OpenInBrowser tr = 0.
Proof.
  destruct (repository_is_asked_for_again helpers usual
              (options usual false false true) [] eq_refl)
    as (e & tr & E & C1 & C2 & _).
  exists e, tr. auto.
Defined.

End ViewWitnesses.
